(** * OAuth callback reconciliation: a shallow embedding

    The repository holds two versions of the [OAuthCallback] component:
    - [src/unnamed/part_001], which looks a connection up by
      (user_id, platform, account_handle) and then updates or inserts
      (module [HandleAware] below);
    - [src/src/components/OAuthCallback.tsx], which upserts on
      (user_id, platform) (module [UpsertVariant] below).
    [fetchAccountInfo] is the same text in both files and is embedded once.

    The handlers are sequences of awaited calls inside one [try]/[catch].
    They are embedded in a reader/state/exception monad: the reader is the
    [World] (what the browser and the backends answer), the state holds the
    two storages, the [social_accounts] table, the React state and a log of
    every effect in program order. *)

From Stdlib Require Import ZArith String Ascii List Bool Lia.
From stdpp Require Import base option list strings gmap fin_maps pretty.

Local Open Scope string_scope.
Local Open Scope Z_scope.

(** ** JavaScript values

    [response.json()] and [JSON.parse] give values of type [any]; the code
    reads them by property access, [||] and template literals. An object
    lists each of its keys once, in insertion order. [JNum] stands for a
    safe integer, of magnitude at most 2^53 - 1 (every integer in that
    range is a number, and the decimal rendering below is what
    [String(n)] and [JSON.stringify(n)] give for it); the readings of the
    clock and the time values of [Date] are in that range. Other numbers
    are outside the model. *)

#[warnings="-register-all"]
Inductive js : Type :=
| undefined
| null
| JBool (b : bool)
| JNum (n : Z)
| JStr (s : string)
| JArr (items : list js)
| JObj (props : list (string * js)).

(** Thrown values: an [Error] (or subclass) with its [message]. What the
    code throws itself is of this kind, and so is what the browser and
    the client libraries throw or reject with; a rejection with a value
    that has no [message] to read ([null], [undefined]) is outside the
    model, as is an awaited call that never settles. *)
Record exn : Type := Throw { exn_name : string; exn_message : string }.

Definition Error (msg : string) : exn := Throw "Error" msg.
Definition TypeError (msg : string) : exn := Throw "TypeError" msg.
Definition SyntaxError (msg : string) : exn := Throw "SyntaxError" msg.
Definition RangeError (msg : string) : exn := Throw "RangeError" msg.

(** JavaScript truthiness (ToBoolean). *)
Definition truthy (v : js) : bool :=
  match v with
  | undefined | null => false
  | JBool b => b
  | JNum n => negb (Z.eqb n 0)
  | JStr s => negb (String.eqb s "")
  | JArr _ | JObj _ => true
  end.

(** [a || b] on already evaluated operands (both are pure reads wherever
    the source uses it on values). *)
Definition js_or (a b : js) : js := if truthy a then a else b.

Fixpoint assoc (k : string) (ps : list (string * js)) : option js :=
  match ps with
  | [] => None
  | (k', v) :: ps' => if String.eqb k' k then Some v else assoc k ps'
  end.

(** [v.k]: reading a property of [undefined] or [null] throws a
    [TypeError]; a missing property reads as [undefined]. None of the
    property names read by this program is defined on the prototype of a
    string, number, boolean or array, so those read as [undefined] too. *)
Definition get_prop (v : js) (k : string) : exn + js :=
  match v with
  | undefined => inl (TypeError ("Cannot read properties of undefined (reading '" +:+ k +:+ "')"))
  | null => inl (TypeError ("Cannot read properties of null (reading '" +:+ k +:+ "')"))
  | JObj ps => inr (default undefined (assoc k ps))
  | _ => inr undefined
  end.

Definition join (sep : string) (parts : list string) : string :=
  match parts with
  | [] => ""
  | p :: ps => fold_left (fun acc q => acc +:+ sep +:+ q) ps p
  end.

(** ToString, as a template literal [`${v}`] applies it. *)
Fixpoint ToString (v : js) : string :=
  match v with
  | undefined => "undefined"
  | null => "null"
  | JBool true => "true"
  | JBool false => "false"
  | JNum n => pretty n
  | JStr s => s
  | JArr items =>
      join ","
        ((fix each (l : list js) : list string :=
            match l with
            | [] => []
            | undefined :: l' | null :: l' => "" :: each l'
            | x :: l' => ToString x :: each l'
            end) items)
  | JObj _ => "[object Object]"
  end.

(** The double quote, as a one-character string. *)
Definition quote : string := String (ascii_of_nat 34) "".

Definition hex_char (n : N) : ascii :=
  if (n <? 10)%N then ascii_of_N (48 + n) else ascii_of_N (87 + n).

(** How [JSON.stringify] writes one character of a string. *)
Definition escape_char (c : ascii) : string :=
  let n := N_of_ascii c in
  if (n =? 34)%N then "\" +:+ quote
  else if (n =? 92)%N then "\\"
  else if (n =? 8)%N then "\b"
  else if (n =? 9)%N then "\t"
  else if (n =? 10)%N then "\n"
  else if (n =? 12)%N then "\f"
  else if (n =? 13)%N then "\r"
  else if (n <? 32)%N then
    "\u00" +:+ String (hex_char (n / 16)) (String (hex_char (n mod 16)) "")
  else String c "".

Fixpoint escape (s : string) : string :=
  match s with
  | EmptyString => ""
  | String c s' => escape_char c +:+ escape s'
  end.

(** [JSON.stringify(v)]: [None] stands for the result [undefined]. In an
    array [undefined] is written [null]; in an object a property whose
    value is [undefined] is left out. *)
Fixpoint JSON_stringify (v : js) : option string :=
  match v with
  | undefined => None
  | null => Some "null"
  | JBool true => Some "true"
  | JBool false => Some "false"
  | JNum n => Some (pretty n)
  | JStr s => Some (quote +:+ escape s +:+ quote)
  | JArr items =>
      Some ("[" +:+
            join ","
              ((fix each (l : list js) : list string :=
                  match l with
                  | [] => []
                  | x :: l' => default "null" (JSON_stringify x) :: each l'
                  end) items) +:+ "]")
  | JObj props =>
      Some ("{" +:+
            join ","
              ((fix each (l : list (string * js)) : list string :=
                  match l with
                  | [] => []
                  | (k, x) :: l' =>
                      match JSON_stringify x with
                      | Some t => (quote +:+ escape k +:+ quote +:+ ":" +:+ t) :: each l'
                      | None => each l'
                      end
                  end) props) +:+ "}")
  end.

(** Structural equality of values, used where the table compares a column
    with a filter argument. *)
Fixpoint js_eqb (a b : js) : bool :=
  match a, b with
  | undefined, undefined => true
  | null, null => true
  | JBool x, JBool y => Bool.eqb x y
  | JNum x, JNum y => Z.eqb x y
  | JStr x, JStr y => String.eqb x y
  | JArr xs, JArr ys =>
      (fix all2 (l1 l2 : list js) : bool :=
         match l1, l2 with
         | [], [] => true
         | x :: l1', y :: l2' => js_eqb x y && all2 l1' l2'
         | _, _ => false
         end) xs ys
  | JObj ps, JObj qs =>
      (fix all2 (l1 l2 : list (string * js)) : bool :=
         match l1, l2 with
         | [], [] => true
         | (k, x) :: l1', (l, y) :: l2' => String.eqb k l && js_eqb x y && all2 l1' l2'
         | _, _ => false
         end) ps qs
  | _, _ => false
  end.

(** The induction principle of [js], with the hypotheses for the values
    nested in arrays and objects. *)
Section js_induction.
Variable P : js -> Prop.
Hypothesis P_undefined : P undefined.
Hypothesis P_null : P null.
Hypothesis P_bool : forall b, P (JBool b).
Hypothesis P_num : forall n, P (JNum n).
Hypothesis P_str : forall s, P (JStr s).
Hypothesis P_arr : forall items, Forall P items -> P (JArr items).
Hypothesis P_obj : forall props, Forall (fun kv : string * js => P kv.2) props -> P (JObj props).

Fixpoint js_nested_ind (v : js) : P v :=
  match v with
  | undefined => P_undefined
  | null => P_null
  | JBool b => P_bool b
  | JNum n => P_num n
  | JStr s => P_str s
  | JArr items =>
      P_arr items
        ((fix all (l : list js) : Forall P l :=
            match l with
            | [] => @List.Forall_nil _ P
            | x :: l' => @List.Forall_cons _ P x l' (js_nested_ind x) (all l')
            end) items)
  | JObj props =>
      P_obj props
        ((fix all (l : list (string * js)) : Forall (fun kv : string * js => P kv.2) l :=
            match l with
            | [] => @List.Forall_nil _ _
            | kv :: l' => @List.Forall_cons _ _ kv l' (js_nested_ind kv.2) (all l')
            end) props)
  end.
End js_induction.

(** ** Browser built-ins on strings *)

(** [s.split(sep)] for a one-character separator. *)
Fixpoint split (sep : ascii) (s : string) : list string :=
  match s with
  | EmptyString => [""]
  | String c s' =>
      if Ascii.eqb c sep then "" :: split sep s'
      else match split sep s' with
           | [] => [String c ""]
           | x :: xs => String c x :: xs
           end
  end.

(** [arr[arr.length - 1]]: [undefined] (here [None]) on an empty array. *)
Definition last_item {A} (arr : list A) : option A :=
  match length arr with
  | O => None
  | S n => arr !! n
  end.

Definition hex_digit (c : ascii) : option N :=
  let n := N_of_ascii c in
  if (48 <=? n)%N && (n <=? 57)%N then Some (n - 48)%N
  else if (65 <=? n)%N && (n <=? 70)%N then Some (n - 55)%N
  else if (97 <=? n)%N && (n <=? 102)%N then Some (n - 87)%N
  else None.

(** Percent-decoding of the application/x-www-form-urlencoded parser.
    Strings are byte strings (UTF-8); the replacement of ill-formed UTF-8
    by U+FFFD is not modelled. *)
Fixpoint percent_decode (s : string) : string :=
  match s with
  | EmptyString => ""
  | String c s' =>
      match s' with
      | String h (String l rest) =>
          match (if Ascii.eqb c "%" then hex_digit h else None), hex_digit l with
          | Some a, Some b => String (ascii_of_N (16 * a + b)) (percent_decode rest)
          | _, _ => String c (percent_decode s')
          end
      | _ => String c (percent_decode s')
      end
  end.

(** Splits at the first occurrence of [sep]; [None] when there is none. *)
Fixpoint cut (sep : ascii) (s : string) : string * option string :=
  match s with
  | EmptyString => ("", None)
  | String c s' =>
      if Ascii.eqb c sep then ("", Some s')
      else let '(a, b) := cut sep s' in (String c a, b)
  end.

Fixpoint plus_to_space (s : string) : string :=
  match s with
  | EmptyString => ""
  | String c s' => String (if Ascii.eqb c "+" then " "%char else c) (plus_to_space s')
  end.

(** [new URLSearchParams(init)]: a leading [?] is dropped, the rest is cut
    at [&], empty pieces are skipped, each piece is cut at its first [=],
    [+] becomes a space and both halves are percent-decoded. *)
Definition URLSearchParams (init : string) : list (string * string) :=
  let query := match init with
               | String c rest => if Ascii.eqb c "?" then rest else init
               | EmptyString => init
               end in
  omap (fun piece : string =>
          if String.eqb piece "" then None
          else let '(name, value) := cut "=" piece in
               Some (percent_decode (plus_to_space name),
                     percent_decode (plus_to_space (default "" value))))
       (split "&" query).

(** [params.get(name)]: the first value under [name], or [null] ([None]). *)
Fixpoint URLSearchParams_get (name : string) (params : list (string * string)) : option string :=
  match params with
  | [] => None
  | (k, v) :: rest => if String.eqb k name then Some v else URLSearchParams_get name rest
  end.

(** The [k] lowest decimal digits of [n], most significant first. *)
Fixpoint digits (k : nat) (n : Z) : string :=
  match k with
  | O => ""
  | S k' => digits k' (n / 10) +:+ String (ascii_of_N (48 + Z.to_N (n mod 10))) ""
  end.

(** [new Date(t).toISOString()] for a time value [t] in milliseconds since
    the epoch: a [RangeError] outside +-8.64e15, otherwise the proleptic
    Gregorian date in UTC, with a signed six-digit year outside 0..9999. *)
Definition toISOString (t : Z) : exn + string :=
  if Z.abs t >? 8640000000000000 then inl (RangeError "Invalid time value")
  else
    let day := t / 86400000 in
    let ms := t mod 86400000 in
    let z := day + 719468 in
    let era := z / 146097 in
    let doe := z - era * 146097 in
    let yoe := (doe - doe / 1460 + doe / 36524 - doe / 146096) / 365 in
    let doy := doe - (365 * yoe + yoe / 4 - yoe / 100) in
    let mp := (5 * doy + 2) / 153 in
    let d := doy - (153 * mp + 2) / 5 + 1 in
    let m := if mp <? 10 then mp + 3 else mp - 9 in
    let y := yoe + era * 400 + (if m <=? 2 then 1 else 0) in
    let year := if (0 <=? y) && (y <=? 9999) then digits 4 y
                else (if y <? 0 then "-" else "+") +:+ digits 6 (Z.abs y) in
    inr (year +:+ "-" +:+ digits 2 m +:+ "-" +:+ digits 2 d +:+ "T" +:+
         digits 2 (ms / 3600000) +:+ ":" +:+ digits 2 (ms / 60000 mod 60) +:+ ":" +:+
         digits 2 (ms / 1000 mod 60) +:+ "." +:+ digits 3 (ms mod 1000) +:+ "Z").

(** ** Data of the flow *)

(** [session.user], of which the code reads only [id]. *)
Record User : Type := { User_id : string }.

(** A backend session; [session?.user] may be missing. *)
Record Session : Type := { user : option User }.

(** What [supabase.auth.setSession] resolves to:
    [{ data: { user, session }, error }]. *)
Record AuthResponse : Type :=
  { data_user : option User; data_session : option Session; auth_error : option exn }.

(** Modelled from the spec: the type of what [exchangeCodeForToken]
    (in [../services/oauth], not among the sources) resolves to, the spec's
    TokenData [{access_token, refresh_token?, expires_in?}]; [expires_in]
    is a whole number of seconds. *)
Record TokenData : Type :=
  { access_token : string; refresh_token : option string; expires_in : option Z }.

(** What [fetch] resolves to: [response.ok] and the outcome of
    [response.json()]. *)
Record Response : Type := { ok : bool; json : exn + js }.

(** [useState<'loading' | 'success' | 'error'>]. *)
Inductive Status : Type := loading | success | error.

(** The closure handed to [setTimeout] on success; it captures [platform]. *)
Inductive callback : Type := SuccessTimeout (platform : string).

(** A row of [social_accounts]: the columns that hold a value. *)
Abbreviation Row := (gmap string js).

(** Requests to [supabase.from('social_accounts')]. *)
Inductive db_request : Type :=
| Select (columns : string) (filters : list (string * js))
| Update (values : Row) (filters : list (string * js))
| Insert (values : Row)
| Upsert (values : Row) (onConflict : list string).

(** Every effect of the page, logged in program order. *)
Inductive event : Type :=
| GetSession
| SetSession (tokens : js)
| ExchangeCode (platform code state : string)
| Fetch (url : string) (headers : list (string * string))
| Db (req : db_request)
| LocalStorage_getItem (key : string)
| LocalStorage_setItem (key value : string)
| LocalStorage_removeItem (key : string)
| SessionStorage_getItem (key : string)
| SessionStorage_removeItem (key : string)
| Console (method label : string)
| SetTimeout (cb : callback) (delay : Z)
| WindowClose
| PostMessage (data : js) (targetOrigin : string)
| Navigate (href : string).

(** Calls that leave the page: the session interface, the token endpoint,
    the platform APIs and the table. *)
Definition is_remote (e : event) : bool :=
  match e with
  | GetSession | SetSession _ | ExchangeCode _ _ _ | Fetch _ _ | Db _ => true
  | _ => false
  end.

(** What the browser and the backends answer during one page load. *)
Record World : Type := {
  (* window.location and window.opener *)
  search : string;
  pathname : string;
  origin : string;
  opener : bool;
  (* the n-th reading of the clock (Date.now() or new Date()), in ms *)
  time_at : nat -> Z;
  (* JSON.parse: None when it throws a SyntaxError *)
  json_parse : string -> option js;
  (* supabase.auth: the session in place, and the answer to setSession *)
  auth_session : exn + option Session;
  auth_restore : js -> exn + AuthResponse;
  (* ../services/oauth: the answer to exchangeCodeForToken *)
  token_endpoint : string -> string -> string -> exn + TokenData;
  (* the platform APIs: the answer to a GET of a url with headers *)
  http : string -> list (string * string) -> exn + Response;
  (* the error, if any, with which the table answers a request *)
  db_fault : db_request -> option exn;
  (* the exception, if any, that localStorage.setItem(key, value) throws
     (a QuotaExceededError when the storage is full) *)
  setItem_fault : string -> string -> option exn
}.

(** The mutable state of the page and of the table behind it. *)
Record State : Type := {
  localStorage : gmap string string;
  sessionStorage : gmap string string;
  social_accounts : list Row;
  next_id : Z;
  status : Status;
  message : string;
  timers : list (callback * Z);
  clock : nat;
  log : list event
}.

Definition with_localStorage (f : gmap string string -> gmap string string) (s : State) : State :=
  {| localStorage := f (localStorage s); sessionStorage := sessionStorage s;
     social_accounts := social_accounts s; next_id := next_id s; status := status s;
     message := message s; timers := timers s; clock := clock s; log := log s |}.

Definition with_sessionStorage (f : gmap string string -> gmap string string) (s : State) : State :=
  {| localStorage := localStorage s; sessionStorage := f (sessionStorage s);
     social_accounts := social_accounts s; next_id := next_id s; status := status s;
     message := message s; timers := timers s; clock := clock s; log := log s |}.

Definition with_table (rows : list Row) (next : Z) (s : State) : State :=
  {| localStorage := localStorage s; sessionStorage := sessionStorage s;
     social_accounts := rows; next_id := next; status := status s;
     message := message s; timers := timers s; clock := clock s; log := log s |}.

Definition with_status (st : Status) (s : State) : State :=
  {| localStorage := localStorage s; sessionStorage := sessionStorage s;
     social_accounts := social_accounts s; next_id := next_id s; status := st;
     message := message s; timers := timers s; clock := clock s; log := log s |}.

Definition with_message (m : string) (s : State) : State :=
  {| localStorage := localStorage s; sessionStorage := sessionStorage s;
     social_accounts := social_accounts s; next_id := next_id s; status := status s;
     message := m; timers := timers s; clock := clock s; log := log s |}.

Definition with_timer (t : callback * Z) (s : State) : State :=
  {| localStorage := localStorage s; sessionStorage := sessionStorage s;
     social_accounts := social_accounts s; next_id := next_id s; status := status s;
     message := message s; timers := timers s ++ [t]; clock := clock s; log := log s |}.

Definition with_no_timers (s : State) : State :=
  {| localStorage := localStorage s; sessionStorage := sessionStorage s;
     social_accounts := social_accounts s; next_id := next_id s; status := status s;
     message := message s; timers := []; clock := clock s; log := log s |}.

Definition with_tick (s : State) : State :=
  {| localStorage := localStorage s; sessionStorage := sessionStorage s;
     social_accounts := social_accounts s; next_id := next_id s; status := status s;
     message := message s; timers := timers s; clock := S (clock s); log := log s |}.

Definition with_event (e : event) (s : State) : State :=
  {| localStorage := localStorage s; sessionStorage := sessionStorage s;
     social_accounts := social_accounts s; next_id := next_id s; status := status s;
     message := message s; timers := timers s; clock := clock s; log := log s ++ [e] |}.

(** The page as it is when the component mounts, over given storages and
    a given table. *)
Definition page_load (ls ss : gmap string string) (rows : list Row) (next : Z) : State :=
  {| localStorage := ls; sessionStorage := ss; social_accounts := rows; next_id := next;
     status := loading; message := "Processing authentication..."; timers := [];
     clock := O; log := [] |}.

(** ** The monad: reader of the world, state, exceptions *)

Definition M (A : Type) : Type := World -> State -> (exn + A) * State.

#[global] Instance M_ret : MRet M := fun A a _ s => (inr a, s).

#[global] Instance M_bind : MBind M := fun A B f m w s =>
  match m w s with
  | (inr a, s') => f a w s'
  | (inl e, s') => (inl e, s')
  end.

Definition throw {A} (e : exn) : M A := fun _ s => (inl e, s).

(** [try { body } catch (e) { handler e }] *)
Definition try_catch {A} (body : M A) (handler : exn -> M A) : M A := fun w s =>
  match body w s with
  | (inl e, s') => handler e w s'
  | r => r
  end.

(** An awaited call or a throwing expression that has already an outcome. *)
Definition lift {A} (r : exn + A) : M A := fun _ s => (r, s).

Definition ask {A} (f : World -> A) : M A := fun w s => (inr (f w), s).
Definition get {A} (f : State -> A) : M A := fun _ s => (inr (f s), s).
Definition modify (f : State -> State) : M unit := fun _ s => (inr tt, f s).
Definition emit (e : event) : M unit := modify (with_event e).

(** ** Browser and backend calls *)

Definition localStorage_getItem (key : string) : M (option string) :=
  emit (LocalStorage_getItem key);; get (fun s => localStorage s !! key).

Definition localStorage_setItem (key value : string) : M unit :=
  emit (LocalStorage_setItem key value);;
  fault ← ask (fun w => setItem_fault w key value);
  match fault with
  | Some e => throw e
  | None => modify (with_localStorage (insert key value))
  end.

Definition localStorage_removeItem (key : string) : M unit :=
  emit (LocalStorage_removeItem key);; modify (with_localStorage (delete key)).

Definition sessionStorage_getItem (key : string) : M (option string) :=
  emit (SessionStorage_getItem key);; get (fun s => sessionStorage s !! key).

Definition sessionStorage_removeItem (key : string) : M unit :=
  emit (SessionStorage_removeItem key);; modify (with_sessionStorage (delete key)).

(** [console.log] / [console.error], logged with their first argument. *)
Definition console (method label : string) : M unit := emit (Console method label).

Definition setStatus (st : Status) : M unit := modify (with_status st).
Definition setMessage (m : string) : M unit := modify (with_message m).

Definition setTimeout (cb : callback) (delay : Z) : M unit :=
  emit (SetTimeout cb delay);; modify (with_timer (cb, delay)).

(** [Date.now()], also the time value of [new Date()]. *)
Definition Date_now : M Z :=
  n ← get clock; modify with_tick;; ask (fun w => time_at w n).

Definition JSON_parse (text : string) : M js :=
  r ← ask (fun w => json_parse w text);
  match r with
  | Some v => mret v
  | None => throw (SyntaxError "Unexpected token in JSON")
  end.

Definition supabase_auth_getSession : M (option Session) :=
  emit GetSession;; r ← ask auth_session; lift r.

Definition supabase_auth_setSession (tokens : js) : M AuthResponse :=
  emit (SetSession tokens);; r ← ask (fun w => auth_restore w tokens); lift r.

Definition exchangeCodeForToken (platform code state : string) : M TokenData :=
  emit (ExchangeCode platform code state);;
  r ← ask (fun w => token_endpoint w platform code state); lift r.

Definition fetch (url : string) (headers : list (string * string)) : M Response :=
  emit (Fetch url headers);; r ← ask (fun w => http w url headers); lift r.

(** A value of type [string | null] ([getItem], [URLSearchParams.get]) and
    an optional string field, as JavaScript values. *)
Definition or_null (o : option string) : js := from_option JStr null o.
Definition or_undefined (o : option string) : js := from_option JStr undefined o.

(** The string behind a truthy [string | null]. *)
Definition nonempty (o : option string) : option string :=
  match o with
  | Some s => if String.eqb s "" then None else Some s
  | None => None
  end.

(** ** The [social_accounts] table

    A row holds the columns that were written by a client, and the [id]
    the table gave it (from a counter, standing for the generated key).
    A filter [.eq(col, v)] holds on a row when the column has a non-NULL
    value equal to [v]; the coercion of a filter argument that is not a
    string is not modelled. A property whose value is [undefined] is not
    sent (the request body is JSON). *)

Definition column_eq (row : Row) (col : string) (v : js) : bool :=
  match row !! col with
  | Some v' => negb (js_eqb v' null) && js_eqb v' v
  | None => false
  end.

Definition matches (filters : list (string * js)) (row : Row) : bool :=
  forallb (fun f : string * js => column_eq row f.1 f.2) filters.

Definition stored (v : js) : option js :=
  match v with
  | undefined => None
  | _ => Some v
  end.

Definition sent (values : Row) : Row := omap stored values.

Definition updated (values : Row) (filters : list (string * js)) (rows : list Row) : list Row :=
  map (fun r : Row => if matches filters r then sent values ∪ r else r) rows.

Definition inserted (values : Row) (next : Z) (rows : list Row) : list Row :=
  rows ++ [<["id" := JNum next]> (sent values)].

(** [.select(columns).eq(..)...maybeSingle()], of which the code keeps
    [data] only: the one matching row restricted to [columns] (a single
    column here), or [null] when no row or several rows match, or when
    the request fails. *)
Definition db_select_maybeSingle (columns : string) (filters : list (string * js)) : M js :=
  let req := Select columns filters in
  emit (Db req);;
  fault ← ask (fun w => db_fault w req);
  rows ← get social_accounts;
  mret (match fault, List.filter (matches filters) rows with
        | None, [r] => JObj [(columns, default null (r !! columns))]
        | _, _ => null
        end).

(** [.update(values).eq(..)]: resolves to the request's [error]. *)
Definition db_update (values : Row) (filters : list (string * js)) : M (option exn) :=
  let req := Update values filters in
  emit (Db req);;
  fault ← ask (fun w => db_fault w req);
  match fault with
  | Some e => mret (Some e)
  | None =>
      modify (fun s => with_table (updated values filters (social_accounts s)) (next_id s) s);;
      mret None
  end.

(** [.insert(values)]: resolves to the request's [error]. *)
Definition db_insert (values : Row) : M (option exn) :=
  let req := Insert values in
  emit (Db req);;
  fault ← ask (fun w => db_fault w req);
  match fault with
  | Some e => mret (Some e)
  | None =>
      modify (fun s => with_table (inserted values (next_id s) (social_accounts s))
                                  (next_id s + 1) s);;
      mret None
  end.

(** [.upsert(values, { onConflict })]: the rows that agree with [values]
    on the conflict columns are updated; when there is none, a row is
    inserted. *)
Definition conflict_filters (values : Row) (onConflict : list string) : list (string * js) :=
  map (fun c : string => (c, default null (sent values !! c))) onConflict.

Definition db_upsert (values : Row) (onConflict : list string) : M (option exn) :=
  let req := Upsert values onConflict in
  emit (Db req);;
  fault ← ask (fun w => db_fault w req);
  match fault with
  | Some e => mret (Some e)
  | None =>
      let fs := conflict_filters values onConflict in
      modify (fun s =>
                if existsb (matches fs) (social_accounts s)
                then with_table (updated values fs (social_accounts s)) (next_id s) s
                else with_table (inserted values (next_id s) (social_accounts s))
                                (next_id s + 1) s);;
      mret None
  end.

(** ** [fetchAccountInfo] (the same text in both files) *)

Record AccountInfo : Type := { name : js; handle : js }.

Definition fetchAccountInfo (platform accessToken : string) : M AccountInfo :=
  let headers := [("Authorization", "Bearer " +:+ accessToken)] in
  url ← (if String.eqb platform "twitter" then mret "https://api.twitter.com/2/users/me"
         else if String.eqb platform "linkedin" then mret "https://api.linkedin.com/v2/me"
         else if String.eqb platform "instagram" then
           mret "https://graph.instagram.com/me?fields=id,username"
         else if String.eqb platform "facebook" then
           mret "https://graph.facebook.com/me?fields=id,name"
         else if String.eqb platform "tiktok" then
           mret "https://open-api.tiktok.com/user/info/?fields=open_id,union_id,avatar_url,display_name"
         else throw (Error ("Unsupported platform: " +:+ platform)));
  response ← fetch url headers;
  if negb (ok response) then
    throw (Error ("Failed to fetch account info from " +:+ platform))
  else
    data ← lift (json response);
    if String.eqb platform "twitter" then
      inner ← lift (get_prop data "data");
      nm ← lift (get_prop inner "name");
      username ← lift (get_prop inner "username");
      mret {| name := js_or nm username; handle := JStr ("@" +:+ ToString username) |}
    else if String.eqb platform "linkedin" then
      first ← lift (get_prop data "localizedFirstName");
      last ← lift (get_prop data "localizedLastName");
      ident ← lift (get_prop data "id");
      mret {| name := JStr (ToString first +:+ " " +:+ ToString last); handle := ident |}
    else if String.eqb platform "instagram" then
      username ← lift (get_prop data "username");
      mret {| name := username; handle := JStr ("@" +:+ ToString username) |}
    else if String.eqb platform "facebook" then
      nm ← lift (get_prop data "name");
      ident ← lift (get_prop data "id");
      mret {| name := nm; handle := ident |}
    else if String.eqb platform "tiktok" then
      inner ← lift (get_prop data "data");
      usr ← lift (get_prop inner "user");
      display_name ← lift (get_prop usr "display_name");
      open_id ← lift (get_prop usr "open_id");
      mret {| name := display_name; handle := open_id |}
    else mret {| name := JStr "Unknown"; handle := JStr "Unknown" |}.

(** ** Parts common to both handlers *)

(** [tokenData.refresh_token || null] *)
Definition refresh_or_null (tokenData : TokenData) : js :=
  js_or (or_undefined (refresh_token tokenData)) null.

(** [tokenData.expires_in
      ? new Date(Date.now() + tokenData.expires_in * 1000).toISOString() : null] *)
Definition expiry (tokenData : TokenData) : M js :=
  match expires_in tokenData with
  | Some secs =>
      if secs =? 0 then mret null
      else now ← Date_now; iso ← lift (toISOString (now + secs * 1000)); mret (JStr iso)
  | None => mret null
  end.

(** [new Date().toISOString()] *)
Definition now_iso : M js := now ← Date_now; iso ← lift (toISOString now); mret (JStr iso).

(** [{ type: 'oauth_success', platform }] *)
Definition oauth_success (platform : string) : js :=
  JObj [("type", JStr "oauth_success"); ("platform", JStr platform)].

(** The [catch] block of both handlers. *)
Definition on_error (e : exn) : M unit :=
  console "error" "OAuth callback error:";;
  setStatus error;;
  setMessage (ToString (js_or (JStr (exn_message e)) (JStr "Failed to connect account"))).

Definition not_logged_in : string :=
  "You are not logged in. Please log in first and try connecting your Twitter account again.".

(** Runs the closures that [setTimeout] has queued, each once, in order. *)
Definition run_timers (run : callback -> M unit) : M unit := fun w s =>
  fold_left (fun (acc : (exn + unit) * State) (t : callback * Z) =>
               match acc with
               | (inr _, s') => run t.1 w s'
               | failed => failed
               end)
            (timers s) (inr tt, with_no_timers s).

(** ** The handle-aware handler ([src/unnamed/part_001]) *)

Module HandleAware.

(** Lines 45-67: the user of the session in place, or else of the
    snapshot under [oauth_supabase_session_<platform>]. [currentUser] is
    assigned before [removeItem], which does not throw, so the [try]
    block is embedded as an expression whose value is [currentUser]. *)
Definition restoreUser (platform : string) : M (option User) :=
  existingSession ← supabase_auth_getSession;
  match existingSession ≫= user with
  | Some u => mret (Some u)
  | None =>
      savedSession ← localStorage_getItem ("oauth_supabase_session_" +:+ platform);
      match nonempty savedSession with
      | Some saved =>
          try_catch
            (parsedSession ← JSON_parse saved;
             access ← lift (get_prop parsedSession "access_token");
             refresh ← lift (get_prop parsedSession "refresh_token");
             r ← supabase_auth_setSession
                   (JObj [("access_token", access); ("refresh_token", refresh)]);
             let currentUser := match auth_error r, data_user r with
                                | None, Some u => Some u
                                | _, _ => None
                                end in
             localStorage_removeItem ("oauth_supabase_session_" +:+ platform);;
             mret currentUser)
            (fun e => console "error" "Failed to restore session:";; mret None)
      | None => mret None
      end
  end.

(** Lines 85-125: select by (user_id, platform, account_handle), then
    update by id or insert. *)
Definition saveAccount (currentUser : User) (platform : string) (accountInfo : AccountInfo)
    (tokenData : TokenData) (storedDisplayName : option string) : M unit :=
  existingAccount ← db_select_maybeSingle "id"
                      [("user_id", JStr (User_id currentUser));
                       ("platform", JStr platform);
                       ("account_handle", handle accountInfo)];
  if truthy existingAccount then
    expires ← expiry tokenData;
    stamp ← now_iso;
    ident ← lift (get_prop existingAccount "id");
    updateError ← db_update
                    (list_to_map [("access_token", JStr (access_token tokenData));
                                  ("refresh_token", refresh_or_null tokenData);
                                  ("token_expires_at", expires);
                                  ("is_connected", JBool true);
                                  ("updated_at", stamp)])
                    [("id", ident)];
    match updateError with
    | Some e => throw e
    | None => mret tt
    end
  else
    expiresAt ← expiry tokenData;
    dbError ← db_insert
                (list_to_map [("user_id", JStr (User_id currentUser));
                              ("platform", JStr platform);
                              ("account_name", js_or (or_null storedDisplayName) (name accountInfo));
                              ("account_handle", handle accountInfo);
                              ("access_token", JStr (access_token tokenData));
                              ("refresh_token", refresh_or_null tokenData);
                              ("token_expires_at", expiresAt);
                              ("is_connected", JBool true)]);
    match dbError with
    | Some e => throw e
    | None => mret tt
    end.

(** Lines 73-129: from the token exchange to the success state, once
    [currentUser] is known. *)
Definition linkAccount (currentUser : User) (platform code state : string) : M unit :=
  setMessage ("Connecting to " +:+ platform +:+ "...");;
  tokenData ← exchangeCodeForToken platform code state;
  accountInfo ← fetchAccountInfo platform (access_token tokenData);
  storedUsername ← sessionStorage_getItem ("oauth_username_" +:+ platform);
  storedDisplayName ← sessionStorage_getItem ("oauth_display_name_" +:+ platform);
  sessionStorage_removeItem ("oauth_username_" +:+ platform);;
  sessionStorage_removeItem ("oauth_display_name_" +:+ platform);;
  saveAccount currentUser platform accountInfo tokenData storedDisplayName;;
  setStatus success;;
  setMessage ("Successfully connected your " +:+ platform +:+ " account!");;
  setTimeout (SuccessTimeout platform) 2000.

Definition handleOAuthCallback : M unit :=
  try_catch
    (urlParams ← ask (fun w => URLSearchParams (search w));
     let code := URLSearchParams_get "code" urlParams in
     let state := URLSearchParams_get "state" urlParams in
     let err := URLSearchParams_get "error" urlParams in
     let errorDescription := URLSearchParams_get "error_description" urlParams in
     if truthy (or_null err) then
       throw (Error (ToString (js_or (or_null errorDescription) (or_null err))))
     else
       match nonempty code, nonempty state with
       | Some code, Some state =>
           pathParts ← ask (fun w => split "/" (pathname w));
           match nonempty (last_item pathParts) with
           | None => throw (Error "Platform not specified")
           | Some platform =>
               currentUser ← restoreUser platform;
               match currentUser with
               | None => throw (Error not_logged_in)
               | Some currentUser => linkAccount currentUser platform code state
               end
           end
       | _, _ => throw (Error "Missing authorization code or state")
       end)
    on_error.

(** Lines 130-133: the closure queued on success. *)
Definition onTimeout (cb : callback) : M unit :=
  match cb with
  | SuccessTimeout platform =>
      emit WindowClose;;
      has_opener ← ask opener;
      if (has_opener : bool) then
        target ← ask origin;
        emit (PostMessage (oauth_success platform) target)
      else mret tt
  end.

(** One page load: the handler, then the queued closures. *)
Definition page : M unit := handleOAuthCallback;; run_timers onTimeout.

End HandleAware.

(** ** The upserting handler ([src/src/components/OAuthCallback.tsx]) *)

Module UpsertVariant.

(** Lines 52-62: the session in place, or else the one restored from the
    snapshot; the snapshot is passed whole to [setSession] and a
    [JSON.parse] failure is not caught here. *)
Definition restoreSession (platform : string) : M (option Session) :=
  session ← supabase_auth_getSession;
  match session with
  | Some s => mret (Some s)
  | None =>
      savedSession ← localStorage_getItem ("oauth_supabase_session_" +:+ platform);
      match nonempty savedSession with
      | Some saved =>
          parsed ← JSON_parse saved;
          r ← supabase_auth_setSession parsed;
          mret (match auth_error r, data_session r with
                | None, Some s => Some s
                | _, _ => None
                end)
      | None => mret None
      end
  end.

(** Lines 74-99: one upsert on the conflict target (user_id, platform). *)
Definition saveAccount (currentUser : User) (platform : string) (accountInfo : AccountInfo)
    (tokenData : TokenData) : M unit :=
  expiresAt ← expiry tokenData;
  stamp ← now_iso;
  dbError ← db_upsert
              (list_to_map [("user_id", JStr (User_id currentUser));
                            ("platform", JStr platform);
                            ("account_name", name accountInfo);
                            ("account_handle", handle accountInfo);
                            ("is_connected", JBool true);
                            ("access_token", JStr (access_token tokenData));
                            ("refresh_token", refresh_or_null tokenData);
                            ("token_expires_at", expiresAt);
                            ("updated_at", stamp)])
              ["user_id"; "platform"];
  match dbError with
  | Some _ =>
      console "error" "Failed to save account:";;
      throw (Error "Failed to save account connection")
  | None => mret tt
  end.

(** Lines 68-117: from the token exchange to the success state, once the
    session has a user. *)
Definition linkAccount (currentUser : User) (platform code state : string) : M unit :=
  tokenData ← exchangeCodeForToken platform code state;
  accountInfo ← fetchAccountInfo platform (access_token tokenData);
  console "log" "Account info retrieved:";;
  saveAccount currentUser platform accountInfo tokenData;;
  timestamp ← Date_now;
  localStorage_setItem ("oauth_success_" +:+ platform)
    (default "undefined"
       (JSON_stringify
          (JObj [("platform", JStr platform);
                 ("accountInfo", JObj [("name", name accountInfo);
                                       ("handle", handle accountInfo)]);
                 ("timestamp", JNum timestamp)])));;
  setStatus success;;
  setMessage ("Successfully connected your " +:+ platform +:+ " account!");;
  setTimeout (SuccessTimeout platform) 2000.

Definition handleOAuthCallback : M unit :=
  try_catch
    (urlParams ← ask (fun w => URLSearchParams (search w));
     let code := URLSearchParams_get "code" urlParams in
     let state := URLSearchParams_get "state" urlParams in
     let err := URLSearchParams_get "error" urlParams in
     let errorDescription := URLSearchParams_get "error_description" urlParams in
     console "log" "OAuth Callback Debug:";;
     if truthy (or_null err) then
       throw (Error (ToString (js_or (or_null errorDescription) (or_null err))))
     else
       match nonempty code, nonempty state with
       | Some code, Some state =>
           pathParts ← ask (fun w => split "/" (pathname w));
           match nonempty (last_item pathParts) with
           | None => throw (Error "Platform not specified")
           | Some platform =>
               setMessage ("Connecting to " +:+ platform +:+ "...");;
               session ← restoreSession platform;
               match session ≫= user with
               | None => throw (Error not_logged_in)
               | Some currentUser => linkAccount currentUser platform code state
               end
           end
       | _, _ => throw (Error "Missing authorization code or state")
       end)
    on_error.

(** Lines 110-117: the closure queued on success. *)
Definition onTimeout (cb : callback) : M unit :=
  match cb with
  | SuccessTimeout platform =>
      has_opener ← ask opener;
      if (has_opener : bool) then
        target ← ask origin;
        emit (PostMessage (oauth_success platform) target);;
        emit WindowClose
      else emit (Navigate "/")
  end.

Definition page : M unit := handleOAuthCallback;; run_timers onTimeout.

End UpsertVariant.

(** ** Notions used by the statements *)

(** The filters by which a connection is looked up. *)
Definition account_key (user_id platform account_handle : js) : list (string * js) :=
  [("user_id", user_id); ("platform", platform); ("account_handle", account_handle)].

Definition records_for (user_id platform account_handle : js) (rows : list Row) : list Row :=
  List.filter (matches (account_key user_id platform account_handle)) rows.

(** At most one record per (user_id, platform, account_handle). *)
Definition one_record_per_account (rows : list Row) : Prop :=
  forall user_id platform account_handle : js,
    (length (records_for user_id platform account_handle rows) <= 1)%nat.

(** At most one record per (user_id, platform): what the conflict target
    of the upserting handler asks of the table. *)
Definition one_record_per_platform (rows : list Row) : Prop :=
  forall user_id platform : js,
    (length (List.filter (matches [("user_id", user_id); ("platform", platform)]) rows) <= 1)%nat.


(** The table accepts every write. *)
Definition writes_accepted (w : World) : Prop :=
  forall req, db_fault w req = None.

(** What the page does to its window. *)
Definition is_window_event (e : event) : bool :=
  match e with
  | WindowClose | PostMessage _ _ | Navigate _ => true
  | _ => false
  end.

Definition window_events (s : State) : list event := List.filter is_window_event (log s).

(** The effects of a run that left the page. *)
Definition remote_calls (s : State) : list event := List.filter is_remote (log s).

(** The next page load in the same browser: storages and table are kept,
    the component starts afresh. *)
Definition next_page (s : State) : State :=
  page_load (localStorage s) (sessionStorage s) (social_accounts s) (next_id s).

(** A sequence of callbacks, one world per page load. *)
Definition callbacks (handler : M unit) (ws : list World) (s : State) : State :=
  fold_left (fun (s : State) (w : World) => snd (handler w (next_page s))) ws s.

(** The platforms of the glossary. *)
Definition supported : list string := ["twitter"; "linkedin"; "instagram"; "facebook"; "tiktok"].

(** [v.k1.k2...]: [None] when a property of [undefined] or [null] would be
    read on the way. *)
Fixpoint at_path (path : list string) (v : js) : option js :=
  match path with
  | [] => Some v
  | k :: rest =>
      match get_prop v k with
      | inr x => at_path rest x
      | inl _ => None
      end
  end.

(** The table of section 4.3 of the specification, written from its
    words: for each platform the endpoint and how name and handle are
    taken from the response (the code's urls stand for the short endpoint
    names of the table). *)
Definition documented (platform : string) : option (string * (js -> option AccountInfo)) :=
  if String.eqb platform "twitter" then
    Some ("https://api.twitter.com/2/users/me",
          fun data =>
            nm ← at_path ["data"; "name"] data;
            username ← at_path ["data"; "username"] data;
            Some {| name := if truthy nm then nm else username;
                    handle := JStr ("@" +:+ ToString username) |})
  else if String.eqb platform "linkedin" then
    Some ("https://api.linkedin.com/v2/me",
          fun data =>
            first ← at_path ["localizedFirstName"] data;
            last ← at_path ["localizedLastName"] data;
            ident ← at_path ["id"] data;
            Some {| name := JStr (ToString first +:+ " " +:+ ToString last);
                    handle := ident |})
  else if String.eqb platform "instagram" then
    Some ("https://graph.instagram.com/me?fields=id,username",
          fun data =>
            username ← at_path ["username"] data;
            Some {| name := username; handle := JStr ("@" +:+ ToString username) |})
  else if String.eqb platform "facebook" then
    Some ("https://graph.facebook.com/me?fields=id,name",
          fun data =>
            nm ← at_path ["name"] data;
            ident ← at_path ["id"] data;
            Some {| name := nm; handle := ident |})
  else if String.eqb platform "tiktok" then
    Some ("https://open-api.tiktok.com/user/info/?fields=open_id,union_id,avatar_url,display_name",
          fun data =>
            display_name ← at_path ["data"; "user"; "display_name"] data;
            open_id ← at_path ["data"; "user"; "open_id"] data;
            Some {| name := display_name; handle := open_id |})
  else None.

(** The value of the expiry expression when the clock reads [now]. *)
Definition expiry_value (tokenData : TokenData) (now : Z) : exn + js :=
  match expires_in tokenData with
  | Some secs =>
      if secs =? 0 then inr null
      else match toISOString (now + secs * 1000) with
           | inr iso => inr (JStr iso)
           | inl e => inl e
           end
  | None => inr null
  end.

(** The object literal of the reconnect update (part_001, lines 96-104). *)
Definition reconnect_values (tokenData : TokenData) (expires stamp : js) : Row :=
  list_to_map [("access_token", JStr (access_token tokenData));
               ("refresh_token", refresh_or_null tokenData);
               ("token_expires_at", expires);
               ("is_connected", JBool true);
               ("updated_at", stamp)].

(** The object literal of the first-connect insert (part_001, lines
    113-122). *)
Definition connect_values (currentUser : User) (platform : string) (accountInfo : AccountInfo)
    (tokenData : TokenData) (storedDisplayName : option string) (expires : js) : Row :=
  list_to_map [("user_id", JStr (User_id currentUser));
               ("platform", JStr platform);
               ("account_name", js_or (or_null storedDisplayName) (name accountInfo));
               ("account_handle", handle accountInfo);
               ("access_token", JStr (access_token tokenData));
               ("refresh_token", refresh_or_null tokenData);
               ("token_expires_at", expires);
               ("is_connected", JBool true)].

(** The object literal of the upsert (OAuthCallback.tsx, lines 81-91). *)
Definition upsert_values (currentUser : User) (platform : string) (accountInfo : AccountInfo)
    (tokenData : TokenData) (expires stamp : js) : Row :=
  list_to_map [("user_id", JStr (User_id currentUser));
               ("platform", JStr platform);
               ("account_name", name accountInfo);
               ("account_handle", handle accountInfo);
               ("is_connected", JBool true);
               ("access_token", JStr (access_token tokenData));
               ("refresh_token", refresh_or_null tokenData);
               ("token_expires_at", expires);
               ("updated_at", stamp)].

(** The columns the reconnect update writes. *)
Definition token_columns : list string :=
  ["access_token"; "refresh_token"; "token_expires_at"; "is_connected"; "updated_at"].

(** A property of the table that a computation keeps, whatever it
    returns. *)
Definition keeps_table (w : World) (Q : list Row -> Prop) {A} (m : M A) : Prop :=
  forall s, Q (social_accounts s) -> Q (social_accounts (m w s).2).

(** ** A concrete run: the scenario of the specification *)

Module Scenario.

Definition jane : User := {| User_id := "user-1" |}.

Definition session_object : js :=
  JObj [("access_token", JStr "at"); ("refresh_token", JStr "rt");
        ("user", JObj [("id", JStr "user-1")])].

(** What [SocialMediaLogin] hands to [initiateOAuth]:
    [JSON.stringify(session)]. *)
Definition snapshot : string := default "" (JSON_stringify session_object).

Definition twitter_profile : js :=
  JObj [("data", JObj [("name", JStr "Jane"); ("username", JStr "jane_d")])].

(** The worlds of the concrete runs differ in the query of the redirect,
    in the session in place and in whether the window has an opener. *)
Definition world_with (query : string) (session : exn + option Session) (has_opener : bool)
    : World :=
  {| search := query;
     pathname := "/oauth/callback/twitter";
     origin := "https://app.example";
     opener := has_opener;
     time_at := fun n => 1700000000000 + Z.of_nat n;
     json_parse := fun text => if String.eqb text snapshot then Some session_object else None;
     auth_session := session;
     auth_restore := fun _ =>
       inr {| data_user := Some jane; data_session := Some {| user := Some jane |};
              auth_error := None |};
     token_endpoint := fun platform code state =>
       if String.eqb platform "twitter" && String.eqb code "abc" && String.eqb state "xyz"
       then inr {| access_token := "tok"; refresh_token := None; expires_in := Some 3600 |}
       else inl (Error "Token exchange failed");
     http := fun url headers =>
       if String.eqb url "https://api.twitter.com/2/users/me"
       then inr {| ok := true; json := inr twitter_profile |}
       else inl (TypeError "Failed to fetch");
     db_fault := fun _ => None;
     setItem_fault := fun _ _ => None |}.

(** The scenario of the specification: no session in place, a snapshot in
    [localStorage], a popup with an opener. *)
Definition world : World := world_with "?code=abc&state=xyz" (inr None) true.

Definition start : State :=
  page_load {[ "oauth_supabase_session_twitter" := snapshot ]} ∅ [] 1.

(** The same user comes back with the session in place. *)
Definition world_again : World :=
  world_with "?code=abc&state=xyz" (inr (Some {| user := Some jane |})) true.

(** The page was not opened by another window. *)
Definition world_alone : World := world_with "?code=abc&state=xyz" (inr None) false.

(** The redirect lacks the code. *)
Definition world_no_code : World := world_with "?state=xyz" (inr None) true.


(** A world whose platform APIs answer every request with [body]. *)
Definition api_world (body : js) : World :=
  {| search := "?code=abc&state=xyz";
     pathname := "/oauth/callback/twitter";
     origin := "https://app.example";
     opener := true;
     time_at := fun n => 1700000000000 + Z.of_nat n;
     json_parse := fun _ => None;
     auth_session := inr (Some {| user := Some jane |});
     auth_restore := fun _ => inl (Error "unused");
     token_endpoint := fun _ _ _ =>
       inr {| access_token := "tok"; refresh_token := None; expires_in := None |};
     http := fun _ _ => inr {| ok := true; json := inr body |};
     db_fault := fun _ => None;
     setItem_fault := fun _ _ => None |}.

(** The table after the first connect, and the record it holds. *)
Definition connected : State := (HandleAware.handleOAuthCallback world start).2.

Definition record : Row := default ∅ (head (social_accounts connected)).

Definition tokens : TokenData :=
  {| access_token := "tok"; refresh_token := None; expires_in := Some 3600 |}.

Definition jane_d : AccountInfo := {| name := JStr "Jane"; handle := JStr "@jane_d" |}.

(** The snapshot in storage is not JSON. *)
Definition start_malformed : State :=
  page_load {[ "oauth_supabase_session_twitter" := "{not json" ]} ∅ [] 1.

(** A display-name hint is stored, and is the empty string. *)
Definition start_empty_hint : State :=
  page_load {[ "oauth_supabase_session_twitter" := snapshot ]}
            {[ "oauth_display_name_twitter" := ""; "oauth_username_twitter" := "jd" ]} [] 1.

(** A display-name hint is stored. *)
Definition start_hint : State :=
  page_load {[ "oauth_supabase_session_twitter" := snapshot ]}
            {[ "oauth_display_name_twitter" := "JD"; "oauth_username_twitter" := "jd" ]} [] 1.

End Scenario.

(** ** Notions used by the statements about whole runs *)

(** The platform a redirect is for: the last segment of the path, when it
    is not empty. *)
Definition platform_of (w : World) : option string :=
  nonempty (last_item (split "/" (pathname w))).

(** A computation that leaves a view of the state as it was, whatever it
    returns. *)
Definition unchanged {V A : Type} (view : State -> V) (w : World) (m : M A) : Prop :=
  forall s, view (m w s).2 = view s.

(** The table and the queue of closures. *)
Definition durable (s : State) : list Row * Z * list (callback * Z) :=
  (social_accounts s, next_id s, timers s).

(** Both storages, the table and the queue of closures. *)
Definition stores (s : State) :=
  (localStorage s, sessionStorage s, social_accounts s, next_id s, timers s).

(** The requests in the log that write to the table. *)
Definition is_write (e : event) : bool :=
  match e with
  | Db (Insert _) | Db (Update _ _) | Db (Upsert _ _) => true
  | _ => false
  end.

Definition writes (s : State) : list event := List.filter is_write (log s).

(** The table and the next id after a request that the table accepts. *)
Definition applied (req : db_request) (table : list Row * Z) : list Row * Z :=
  match req with
  | Select _ _ => table
  | Update values filters => (updated values filters table.1, table.2)
  | Insert values => (inserted values table.2 table.1, table.2 + 1)
  | Upsert values onConflict =>
      if existsb (matches (conflict_filters values onConflict)) table.1
      then (updated values (conflict_filters values onConflict) table.1, table.2)
      else (inserted values table.2 table.1, table.2 + 1)
  end.

(** What the lookup of part_001 (lines 85-91) hands to the code: the one
    record of the account, when the request answers and exactly one row
    matches. *)
Definition found_record (w : World) (currentUser : User) (platform : string)
    (accountInfo : AccountInfo) (rows : list Row) : option Row :=
  match db_fault w (Select "id" (account_key (JStr (User_id currentUser)) (JStr platform)
                                   (handle accountInfo))),
        records_for (JStr (User_id currentUser)) (JStr platform) (handle accountInfo) rows with
  | None, [r] => Some r
  | _, _ => None
  end.

(** The write request of part_001 (lines 93-123): the update of the record
    found, by its id, or else the insert of a new record. *)
Definition handle_aware_write (found : option Row) (currentUser : User) (platform : string)
    (accountInfo : AccountInfo) (tokenData : TokenData) (storedDisplayName : option string)
    (expires stamp : js) : db_request :=
  match found with
  | Some r => Update (reconnect_values tokenData expires stamp) [("id", default null (r !! "id"))]
  | None => Insert (connect_values currentUser platform accountInfo tokenData
                      storedDisplayName expires)
  end.

(** The write request of OAuthCallback.tsx (lines 79-93). *)
Definition upsert_write (currentUser : User) (platform : string) (accountInfo : AccountInfo)
    (tokenData : TokenData) (expires stamp : js) : db_request :=
  Upsert (upsert_values currentUser platform accountInfo tokenData expires stamp)
    ["user_id"; "platform"].

(** A redirect that carries no error, a code and a state, on a path whose
    last segment names a platform. *)
Definition redirect_for (w : World) (code state platform : string) : Prop :=
  nonempty (URLSearchParams_get "error" (URLSearchParams (search w))) = None /\
  nonempty (URLSearchParams_get "code" (URLSearchParams (search w))) = Some code /\
  nonempty (URLSearchParams_get "state" (URLSearchParams (search w))) = Some state /\
  platform_of w = Some platform.

(** [getSession] answers with a session that has a user. *)
Definition session_in_place (w : World) (cu : User) : Prop :=
  exists session, auth_session w = inr (Some session) /\ user session = Some cu.

(** The next readings of the clock, and the same plus the lifetime of the
    tokens, are time values that [Date] can print. *)
Definition clock_in_range (w : World) (td : TokenData) (n : nat) : Prop :=
  forall k : nat,
    (n <= k <= n + 2)%nat ->
    Z.abs (time_at w k) <= 8640000000000000 /\
    Z.abs (time_at w k + default 0 (expires_in td) * 1000) <= 8640000000000000.

(** What the upserting handler stores under [oauth_success_<platform>]
    (OAuthCallback.tsx, lines 101-105). *)
Definition receipt (platform : string) (accountInfo : AccountInfo) (timestamp : Z) : string :=
  default "undefined"
    (JSON_stringify
       (JObj [("platform", JStr platform);
              ("accountInfo", JObj [("name", name accountInfo);
                                    ("handle", handle accountInfo)]);
              ("timestamp", JNum timestamp)])).

(** The message the [catch] block shows for a thrown value. *)
Definition shown_message (e : exn) : string :=
  if String.eqb (exn_message e) "" then "Failed to connect account" else exn_message e.

(** ** The connect button ([src/unnamed/part_000], [SocialMediaLogin]) *)

Module SocialMediaLogin.

(** What [handleConnect] does outside the component. *)
Inductive action : Type :=
| GetSession
| Console (method label : string)
| InitiateOAuth (platform sessionData : string).

(** What the backends answer: [session] of [supabase.auth.getSession()]
    and the outcome of [initiateOAuth] (in [../services/oauth], not among
    the sources). *)
Record Backend : Type := {
  session_answer : exn + js;
  initiateOAuth_answer : string -> string -> exn + unit
}.

(** The two [useState] cells of the component, and the log of its calls. *)
Record Component : Type := {
  isLoading : bool;
  error : option string;
  actions : list action
}.

Definition C (A : Type) : Type := Backend -> Component -> (exn + A) * Component.

#[local] Instance C_ret : MRet C := fun A a _ c => (inr a, c).

#[local] Instance C_bind : MBind C := fun A B f m b c =>
  match m b c with
  | (inr a, c') => f a b c'
  | (inl e, c') => (inl e, c')
  end.

Definition raise {A} (e : exn) : C A := fun _ c => (inl e, c).

Definition attempt {A} (body : C A) (handler : exn -> C A) : C A := fun b c =>
  match body b c with
  | (inl e, c') => handler e b c'
  | r => r
  end.

Definition act (a : action) : C unit := fun _ c =>
  (inr tt, {| isLoading := isLoading c; error := error c; actions := actions c ++ [a] |}).

Definition setError (e : option string) : C unit := fun _ c =>
  (inr tt, {| isLoading := isLoading c; error := e; actions := actions c |}).

Definition setIsLoading (l : bool) : C unit := fun _ c =>
  (inr tt, {| isLoading := l; error := error c; actions := actions c |}).

Definition getSession : C js := fun b c =>
  (session_answer b,
   {| isLoading := isLoading c; error := error c; actions := actions c ++ [GetSession] |}).

Definition initiateOAuth (platform sessionData : string) : C unit := fun b c =>
  (initiateOAuth_answer b platform sessionData,
   {| isLoading := isLoading c; error := error c;
      actions := actions c ++ [InitiateOAuth platform sessionData] |}).

(** [v?.k] *)
Definition optional_prop (v : js) (k : string) : js :=
  match v with
  | undefined | null => undefined
  | JObj ps => default undefined (assoc k ps)
  | _ => undefined
  end.

(** Lines 23-47. [sessionData.length] is read for the second console line,
    which throws when [JSON.stringify] gave [undefined]. *)
Definition handleConnect (platform_id : string) : C unit :=
  setError None;;
  setIsLoading true;;
  attempt
    (session ← getSession;
     act (Console "log" "Connect button clicked, session:");;
     if negb (truthy (optional_prop session "user")) then
       raise (Error "You must be logged in to connect social accounts")
     else
       match JSON_stringify session with
       | None => raise (TypeError "Cannot read properties of undefined (reading 'length')")
       | Some sessionData =>
           act (Console "log" "About to initiate OAuth with session data length:");;
           initiateOAuth platform_id sessionData
       end)
    (fun err =>
       act (Console "error" "Connect error:");;
       setError (Some (ToString (js_or (JStr (exn_message err))
                                       (JStr "Failed to connect. Please try again."))));;
       setIsLoading false).

(** The message the [catch] block of [handleConnect] shows. *)
Definition connect_message (e : exn) : string :=
  if String.eqb (exn_message e) "" then "Failed to connect. Please try again."
  else exn_message e.

(** The component before the click. *)
Definition idle (shown : option string) : Component :=
  {| isLoading := false; error := shown; actions := [] |}.

End SocialMediaLogin.

(** ** More concrete runs *)

Module Cases.

(** A world given by the redirect and by what each backend answers. *)
Definition world_of (path query : string) (session : exn + option Session)
    (token : exn + TokenData) (response : exn + Response)
    (fault : db_request -> option exn) : World :=
  {| search := query;
     pathname := path;
     origin := "https://app.example";
     opener := true;
     time_at := fun n => 1700000000000 + Z.of_nat n;
     json_parse := fun text =>
       if String.eqb text Scenario.snapshot then Some Scenario.session_object else None;
     auth_session := session;
     auth_restore := fun _ =>
       inr {| data_user := Some Scenario.jane;
              data_session := Some {| user := Some Scenario.jane |};
              auth_error := None |};
     token_endpoint := fun _ _ _ => token;
     http := fun _ _ => response;
     db_fault := fault;
     setItem_fault := fun _ _ => None |}.

Definition logged_in : exn + option Session := inr (Some {| user := Some Scenario.jane |}).

Definition profile : exn + Response := inr {| ok := true; json := inr Scenario.twitter_profile |}.

Definition no_fault (req : db_request) : option exn := None.

Definition select_fails (req : db_request) : option exn :=
  match req with
  | Select _ _ => Some (Error "connection lost")
  | _ => None
  end.

Definition insert_fails (req : db_request) : option exn :=
  match req with
  | Insert _ => Some (Error "permission denied for table social_accounts")
  | _ => None
  end.

Definition upsert_fails (req : db_request) : option exn :=
  match req with
  | Upsert _ _ => Some (Error "permission denied for table social_accounts")
  | _ => None
  end.

(** The usual redirect, with the session in place. *)
Definition usual (token : exn + TokenData) (response : exn + Response)
    (fault : db_request -> option exn) : World :=
  world_of "/oauth/callback/twitter" "?code=abc&state=xyz" logged_in token response fault.

(** A fresh page with hints in [sessionStorage]. *)
Definition start : State :=
  page_load ∅ {[ "oauth_display_name_twitter" := "JD"; "oauth_username_twitter" := "jd" ]} [] 1.

(** A page of the upserting handler's browser: a snapshot is stored. *)
Definition start_snapshot : State :=
  page_load {[ "oauth_supabase_session_twitter" := Scenario.snapshot ]} ∅ [] 1.

(** Another profile of the same user on the same platform. *)
Definition other_profile : exn + Response :=
  inr {| ok := true;
         json := inr (JObj [("data", JObj [("name", JStr "Jane D");
                                           ("username", JStr "jane_work")])]) |}.

(** The answer of [setSession] to an expired snapshot. *)
Definition invalid_refresh_token : AuthResponse :=
  {| data_user := None; data_session := None;
     auth_error := Some (Error "Invalid Refresh Token") |}.

(** No session in place, and a backend that answers [setSession] with
    [restore]. *)
Definition refusing (restore : exn + AuthResponse) : World :=
  {| search := "?code=abc&state=xyz";
     pathname := "/oauth/callback/twitter";
     origin := "https://app.example";
     opener := true;
     time_at := fun n => 1700000000000 + Z.of_nat n;
     json_parse := fun text =>
       if String.eqb text Scenario.snapshot then Some Scenario.session_object else None;
     auth_session := inr None;
     auth_restore := fun _ => restore;
     token_endpoint := fun _ _ _ => inr Scenario.tokens;
     http := fun _ _ => profile;
     db_fault := no_fault;
     setItem_fault := fun _ _ => None |}.


(** The usual redirect with no session in place (the user is restored
    from the snapshot), and what each backend answers. *)
Definition restoring (token : exn + TokenData) (response : exn + Response)
    (fault : db_request -> option exn) : World :=
  world_of "/oauth/callback/twitter" "?code=abc&state=xyz" (inr None) token response fault.

(** The usual redirect in a browser whose [localStorage] is full. *)
Definition storage_full : World :=
  {| search := "?code=abc&state=xyz";
     pathname := "/oauth/callback/twitter";
     origin := "https://app.example";
     opener := true;
     time_at := fun n => 1700000000000 + Z.of_nat n;
     json_parse := fun text =>
       if String.eqb text Scenario.snapshot then Some Scenario.session_object else None;
     auth_session := logged_in;
     auth_restore := fun _ => inl (Error "unused");
     token_endpoint := fun _ _ _ => inr Scenario.tokens;
     http := fun _ _ => profile;
     db_fault := no_fault;
     setItem_fault := fun _ _ =>
       Some (Throw "QuotaExceededError" "The quota has been exceeded.") |}.

(** The backends of the connect button. *)
Definition backend (session : js) (answer : exn + unit) : SocialMediaLogin.Backend :=
  {| SocialMediaLogin.session_answer := inr session;
     SocialMediaLogin.initiateOAuth_answer := fun _ _ => answer |}.

End Cases.

(** * Checks of the built-ins on known values *)

Example toISOString_epoch : toISOString 0 = inr "1970-01-01T00:00:00.000Z".
Proof. reflexivity. Qed.

Example toISOString_2023 : toISOString 1700000000000 = inr "2023-11-14T22:13:20.000Z".
Proof. reflexivity. Qed.

Example toISOString_before_epoch : toISOString (-1) = inr "1969-12-31T23:59:59.999Z".
Proof. reflexivity. Qed.

Example toISOString_leap_day : toISOString 951782400000 = inr "2000-02-29T00:00:00.000Z".
Proof. reflexivity. Qed.

Example toISOString_latest : toISOString 8640000000000000 = inr "+275760-09-13T00:00:00.000Z".
Proof. reflexivity. Qed.

Example toISOString_earliest : toISOString (-8640000000000000) = inr "-271821-04-20T00:00:00.000Z".
Proof. reflexivity. Qed.

Example toISOString_out_of_range :
  toISOString 8640000000000001 = inl (RangeError "Invalid time value").
Proof. reflexivity. Qed.

Example URLSearchParams_scenario :
  URLSearchParams "?code=abc&state=xyz" = [("code", "abc"); ("state", "xyz")].
Proof. reflexivity. Qed.

Example URLSearchParams_decoding :
  URLSearchParams "?error=access_denied&error_description=User+said%20no&flag" =
  [("error", "access_denied"); ("error_description", "User said no"); ("flag", "")].
Proof. reflexivity. Qed.

Example split_pathname :
  split "/" "/oauth/callback/twitter" = [""; "oauth"; "callback"; "twitter"].
Proof. reflexivity. Qed.

Example ToString_examples :
  ToString (JNum (-42)) = "-42" /\ ToString (JArr [JNum 1; null; JStr "a"]) = "1,,a" /\
  ToString undefined = "undefined".
Proof. repeat split; reflexivity. Qed.

(** * Values: equality test *)


Lemma js_eqb_refl (v : js) : js_eqb v v = true.
Proof.
  induction v as [| | b | n | s | items IH | props IH] using js_nested_ind; simpl; auto.
  - by destruct b.
  - apply Z.eqb_refl.
  - apply String.eqb_refl.
  - induction IH as [| x l Hx _ IHl]; [done |]. by rewrite Hx, IHl.
  - induction IH as [| [k x] l Hx _ IHl]; [done |].
    simpl in Hx. by rewrite String.eqb_refl, Hx, IHl.
Qed.

Lemma js_eqb_eq (a b : js) : js_eqb a b = true <-> a = b.
Proof.
  split; [| intros ->; apply js_eqb_refl].
  revert b.
  induction a as [| | x | x | x | items IH | props IH] using js_nested_ind;
    intros [| | y | y | y | ys | qs]; simpl; try discriminate; auto.
  - intros H. f_equal. by apply Bool.eqb_prop.
  - intros H. f_equal. by apply Z.eqb_eq.
  - intros H. f_equal. by apply String.eqb_eq.
  - intros H. f_equal. revert ys H.
    induction IH as [| x l Hx _ IHl]; intros [| y ys]; try discriminate; [done |].
    intros H. apply andb_prop in H as [H1 H2]. f_equal; auto.
  - intros H. f_equal. revert qs H.
    induction IH as [| [k x] l Hx _ IHl]; intros [| [k' y] qs]; try discriminate; [done |].
    intros H. apply andb_prop in H as [H1 H3]. apply andb_prop in H1 as [H1 H2].
    simpl in Hx. apply String.eqb_eq in H1. f_equal; [f_equal |]; auto.
Qed.

(** * The monad: how a run unfolds *)

Lemma bind_run {A B} (m : M A) (k : A -> M B) (w : World) (s : State) :
  (m ≫= k) w s =
  match m w s with
  | (inr a, s') => k a w s'
  | (inl e, s') => (inl e, s')
  end.
Proof. reflexivity. Qed.

Ltac unfold_calls :=
  cbv beta iota zeta delta
    [mbind M_bind mret M_ret throw try_catch lift ask get modify emit
     localStorage_getItem localStorage_setItem localStorage_removeItem
     sessionStorage_getItem sessionStorage_removeItem console setStatus setMessage
     setTimeout Date_now JSON_parse supabase_auth_getSession supabase_auth_setSession
     exchangeCodeForToken fetch option_bind fst snd].

(** * The profile fetcher *)

Lemma unsupported_eqb (platform : string) :
  platform ∉ supported ->
  String.eqb platform "twitter" = false /\ String.eqb platform "linkedin" = false /\
  String.eqb platform "instagram" = false /\ String.eqb platform "facebook" = false /\
  String.eqb platform "tiktok" = false.
Proof.
  intros H. repeat split; apply String.eqb_neq; intros ->; apply H;
    unfold supported; set_solver.
Qed.

Lemma documented_supported (platform : string) :
  is_Some (documented platform) <-> platform ∈ supported.
Proof.
  unfold documented, supported. split.
  - intros H.
    destruct (String.eqb platform "twitter") eqn:Etw;
      [apply String.eqb_eq in Etw; subst platform; set_solver |].
    destruct (String.eqb platform "linkedin") eqn:Eli;
      [apply String.eqb_eq in Eli; subst platform; set_solver |].
    destruct (String.eqb platform "instagram") eqn:Ein;
      [apply String.eqb_eq in Ein; subst platform; set_solver |].
    destruct (String.eqb platform "facebook") eqn:Efa;
      [apply String.eqb_eq in Efa; subst platform; set_solver |].
    destruct (String.eqb platform "tiktok") eqn:Eti;
      [apply String.eqb_eq in Eti; subst platform; set_solver |].
    by destruct H.
  - intros H. repeat (apply elem_of_cons in H as [H | H]; [subst platform; by eexists |]).
    by apply elem_of_nil in H.
Qed.

(** C8. For a platform outside the five supported ones, [fetchAccountInfo]
    throws [Unsupported platform: <platform>] and leaves the state as it
    was: nothing is logged, so no request has been issued. *)
Theorem fetchAccountInfo_unsupported (platform accessToken : string) (w : World) (s : State) :
  platform ∉ supported ->
  fetchAccountInfo platform accessToken w s =
  (inl (Error ("Unsupported platform: " +:+ platform)), s).
Proof.
  intros H. apply unsupported_eqb in H as (H1 & H2 & H3 & H4 & H5).
  unfold fetchAccountInfo. rewrite bind_run, H1, H2, H3, H4, H5. reflexivity.
Qed.

(** The request and the result of [fetchAccountInfo] on an ok response,
    row by row of the documented table. *)
Lemma fetchAccountInfo_extracts (platform accessToken : string) (url : string)
    (extract : js -> option AccountInfo) (data : js) (info : AccountInfo)
    (w : World) (s : State) :
  documented platform = Some (url, extract) ->
  http w url [("Authorization", "Bearer " +:+ accessToken)] =
    inr {| ok := true; json := inr data |} ->
  extract data = Some info ->
  fetchAccountInfo platform accessToken w s =
  (inr info, with_event (Fetch url [("Authorization", "Bearer " +:+ accessToken)]) s).
Proof.
  unfold documented, fetchAccountInfo. intros Hdoc Hhttp Hextract.
  destruct (String.eqb platform "twitter") eqn:E1;
    [| destruct (String.eqb platform "linkedin") eqn:E2;
       [| destruct (String.eqb platform "instagram") eqn:E3;
          [| destruct (String.eqb platform "facebook") eqn:E4;
             [| destruct (String.eqb platform "tiktok") eqn:E5; [| discriminate]]]]];
    injection Hdoc as <- <-; unfold_calls; rewrite Hhttp;
    cbv beta iota zeta delta [ok json negb]; unfold_calls;
    revert Hextract; cbn [at_path mbind option_bind];
    repeat match goal with
           | |- context [get_prop ?v ?k] => destruct (get_prop v k) as [? | ?]; cbn [mbind option_bind]
           end;
    try discriminate; intros [= <-]; reflexivity.
Qed.

(** C3. Every supported platform has a row in the documented table, and
    when the endpoint of that row answers the bearer-token request with an
    ok response whose body is [data], [fetchAccountInfo] issues exactly
    that request and returns the extraction of that row from [data]. *)
Theorem fetchAccountInfo_documented (platform accessToken : string) :
  platform ∈ supported ->
  exists (url : string) (extract : js -> option AccountInfo),
    documented platform = Some (url, extract) /\
    forall (data : js) (info : AccountInfo) (w : World) (s : State),
      http w url [("Authorization", "Bearer " +:+ accessToken)] =
        inr {| ok := true; json := inr data |} ->
      extract data = Some info ->
      fetchAccountInfo platform accessToken w s =
      (inr info, with_event (Fetch url [("Authorization", "Bearer " +:+ accessToken)]) s).
Proof.
  intros Hin. apply documented_supported in Hin as [[url extract] Hdoc].
  exists url, extract. split; [exact Hdoc |].
  intros data info w s. by apply fetchAccountInfo_extracts.
Qed.

Example fetchAccountInfo_twitter_fallback :
  (fetchAccountInfo "twitter" "tok"
     (Scenario.api_world (JObj [("data", JObj [("username", JStr "jane_d")])]))
     Scenario.start).1 =
  inr {| name := JStr "jane_d"; handle := JStr "@jane_d" |}.
Proof. reflexivity. Qed.

Example fetchAccountInfo_linkedin :
  fetchAccountInfo "linkedin" "tok"
    (Scenario.api_world (JObj [("id", JStr "urn-7"); ("localizedFirstName", JStr "Jane");
                               ("localizedLastName", JStr "Doe")]))
    Scenario.start =
  (inr {| name := JStr "Jane Doe"; handle := JStr "urn-7" |},
   with_event (Fetch "https://api.linkedin.com/v2/me" [("Authorization", "Bearer tok")])
     Scenario.start).
Proof. reflexivity. Qed.

Example fetchAccountInfo_instagram :
  (fetchAccountInfo "instagram" "tok"
     (Scenario.api_world (JObj [("id", JStr "17"); ("username", JStr "jane.d")]))
     Scenario.start).1 =
  inr {| name := JStr "jane.d"; handle := JStr "@jane.d" |}.
Proof. reflexivity. Qed.

Example fetchAccountInfo_facebook :
  (fetchAccountInfo "facebook" "tok"
     (Scenario.api_world (JObj [("id", JStr "1002"); ("name", JStr "Jane Doe")]))
     Scenario.start).1 =
  inr {| name := JStr "Jane Doe"; handle := JStr "1002" |}.
Proof. reflexivity. Qed.

Example fetchAccountInfo_tiktok :
  (fetchAccountInfo "tiktok" "tok"
     (Scenario.api_world
        (JObj [("data", JObj [("user", JObj [("open_id", JStr "o-1");
                                              ("display_name", JStr "Jane")])])]))
     Scenario.start).1 =
  inr {| name := JStr "Jane"; handle := JStr "o-1" |}.
Proof. reflexivity. Qed.

Example fetchAccountInfo_body_without_data :
  (fetchAccountInfo "twitter" "tok" (Scenario.api_world (JObj [])) Scenario.start).1 =
  inl (TypeError "Cannot read properties of undefined (reading 'name')").
Proof. reflexivity. Qed.

(** * The redirect parameters *)

Lemma nonempty_None_falsy (o : option string) :
  nonempty o = None -> truthy (or_null o) = false.
Proof. destruct o as [x |]; [| done]. simpl. by destruct (String.eqb x "") eqn:E. Qed.



Lemma Some_nonempty (x : string) : x <> "" -> nonempty (Some x) = Some x.
Proof. intros H. simpl. by apply String.eqb_neq in H as ->. Qed.

(** The message an error with a non-empty text leaves on the page. *)
Lemma on_error_run (msg : string) (w : World) (s : State) :
  msg <> "" ->
  on_error (Error msg) w s =
  (inr tt, with_message msg (with_status error
             (with_event (Console "error" "OAuth callback error:") s))).
Proof.
  intros H. apply String.eqb_neq in H.
  unfold on_error. unfold_calls. unfold js_or, truthy. simpl exn_message.
  by rewrite H.
Qed.

(** C6. A redirect without an error parameter that lacks [code] or [state]
    (absent or empty) ends in the error state with the message
    [Missing authorization code or state]; the run logs only the console
    line of the [catch] block (and, in the upserting handler, its debug
    line first): no call leaves the page, and storages and table are as
    they were. *)
Theorem missing_code_or_state (w : World) (s : State) :
  let params := URLSearchParams (search w) in
  nonempty (URLSearchParams_get "error" params) = None ->
  nonempty (URLSearchParams_get "code" params) = None \/
  nonempty (URLSearchParams_get "state" params) = None ->
  (HandleAware.handleOAuthCallback w s =
     (inr tt, with_message "Missing authorization code or state"
                (with_status error (with_event (Console "error" "OAuth callback error:") s)))
   /\ remote_calls (HandleAware.handleOAuthCallback w s).2 = remote_calls s)
  /\
  (UpsertVariant.handleOAuthCallback w s =
     (inr tt, with_message "Missing authorization code or state"
                (with_status error
                   (with_event (Console "error" "OAuth callback error:")
                      (with_event (Console "log" "OAuth Callback Debug:") s))))
   /\ remote_calls (UpsertVariant.handleOAuthCallback w s).2 = remote_calls s).
Proof.
  intros params Herr Hmissing. apply nonempty_None_falsy in Herr.
  assert (HandleAware.handleOAuthCallback w s =
          (inr tt, with_message "Missing authorization code or state"
                     (with_status error
                        (with_event (Console "error" "OAuth callback error:") s)))) as HA.
  { unfold HandleAware.handleOAuthCallback. unfold_calls. fold params. rewrite Herr.
    destruct Hmissing as [-> | ->];
      [| destruct (nonempty (URLSearchParams_get "code" params))];
      unfold_calls; by rewrite on_error_run. }
  assert (UpsertVariant.handleOAuthCallback w s =
          (inr tt, with_message "Missing authorization code or state"
                     (with_status error
                        (with_event (Console "error" "OAuth callback error:")
                           (with_event (Console "log" "OAuth Callback Debug:") s))))) as HU.
  { unfold UpsertVariant.handleOAuthCallback. unfold_calls. fold params. rewrite Herr.
    destruct Hmissing as [-> | ->];
      [| destruct (nonempty (URLSearchParams_get "code" params))];
      unfold_calls; by rewrite on_error_run. }
  rewrite HA, HU. repeat split; unfold remote_calls; simpl;
    rewrite ?List.filter_app; simpl; by rewrite ?app_nil_r.
Qed.


(** * Properties of the table that a run keeps *)

Section keeps.
Context (w : World) (Q : list Row -> Prop).

Lemma keeps_ret {A} (a : A) : keeps_table w Q (mret a).
Proof. by intros s. Qed.

Lemma keeps_throw {A} (e : exn) : keeps_table w Q (@throw A e).
Proof. by intros s. Qed.

Lemma keeps_lift {A} (r : exn + A) : keeps_table w Q (lift r).
Proof. by intros s. Qed.

Lemma keeps_ask {A} (f : World -> A) : keeps_table w Q (ask f).
Proof. by intros s. Qed.

Lemma keeps_get {A} (f : State -> A) : keeps_table w Q (get f).
Proof. by intros s. Qed.

Lemma keeps_modify (f : State -> State) :
  (forall s, social_accounts (f s) = social_accounts s) -> keeps_table w Q (modify f).
Proof. intros Hf s. simpl. by rewrite Hf. Qed.

Lemma keeps_bind {A B} (m : M A) (k : A -> M B) :
  keeps_table w Q m -> (forall a, keeps_table w Q (k a)) -> keeps_table w Q (m ≫= k).
Proof.
  intros Hm Hk s HQ. rewrite bind_run. specialize (Hm s HQ).
  destruct (m w s) as [[e | a] s']; [done |]. by apply Hk.
Qed.

Lemma keeps_try_catch {A} (body : M A) (handler : exn -> M A) :
  keeps_table w Q body -> (forall e, keeps_table w Q (handler e)) ->
  keeps_table w Q (try_catch body handler).
Proof.
  intros Hm Hk s HQ. unfold try_catch. specialize (Hm s HQ).
  destruct (body w s) as [[e | a] s']; [by apply Hk | done].
Qed.
End keeps.

Ltac keeps_step :=
  match goal with
  | |- keeps_table _ _ (_ ≫= _) => apply keeps_bind; [| intros ?]
  | |- keeps_table _ _ (mret _) => apply keeps_ret
  | |- keeps_table _ _ (throw _) => apply keeps_throw
  | |- keeps_table _ _ (lift _) => apply keeps_lift
  | |- keeps_table _ _ (ask _) => apply keeps_ask
  | |- keeps_table _ _ (get _) => apply keeps_get
  | |- keeps_table _ _ (modify _) => apply keeps_modify; intros ?; reflexivity
  | |- keeps_table _ _ (try_catch _ _) => apply keeps_try_catch; [| intros ?]
  | |- keeps_table _ _ (match ?x with _ => _ end) => destruct x
  | |- keeps_table _ _ (let '(_, _) := ?x in _) => destruct x
  end.

Ltac keeps_calls :=
  repeat first
    [ keeps_step
    | progress unfold emit, localStorage_getItem, localStorage_setItem, localStorage_removeItem,
        sessionStorage_getItem, sessionStorage_removeItem, console, setStatus, setMessage,
        setTimeout, Date_now, JSON_parse, supabase_auth_getSession, supabase_auth_setSession,
        exchangeCodeForToken, fetch, expiry, now_iso, on_error ].

Lemma keeps_fetchAccountInfo w Q platform accessToken :
  keeps_table w Q (fetchAccountInfo platform accessToken).
Proof. unfold fetchAccountInfo. keeps_calls. Qed.


Lemma keeps_restoreSession w Q platform : keeps_table w Q (UpsertVariant.restoreSession platform).
Proof. unfold UpsertVariant.restoreSession. keeps_calls. Qed.

(** * What the calls do to the state *)

Lemma expiry_run (tokenData : TokenData) (w : World) (s : State) :
  expiry tokenData w s =
  (expiry_value tokenData (time_at w (clock s)),
   match expires_in tokenData with
   | Some secs => if secs =? 0 then s else with_tick s
   | None => s
   end).
Proof.
  unfold expiry, expiry_value. destruct (expires_in tokenData) as [secs |]; [| done].
  destruct (secs =? 0); [done |]. unfold_calls.
  by destruct (toISOString (time_at w (clock s) + secs * 1000)).
Qed.

Lemma now_iso_run (w : World) (s : State) :
  now_iso w s =
  (match toISOString (time_at w (clock s)) with
   | inr iso => inr (JStr iso)
   | inl e => inl e
   end, with_tick s).
Proof. unfold now_iso. unfold_calls. by destruct (toISOString (time_at w (clock s))). Qed.

Lemma select_run (columns : string) (filters : list (string * js)) (w : World) (s : State) :
  db_select_maybeSingle columns filters w s =
  (inr match db_fault w (Select columns filters),
             List.filter (matches filters) (social_accounts s) with
       | None, [r] => JObj [(columns, default null (r !! columns))]
       | _, _ => null
       end,
   with_event (Db (Select columns filters)) s).
Proof. reflexivity. Qed.

Lemma update_run (values : Row) (filters : list (string * js)) (w : World) (s : State) :
  db_update values filters w s =
  match db_fault w (Update values filters) with
  | Some e => (inr (Some e), with_event (Db (Update values filters)) s)
  | None => (inr None,
             with_table (updated values filters (social_accounts s)) (next_id s)
               (with_event (Db (Update values filters)) s))
  end.
Proof. unfold db_update. unfold_calls. by destruct (db_fault w (Update values filters)). Qed.

Lemma insert_run (values : Row) (w : World) (s : State) :
  db_insert values w s =
  match db_fault w (Insert values) with
  | Some e => (inr (Some e), with_event (Db (Insert values)) s)
  | None => (inr None,
             with_table (inserted values (next_id s) (social_accounts s)) (next_id s + 1)
               (with_event (Db (Insert values)) s))
  end.
Proof. unfold db_insert. unfold_calls. by destruct (db_fault w (Insert values)). Qed.

Ltac by_expiry td :=
  let secs := fresh "secs" in
  destruct (expires_in td) as [secs |]; [destruct (secs =? 0) |];
  repeat split; (reflexivity || assumption).

Lemma saveAccount_outcome (cu : User) (p : string) (ai : AccountInfo) (td : TokenData)
    (hint : option string) (w : World) (s : State) :
  let run := HandleAware.saveAccount cu p ai td hint w s in
  match db_fault w (Select "id" (account_key (JStr (User_id cu)) (JStr p) (handle ai))),
        records_for (JStr (User_id cu)) (JStr p) (handle ai) (social_accounts s) with
  | None, [r] =>
      (exists e, run.1 = inl e /\ social_accounts run.2 = social_accounts s /\
                 next_id run.2 = next_id s) \/
      (exists expires iso,
          run.1 = inr tt /\ expiry_value td (time_at w (clock s)) = inr expires /\
          social_accounts run.2 =
            updated (reconnect_values td expires (JStr iso))
              [("id", default null (r !! "id"))] (social_accounts s) /\
          next_id run.2 = next_id s)
  | _, _ =>
      (exists e, run.1 = inl e /\ social_accounts run.2 = social_accounts s /\
                 next_id run.2 = next_id s) \/
      (exists expires,
          run.1 = inr tt /\ expiry_value td (time_at w (clock s)) = inr expires /\
          social_accounts run.2 =
            inserted (connect_values cu p ai td hint expires) (next_id s) (social_accounts s) /\
          next_id run.2 = next_id s + 1)
  end.
Proof.
  intros run. unfold records_for, account_key.
  set (key := [("user_id", JStr (User_id cu)); ("platform", JStr p);
               ("account_handle", handle ai)]).
  assert (run = HandleAware.saveAccount cu p ai td hint w s) as Hrun by done.
  clearbody run. unfold HandleAware.saveAccount in Hrun.
  rewrite bind_run, select_run in Hrun. fold key in Hrun.
  assert (forall found : js, truthy found = false ->
    run = (if truthy found
           then expires ← expiry td; stamp ← now_iso;
                ident ← lift (get_prop found "id");
                updateError ← db_update
                  (list_to_map [("access_token", JStr (access_token td));
                                ("refresh_token", refresh_or_null td);
                                ("token_expires_at", expires);
                                ("is_connected", JBool true);
                                ("updated_at", stamp)]) [("id", ident)];
                match updateError with Some e => throw e | None => mret () end
           else expiresAt ← expiry td;
                dbError ← db_insert
                  (list_to_map [("user_id", JStr (User_id cu)); ("platform", JStr p);
                                ("account_name", js_or (or_null hint) (name ai));
                                ("account_handle", handle ai);
                                ("access_token", JStr (access_token td));
                                ("refresh_token", refresh_or_null td);
                                ("token_expires_at", expiresAt);
                                ("is_connected", JBool true)]);
                match dbError with Some e => throw e | None => mret () end)
            w (with_event (Db (Select "id" key)) s) ->
    (exists e, run.1 = inl e /\ social_accounts run.2 = social_accounts s /\
               next_id run.2 = next_id s) \/
    (exists expires,
        run.1 = inr tt /\ expiry_value td (time_at w (clock s)) = inr expires /\
        social_accounts run.2 =
          inserted (connect_values cu p ai td hint expires) (next_id s) (social_accounts s) /\
        next_id run.2 = next_id s + 1)) as Hinsert.
  { clear Hrun. intros found -> Hrun. rewrite bind_run, expiry_run in Hrun. simpl clock in Hrun.
    destruct (expiry_value td (time_at w (clock s))) as [e | expires] eqn:Hexp.
    { left. exists e. subst run. by_expiry td. }
    rewrite bind_run, insert_run in Hrun.
    match type of Hrun with context [db_fault w ?r] => destruct (db_fault w r) as [e |] end.
    - left. exists e. subst run. by_expiry td.
    - right. exists expires. subst run. by_expiry td. }
  destruct (db_fault w (Select "id" key)) as [e |]; [exact (Hinsert null eq_refl Hrun) |].
  destruct (List.filter (matches key) (social_accounts s)) as [| r [| r' rest]];
    [exact (Hinsert null eq_refl Hrun) | | exact (Hinsert null eq_refl Hrun)].
  clear Hinsert. cbn [truthy] in Hrun. rewrite bind_run, expiry_run in Hrun. simpl clock in Hrun.
  destruct (expiry_value td (time_at w (clock s))) as [e | expires] eqn:Hexp.
  { left. exists e. subst run. by_expiry td. }
  rewrite bind_run, now_iso_run in Hrun.
  match type of Hrun with context [toISOString ?t] => destruct (toISOString t) as [e | iso] end.
  { left. exists e. subst run. by_expiry td. }
  rewrite bind_run in Hrun. unfold lift at 1 in Hrun.
  cbn [get_prop assoc String.eqb Ascii.eqb Bool.eqb] in Hrun.
  cbv iota beta in Hrun. rewrite bind_run, update_run in Hrun.
  match type of Hrun with context [db_fault w ?r] => destruct (db_fault w r) as [e |] end.
  - left. exists e. subst run. by_expiry td.
  - right. exists expires, iso. subst run. by_expiry td.
Qed.

(** * The table: filters, updates, inserts *)

Lemma sent_lookup (values : Row) (c : string) : sent values !! c = values !! c ≫= stored.
Proof. apply lookup_omap. Qed.


Lemma column_eq_true (r : Row) (c : string) (v : js) :
  column_eq r c v = true <-> r !! c = Some v /\ v <> null.
Proof.
  unfold column_eq. destruct (r !! c) as [v' |]; [| by split; [| intros []]].
  rewrite andb_true_iff, negb_true_iff, js_eqb_eq. split.
  - intros [Hn ->]. split; [done |]. intros ->. by rewrite js_eqb_refl in Hn.
  - intros [[= ->] Hn]. split; [| done].
    destruct (js_eqb v null) eqn:E; [| done]. by apply js_eqb_eq in E.
Qed.

Lemma matches_cons (c : string) (v : js) (fs : list (string * js)) (r : Row) :
  matches ((c, v) :: fs) r = column_eq r c v && matches fs r.
Proof. reflexivity. Qed.

(** A filter only looks at the columns it names. *)
Lemma matches_agree (fs : list (string * js)) (r r' : Row) :
  (forall c, c ∈ fs.*1 -> r' !! c = r !! c) -> matches fs r' = matches fs r.
Proof.
  induction fs as [| [c v] fs IH]; intros H; [done |].
  rewrite !matches_cons, IH.
  - unfold column_eq. rewrite H; [done |]. simpl. apply list_elem_of_here.
  - intros c' Hc'. apply H. simpl. by apply list_elem_of_further.
Qed.

Lemma filter_map_agree {A} (f : A -> bool) (g : A -> A) (l : list A) :
  (forall x, f (g x) = f x) ->
  length (List.filter f (map g l)) = length (List.filter f l).
Proof.
  intros H. induction l as [| x l IH]; [done |]. simpl. rewrite H.
  destruct (f x); simpl; by rewrite IH.
Qed.

Lemma updated_length (values : Row) (fs : list (string * js)) (rows : list Row) :
  length (updated values fs rows) = length rows.
Proof. unfold updated. apply length_map. Qed.

Lemma updated_lookup (values : Row) (fs : list (string * js)) (rows : list Row) (i : nat) :
  updated values fs rows !! i =
  (fun r : Row => if matches fs r then sent values ∪ r else r) <$> rows !! i.
Proof. unfold updated. apply list_lookup_fmap. Qed.

(** An update leaves alone every column it does not write. *)
Lemma union_sent_other (values r : Row) (c : string) :
  values !! c = None -> (sent values ∪ r) !! c = r !! c.
Proof. intros H. apply lookup_union_r. by rewrite sent_lookup, H. Qed.

Lemma union_sent_written (values r : Row) (c : string) (v : js) :
  values !! c = Some v -> v <> undefined -> (sent values ∪ r) !! c = Some v.
Proof.
  intros H Hv. apply lookup_union_Some_l. rewrite sent_lookup, H. simpl.
  by destruct v.
Qed.

Lemma reconnect_values_other (td : TokenData) (expires stamp : js) (c : string) :
  c ∉ token_columns -> reconnect_values td expires stamp !! c = None.
Proof.
  intros H. unfold reconnect_values. apply not_elem_of_list_to_map_1. exact H.
Qed.



Lemma filter_inserted (f : Row -> bool) (values : Row) (next : Z) (rows : list Row) :
  List.filter f (inserted values next rows) =
  (List.filter f rows ++
   (if f (<["id" := JNum next]> (sent values)) then [<["id" := JNum next]> (sent values)]
    else []))%list.
Proof. unfold inserted. by rewrite List.filter_app. Qed.



(** * The handle-aware handler and the table *)





Lemma keeps_callbacks (Q : list Row -> Prop) (handler : M unit) (ws : list World) (s : State) :
  (forall w, w ∈ ws -> keeps_table w Q handler) ->
  Q (social_accounts s) -> Q (social_accounts (callbacks handler ws s)).
Proof.
  revert s. induction ws as [| w ws IH]; intros s Hkeeps HQ; [done |].
  simpl. apply IH.
  - intros w' Hw'. apply Hkeeps. by apply list_elem_of_further.
  - apply (Hkeeps w); [apply list_elem_of_here | done].
Qed.

Lemma refresh_or_null_defined (td : TokenData) : refresh_or_null td <> undefined.
Proof.
  unfold refresh_or_null, js_or. destruct (refresh_token td) as [x |]; simpl; [| done].
  by destruct (String.eqb x "").
Qed.

Lemma expiry_value_defined (td : TokenData) (now : Z) (expires : js) :
  expiry_value td now = inr expires -> expires <> undefined.
Proof.
  unfold expiry_value. destruct (expires_in td) as [secs |]; [| by intros [= <-]].
  destruct (secs =? 0); [by intros [= <-] |].
  destruct (toISOString (now + secs * 1000)); [done | by intros [= <-]].
Qed.

(** What a successful reconnect leaves in the table: the rows whose [id]
    is that of the record found carry the new tokens, expiry and connected
    flag; no row is added. *)
Lemma reconnect_in_place (w : World) (s : State) (cu : User) (p : string) (ai : AccountInfo)
    (td : TokenData) (hint : option string) (r : Row) (ident : js) :
  db_fault w (Select "id" (account_key (JStr (User_id cu)) (JStr p) (handle ai))) = None ->
  records_for (JStr (User_id cu)) (JStr p) (handle ai) (social_accounts s) = [r] ->
  r !! "id" = Some ident -> ident <> null ->
  (HandleAware.saveAccount cu p ai td hint w s).1 = inr tt ->
  let rows' := social_accounts (HandleAware.saveAccount cu p ai td hint w s).2 in
  exists expires iso,
    expiry_value td (time_at w (clock s)) = inr expires /\
    length rows' = length (social_accounts s) /\
    forall i, social_accounts s !! i = Some r ->
      exists r', rows' !! i = Some r' /\
        r' !! "access_token" = Some (JStr (access_token td)) /\
        r' !! "refresh_token" = Some (refresh_or_null td) /\
        r' !! "token_expires_at" = Some expires /\
        r' !! "is_connected" = Some (JBool true) /\
        r' !! "updated_at" = Some (JStr iso).
Proof.
  intros Hsel Hrec Hid Hnn Hok rows'. subst rows'.
  pose proof (saveAccount_outcome cu p ai td hint w s) as H.
  cbv zeta in H. rewrite Hsel, Hrec in H.
  destruct H as [(e & He & _) | (expires & iso & _ & Hexp & -> & _)]; [congruence |].
  exists expires, iso. split; [done |]. split; [apply updated_length |].
  intros i Hi. rewrite updated_lookup, Hi. simpl. rewrite Hid. simpl.
  assert (column_eq r "id" ident = true) as -> by by apply column_eq_true.
  eexists. split; [done |].
  pose proof (refresh_or_null_defined td). pose proof (expiry_value_defined _ _ _ Hexp).
  split_and!; by apply union_sent_written.
Qed.

Tactic Notation "simpl_state" :=
  cbn [localStorage sessionStorage social_accounts next_id status message timers clock log
       with_localStorage with_sessionStorage with_table with_status with_message with_timer
       with_no_timers with_tick with_event page_load fst snd].

Tactic Notation "simpl_state" "in" hyp(H) :=
  cbn [localStorage sessionStorage social_accounts next_id status message timers clock log
       with_localStorage with_sessionStorage with_table with_status with_message with_timer
       with_no_timers with_tick with_event page_load fst snd] in H.

(** The outcome of [fetchAccountInfo] depends on the world only; it logs
    the one request to the platform's endpoint, if the platform has one. *)
Lemma fetchAccountInfo_effect (platform accessToken : string) (w : World) :
  exists r, forall s,
    fetchAccountInfo platform accessToken w s =
    (r, match documented platform with
        | Some (url, _) => with_event (Fetch url [("Authorization", "Bearer " +:+ accessToken)]) s
        | None => s
        end).
Proof.
  unfold fetchAccountInfo, documented.
  destruct (String.eqb platform "twitter") eqn:E1;
    [| destruct (String.eqb platform "linkedin") eqn:E2;
       [| destruct (String.eqb platform "instagram") eqn:E3;
          [| destruct (String.eqb platform "facebook") eqn:E4;
             [| destruct (String.eqb platform "tiktok") eqn:E5]]]];
    unfold_calls;
    try match goal with
        | |- context [http w ?u ?h] =>
            destruct (http w u h) as [e | [[] [e | data]]];
            cbv beta iota zeta delta [ok json negb]
        end;
    repeat match goal with
           | |- context [get_prop ?v ?k] => destruct (get_prop v k) as [? | ?]
           end;
    eexists; intros s; reflexivity.
Qed.

Lemma fetchAccountInfo_elsewhere (platform accessToken : string) (w : World) (s s0 : State)
    (ai : AccountInfo) :
  (fetchAccountInfo platform accessToken w s0).1 = inr ai ->
  exists url extract,
    documented platform = Some (url, extract) /\
    fetchAccountInfo platform accessToken w s =
    (inr ai, with_event (Fetch url [("Authorization", "Bearer " +:+ accessToken)]) s).
Proof.
  intros H. destruct (fetchAccountInfo_effect platform accessToken w) as [r Hr].
  rewrite Hr in H. simpl in H. subst r.
  destruct (documented platform) as [[url extract] |] eqn:Hdoc.
  - exists url, extract. by rewrite Hr.
  - exfalso. specialize (Hr s0).
    assert (platform ∉ supported) as Hns.
    { intros Hin. apply documented_supported in Hin. rewrite Hdoc in Hin. by destruct Hin. }
    apply unsupported_eqb in Hns as (H1 & H2 & H3 & H4 & H5).
    unfold fetchAccountInfo in Hr. rewrite bind_run, H1, H2, H3, H4, H5 in Hr.
    discriminate Hr.
Qed.

(** The state in which a computation of the expiry leaves the page: the
    clock has been read once when there is a lifetime to add. *)
Lemma expiry_state (td : TokenData) (w : World) (s : State) :
  localStorage (expiry td w s).2 = localStorage s /\
  sessionStorage (expiry td w s).2 = sessionStorage s /\
  social_accounts (expiry td w s).2 = social_accounts s /\
  next_id (expiry td w s).2 = next_id s /\
  status (expiry td w s).2 = status s /\
  message (expiry td w s).2 = message s /\
  timers (expiry td w s).2 = timers s /\
  log (expiry td w s).2 = log s.
Proof. rewrite expiry_run. simpl. by_expiry td. Qed.

Lemma saveAccount_first_connect (w : World) (s : State) (cu : User) (p : string)
    (ai : AccountInfo) (td : TokenData) (hint : option string) (expires : js) :
  db_fault w (Select "id" (account_key (JStr (User_id cu)) (JStr p) (handle ai))) = None ->
  records_for (JStr (User_id cu)) (JStr p) (handle ai) (social_accounts s) = [] ->
  expiry_value td (time_at w (clock s)) = inr expires ->
  db_fault w (Insert (connect_values cu p ai td hint expires)) = None ->
  HandleAware.saveAccount cu p ai td hint w s =
  (inr tt,
   with_table (inserted (connect_values cu p ai td hint expires) (next_id s) (social_accounts s))
     (next_id s + 1)
     (with_event (Db (Insert (connect_values cu p ai td hint expires)))
        (expiry td w
           (with_event
              (Db (Select "id" (account_key (JStr (User_id cu)) (JStr p) (handle ai)))) s)).2)).
Proof.
  intros Hsel Hrec Hexp Hins. unfold HandleAware.saveAccount.
  rewrite bind_run, select_run. fold (account_key (JStr (User_id cu)) (JStr p) (handle ai)).
  rewrite Hsel. unfold records_for in Hrec. rewrite Hrec. cbn [truthy].
  rewrite bind_run.
  pose proof (expiry_state td w
    (with_event (Db (Select "id" (account_key (JStr (User_id cu)) (JStr p) (handle ai)))) s))
    as (_ & _ & Htable & Hnext & _).
  simpl_state in Htable. simpl_state in Hnext.
  destruct (expiry td w _) as [res s1] eqn:Hrun. rewrite expiry_run in Hrun.
  simpl_state in Hrun. rewrite Hexp in Hrun. injection Hrun as <- Hs1.
  rewrite bind_run, insert_run.
  fold (connect_values cu p ai td hint expires). rewrite Hins.
  simpl in Htable, Hnext. rewrite Htable, Hnext. reflexivity.
Qed.

(** A first connect, from the token exchange to the success state. *)
Lemma linkAccount_first_connect (w : World) (s : State) (cu : User) (p c st : string)
    (td : TokenData) (ai : AccountInfo) (expires : js) (url : string)
    (extract : js -> option AccountInfo) :
  let hint := sessionStorage s !! ("oauth_display_name_" +:+ p) in
  let values := connect_values cu p ai td hint expires in
  token_endpoint w p c st = inr td ->
  (fetchAccountInfo p (access_token td) w s).1 = inr ai ->
  documented p = Some (url, extract) ->
  db_fault w (Select "id" (account_key (JStr (User_id cu)) (JStr p) (handle ai))) = None ->
  records_for (JStr (User_id cu)) (JStr p) (handle ai) (social_accounts s) = [] ->
  expiry_value td (time_at w (clock s)) = inr expires ->
  db_fault w (Insert values) = None ->
  let run := HandleAware.linkAccount cu p c st w s in
  run.1 = inr tt /\
  status run.2 = success /\
  message run.2 = "Successfully connected your " +:+ p +:+ " account!" /\
  social_accounts run.2 = inserted values (next_id s) (social_accounts s) /\
  next_id run.2 = next_id s + 1 /\
  localStorage run.2 = localStorage s /\
  sessionStorage run.2 =
    delete ("oauth_display_name_" +:+ p) (delete ("oauth_username_" +:+ p) (sessionStorage s)) /\
  timers run.2 = (timers s ++ [(SuccessTimeout p, 2000)])%list /\
  log run.2 =
    (log s ++
     [ExchangeCode p c st;
      Fetch url [("Authorization", "Bearer " +:+ access_token td)];
      SessionStorage_getItem ("oauth_username_" +:+ p);
      SessionStorage_getItem ("oauth_display_name_" +:+ p);
      SessionStorage_removeItem ("oauth_username_" +:+ p);
      SessionStorage_removeItem ("oauth_display_name_" +:+ p);
      Db (Select "id" (account_key (JStr (User_id cu)) (JStr p) (handle ai)));
      Db (Insert values);
      SetTimeout (SuccessTimeout p) 2000])%list.
Proof.
  intros hint values Htok Hfetch Hdoc Hsel Hrec Hexp Hins run.
  assert (exists s', run = (inr tt, s') /\
            status s' = success /\
            message s' = "Successfully connected your " +:+ p +:+ " account!" /\
            social_accounts s' = inserted values (next_id s) (social_accounts s) /\
            next_id s' = next_id s + 1 /\
            localStorage s' = localStorage s /\
            sessionStorage s' =
              delete ("oauth_display_name_" +:+ p)
                (delete ("oauth_username_" +:+ p) (sessionStorage s)) /\
            timers s' = (timers s ++ [(SuccessTimeout p, 2000)])%list /\
            log s' =
              (log s ++
               [ExchangeCode p c st;
                Fetch url [("Authorization", "Bearer " +:+ access_token td)];
                SessionStorage_getItem ("oauth_username_" +:+ p);
                SessionStorage_getItem ("oauth_display_name_" +:+ p);
                SessionStorage_removeItem ("oauth_username_" +:+ p);
                SessionStorage_removeItem ("oauth_display_name_" +:+ p);
                Db (Select "id" (account_key (JStr (User_id cu)) (JStr p) (handle ai)));
                Db (Insert values);
                SetTimeout (SuccessTimeout p) 2000])%list) as (s' & -> & H);
    [| exact (conj eq_refl H)].
  subst run. unfold HandleAware.linkAccount. unfold_calls. rewrite Htok.
  match goal with
  | |- context [fetchAccountInfo ?p' ?t ?w' ?S] =>
      destruct (fetchAccountInfo_elsewhere p' t w' S s ai Hfetch) as (url' & extract' & Hdoc' & ->)
  end.
  rewrite Hdoc in Hdoc'. injection Hdoc' as <- <-.
  simpl_state.
  erewrite saveAccount_first_connect; simpl_state; [| done ..].
  eexists. split; [reflexivity |]. simpl_state.
  match goal with
  | |- context [expiry td w ?S] => pose proof (expiry_state td w S) as (H1 & H2 & H3 & H4 & H5 & H6 & H7 & H8)
  end.
  rewrite H1, H2, H7, H8. simpl_state.
  split_and!; try reflexivity.
  by rewrite <- !app_assoc.
Qed.

(** * The reconnect update *)

(** C9. When the lookup finds the record, the persistence step of the
    handle-aware handler keeps the number of rows, and every row keeps
    every column outside access_token, refresh_token, token_expires_at,
    is_connected and updated_at; in particular account_name,
    account_handle, user_id and platform are as they were. When the step
    succeeds, those five columns of the record found hold the new
    values. *)
Theorem reconnect_frame (w : World) (s : State) (cu : User) (p : string) (ai : AccountInfo)
    (td : TokenData) (hint : option string) (r : Row) :
  db_fault w (Select "id" (account_key (JStr (User_id cu)) (JStr p) (handle ai))) = None ->
  records_for (JStr (User_id cu)) (JStr p) (handle ai) (social_accounts s) = [r] ->
  let rows' := social_accounts (HandleAware.saveAccount cu p ai td hint w s).2 in
  length rows' = length (social_accounts s) /\
  (forall (i : nat) (row : Row),
      social_accounts s !! i = Some row ->
      exists row', rows' !! i = Some row' /\
        (forall c, c ∉ token_columns -> row' !! c = row !! c) /\
        row' !! "account_name" = row !! "account_name" /\
        row' !! "account_handle" = row !! "account_handle" /\
        row' !! "user_id" = row !! "user_id" /\
        row' !! "platform" = row !! "platform") /\
  (forall ident : js,
      r !! "id" = Some ident -> ident <> null ->
      (HandleAware.saveAccount cu p ai td hint w s).1 = inr tt ->
      exists expires iso,
        expiry_value td (time_at w (clock s)) = inr expires /\
        forall i, social_accounts s !! i = Some r ->
          exists r', rows' !! i = Some r' /\
            r' !! "access_token" = Some (JStr (access_token td)) /\
            r' !! "refresh_token" = Some (refresh_or_null td) /\
            r' !! "token_expires_at" = Some expires /\
            r' !! "is_connected" = Some (JBool true) /\
            r' !! "updated_at" = Some (JStr iso)).
Proof.
  intros Hsel Hrec rows'. split_and!.
  - subst rows'. pose proof (saveAccount_outcome cu p ai td hint w s) as H.
    cbv zeta in H. rewrite Hsel, Hrec in H.
    destruct H as [(e & _ & -> & _) | (expires & iso & _ & _ & -> & _)];
      [done | apply updated_length].
  - subst rows'. pose proof (saveAccount_outcome cu p ai td hint w s) as H.
    cbv zeta in H. rewrite Hsel, Hrec in H.
    destruct H as [(e & _ & -> & _) | (expires & iso & _ & _ & -> & _)].
    + intros i row Hi. exists row. by split_and!.
    + intros i row Hi. rewrite updated_lookup, Hi.
      exists (if matches [("id", default null (r !! "id"))] row
              then sent (reconnect_values td expires (JStr iso)) ∪ row else row).
      split; [done |].
      destruct (matches [("id", default null (r !! "id"))] row); [| by split_and!].
      split_and!; [intros c Hc; by apply union_sent_other, reconnect_values_other | ..];
        apply union_sent_other; reflexivity.
  - intros ident Hid Hnn Hok.
    destruct (reconnect_in_place w s cu p ai td hint r ident Hsel Hrec Hid Hnn Hok)
      as (expires & iso & Hexp & _ & Hrows).
    by exists expires, iso.
Qed.

(** * The display hints *)

Lemma hint_keys_differ (p : string) : "oauth_username_" +:+ p <> "oauth_display_name_" +:+ p.
Proof. simpl. discriminate. Qed.

Lemma connect_account_name (cu : User) (p : string) (ai : AccountInfo) (td : TokenData)
    (hint : option string) (expires : js) (next : Z) :
  (<["id" := JNum next]> (sent (connect_values cu p ai td hint expires))) !! "account_name" =
  stored (js_or (or_null hint) (name ai)).
Proof. rewrite lookup_insert_ne by done. by rewrite sent_lookup. Qed.

(** C10, as amended. On a first connect of the handle-aware handler the
    row inserted has for account_name the display-name hint when that hint
    is stored and not empty, and the fetched profile name otherwise (an
    empty hint counts as no hint); the row is the same whatever is stored
    under oauth_username_<platform>; both hints are read and then removed
    from [sessionStorage] before the table is reached. *)
Theorem first_connect_account_name (w : World) (s : State) (cu : User) (p c st : string)
    (td : TokenData) (ai : AccountInfo) (expires : js) (url : string)
    (extract : js -> option AccountInfo) :
  let hint := sessionStorage s !! ("oauth_display_name_" +:+ p) in
  let values := connect_values cu p ai td hint expires in
  token_endpoint w p c st = inr td ->
  (fetchAccountInfo p (access_token td) w s).1 = inr ai ->
  documented p = Some (url, extract) ->
  db_fault w (Select "id" (account_key (JStr (User_id cu)) (JStr p) (handle ai))) = None ->
  records_for (JStr (User_id cu)) (JStr p) (handle ai) (social_accounts s) = [] ->
  expiry_value td (time_at w (clock s)) = inr expires ->
  db_fault w (Insert values) = None ->
  let s' := (HandleAware.linkAccount cu p c st w s).2 in
  exists row,
    social_accounts s' = (social_accounts s ++ [row])%list /\
    (forall d, hint = Some d -> d <> "" -> row !! "account_name" = Some (JStr d)) /\
    (nonempty hint = None -> row !! "account_name" = stored (name ai)) /\
    (forall v : option string,
        social_accounts
          (HandleAware.linkAccount cu p c st w
             (with_sessionStorage (partial_alter (fun _ => v) ("oauth_username_" +:+ p)) s)).2 =
        (social_accounts s ++ [row])%list) /\
    sessionStorage s' !! ("oauth_username_" +:+ p) = None /\
    sessionStorage s' !! ("oauth_display_name_" +:+ p) = None /\
    log s' =
      (log s ++
       [ExchangeCode p c st;
        Fetch url [("Authorization", "Bearer " +:+ access_token td)];
        SessionStorage_getItem ("oauth_username_" +:+ p);
        SessionStorage_getItem ("oauth_display_name_" +:+ p);
        SessionStorage_removeItem ("oauth_username_" +:+ p);
        SessionStorage_removeItem ("oauth_display_name_" +:+ p);
        Db (Select "id" (account_key (JStr (User_id cu)) (JStr p) (handle ai)));
        Db (Insert values);
        SetTimeout (SuccessTimeout p) 2000])%list.
Proof.
  intros hint values Htok Hfetch Hdoc Hsel Hrec Hexp Hins s'.
  destruct (linkAccount_first_connect w s cu p c st td ai expires url extract
              Htok Hfetch Hdoc Hsel Hrec Hexp Hins)
    as (_ & _ & _ & Htable & _ & _ & Hss & _ & Hlog).
  exists (<["id" := JNum (next_id s)]> (sent values)). split_and!.
  - exact Htable.
  - intros d Hd Hne. unfold values. rewrite connect_account_name, Hd.
    unfold js_or. simpl. by apply String.eqb_neq in Hne as ->.
  - intros Hnone. unfold values. rewrite connect_account_name.
    unfold js_or. by rewrite (nonempty_None_falsy _ Hnone).
  - intros v.
    set (s2 := with_sessionStorage (partial_alter (fun _ => v) ("oauth_username_" +:+ p)) s).
    assert (sessionStorage s2 !! ("oauth_display_name_" +:+ p) = hint) as Hhint.
    { unfold s2, hint. simpl_state. apply lookup_partial_alter_ne, hint_keys_differ. }
    assert ((fetchAccountInfo p (access_token td) w s2).1 = inr ai) as Hfetch2.
    { by destruct (fetchAccountInfo_elsewhere p (access_token td) w s2 s ai Hfetch)
        as (? & ? & _ & ->). }
    pose proof (linkAccount_first_connect w s2 cu p c st td ai expires url extract) as H2.
    cbv zeta in H2. rewrite Hhint in H2.
    by destruct (H2 Htok Hfetch2 Hdoc Hsel Hrec Hexp Hins) as (_ & _ & _ & Htable2 & _).
  - unfold s'. rewrite Hss. rewrite lookup_delete_ne by (apply not_eq_sym, hint_keys_differ).
    apply lookup_delete_eq.
  - unfold s'. rewrite Hss. apply lookup_delete_eq.
  - exact Hlog.
Qed.

(** * The whole handler on a first connect *)

Lemma toISOString_in_range (t : Z) :
  Z.abs t <= 8640000000000000 -> exists iso, toISOString t = inr iso.
Proof.
  intros H. unfold toISOString.
  destruct (Z.gtb_spec (Z.abs t) 8640000000000000) as [Hgt | _]; [lia |].
  by eexists.
Qed.

(** Lines 45-67 when there is no session in place and the snapshot
    parses: whatever [setSession] answers, the snapshot is removed. *)
Lemma restoreUser_from_snapshot (w : World) (s : State) (p saved : string)
    (existing : option Session) (parsed access refresh : js) (r : AuthResponse) :
  auth_session w = inr existing -> existing ≫= user = None ->
  localStorage s !! ("oauth_supabase_session_" +:+ p) = Some saved -> saved <> "" ->
  json_parse w saved = Some parsed ->
  get_prop parsed "access_token" = inr access ->
  get_prop parsed "refresh_token" = inr refresh ->
  auth_restore w (JObj [("access_token", access); ("refresh_token", refresh)]) = inr r ->
  HandleAware.restoreUser p w s =
  (inr match auth_error r, data_user r with
       | None, Some u => Some u
       | _, _ => None
       end,
   with_localStorage (delete ("oauth_supabase_session_" +:+ p))
     (with_event (LocalStorage_removeItem ("oauth_supabase_session_" +:+ p))
        (with_event (SetSession (JObj [("access_token", access); ("refresh_token", refresh)]))
           (with_event (LocalStorage_getItem ("oauth_supabase_session_" +:+ p))
              (with_event GetSession s))))).
Proof.
  intros Hsession Hnouser Hsaved Hne Hparse Haccess Hrefresh Hrestore.
  unfold HandleAware.restoreUser. unfold_calls. rewrite Hsession.
  unfold_calls. cbv beta iota delta [mbind option_bind] in Hnouser. rewrite Hnouser.
  simpl_state. rewrite Hsaved, (Some_nonempty _ Hne), Hparse, Haccess, Hrefresh, Hrestore.
  reflexivity.
Qed.

Lemma handler_reaches_linkAccount (w : World) (s s1 : State) (c st p : string) (cu : User) :
  let params := URLSearchParams (search w) in
  nonempty (URLSearchParams_get "error" params) = None ->
  nonempty (URLSearchParams_get "code" params) = Some c ->
  nonempty (URLSearchParams_get "state" params) = Some st ->
  nonempty (last_item (split "/" (pathname w))) = Some p ->
  HandleAware.restoreUser p w s = (inr (Some cu), s1) ->
  HandleAware.handleOAuthCallback w s =
  try_catch (HandleAware.linkAccount cu p c st) on_error w s1.
Proof.
  intros params Herr Hcode Hstate Hplatform Hrestore.
  unfold HandleAware.handleOAuthCallback. unfold_calls. fold params.
  rewrite (nonempty_None_falsy _ Herr), Hcode, Hstate, Hplatform, Hrestore.
  reflexivity.
Qed.

(** C2. The redirect [?code=abc&state=xyz] on [/oauth/callback/twitter],
    with no session in place and a stored snapshot that the backend
    restores to a user, a token exchange answering
    [{access_token: "tok", expires_in: 3600}] and a Twitter profile
    [{data: {name: "Jane", username: "jane_d"}}], on a first connect (no
    record yet for this user, platform and handle, no display-name hint)
    with a table that accepts the requests: the status becomes [success]
    and one row is added, with platform [twitter], account_name [Jane],
    account_handle [@jane_d] and is_connected [true]. *)
Theorem scenario_twitter_first_connect (w : World) (s : State) (cu : User) (saved : string)
    (parsed access refresh : js) (restored : option Session) :
  search w = "?code=abc&state=xyz" ->
  pathname w = "/oauth/callback/twitter" ->
  auth_session w = inr None ->
  localStorage s !! "oauth_supabase_session_twitter" = Some saved -> saved <> "" ->
  json_parse w saved = Some parsed ->
  get_prop parsed "access_token" = inr access ->
  get_prop parsed "refresh_token" = inr refresh ->
  auth_restore w (JObj [("access_token", access); ("refresh_token", refresh)]) =
    inr {| data_user := Some cu; data_session := restored; auth_error := None |} ->
  token_endpoint w "twitter" "abc" "xyz" =
    inr {| access_token := "tok"; refresh_token := None; expires_in := Some 3600 |} ->
  http w "https://api.twitter.com/2/users/me" [("Authorization", "Bearer tok")] =
    inr {| ok := true;
           json := inr (JObj [("data", JObj [("name", JStr "Jane");
                                             ("username", JStr "jane_d")])]) |} ->
  nonempty (sessionStorage s !! "oauth_display_name_twitter") = None ->
  records_for (JStr (User_id cu)) (JStr "twitter") (JStr "@jane_d") (social_accounts s) = [] ->
  writes_accepted w ->
  Z.abs (time_at w (clock s) + 3600 * 1000) <= 8640000000000000 ->
  let s' := (HandleAware.handleOAuthCallback w s).2 in
  status s' = success /\
  exists row,
    social_accounts s' = (social_accounts s ++ [row])%list /\
    row !! "user_id" = Some (JStr (User_id cu)) /\
    row !! "platform" = Some (JStr "twitter") /\
    row !! "account_name" = Some (JStr "Jane") /\
    row !! "account_handle" = Some (JStr "@jane_d") /\
    row !! "access_token" = Some (JStr "tok") /\
    row !! "is_connected" = Some (JBool true).
Proof.
  intros Hsearch Hpath Hsession Hsaved Hne Hparse Haccess Hrefresh Hrestore Htok Hhttp
         Hhint Hrec Hdb Htime s'.
  set (td := {| access_token := "tok"; refresh_token := None; expires_in := Some 3600 |}).
  set (ai := {| name := JStr "Jane"; handle := JStr "@jane_d" |}).
  destruct (toISOString_in_range _ Htime) as [iso Hiso].
  pose proof (restoreUser_from_snapshot w s "twitter" saved None parsed access refresh _
                Hsession eq_refl Hsaved Hne Hparse Haccess Hrefresh Hrestore) as Hrun.
  cbn [auth_error data_user] in Hrun.
  subst s'.
  rewrite (handler_reaches_linkAccount w s _ "abc" "xyz" "twitter" cu
             ltac:(by rewrite Hsearch) ltac:(by rewrite Hsearch) ltac:(by rewrite Hsearch)
             ltac:(by rewrite Hpath) Hrun).
  clear Hrun.
  match goal with
  | |- context [try_catch _ _ w ?S] => set (s1 := S)
  end.
  assert ((fetchAccountInfo "twitter" (access_token td) w s1).1 = inr ai) as Hfetch.
  { unfold fetchAccountInfo. unfold_calls. cbn [String.eqb Ascii.eqb Bool.eqb].
    unfold_calls. simpl access_token. change ("Bearer " +:+ "tok") with "Bearer tok".
    rewrite Hhttp. reflexivity. }
  pose proof (linkAccount_first_connect w s1 cu "twitter" "abc" "xyz" td ai (JStr iso)
                "https://api.twitter.com/2/users/me" _ Htok Hfetch eq_refl (Hdb _) Hrec) as Hlink.
  cbv zeta in Hlink.
  assert (expiry_value td (time_at w (clock s1)) = inr (JStr iso)) as Hexp.
  { unfold expiry_value, td. cbn [expires_in]. change (3600 =? 0) with false. cbv iota.
    change (clock s1) with (clock s). by rewrite Hiso. }
  destruct (Hlink Hexp (Hdb _)) as (Hres & Hstatus & _ & Htable & _).
  unfold try_catch.
  destruct (HandleAware.linkAccount cu "twitter" "abc" "xyz" w s1) as [[e | []] s2];
    [discriminate Hres |].
  simpl in Hstatus, Htable. split; [exact Hstatus |].
  eexists. split; [exact Htable |].
  change (sessionStorage s1) with (sessionStorage s).
  rewrite !lookup_insert_ne by done. rewrite !sent_lookup.
  split_and!; try reflexivity.
  change (stored (js_or (or_null (sessionStorage s !! "oauth_display_name_twitter"))
                        (JStr "Jane")) = Some (JStr "Jane")).
  unfold js_or. by rewrite (nonempty_None_falsy _ Hhint).
Qed.

(** * The session snapshot *)

(** When the snapshot does not parse, the [catch] of lines 63-65 only logs:
    the snapshot stays in [localStorage]. *)
Lemma restoreUser_malformed_snapshot (w : World) (s : State) (p saved : string)
    (existing : option Session) :
  auth_session w = inr existing -> existing ≫= user = None ->
  localStorage s !! ("oauth_supabase_session_" +:+ p) = Some saved -> saved <> "" ->
  json_parse w saved = None ->
  HandleAware.restoreUser p w s =
  (inr None,
   with_event (Console "error" "Failed to restore session:")
     (with_event (LocalStorage_getItem ("oauth_supabase_session_" +:+ p))
        (with_event GetSession s))).
Proof.
  intros Hsession Hnouser Hsaved Hne Hparse.
  unfold HandleAware.restoreUser. unfold_calls. rewrite Hsession.
  unfold_calls. cbv beta iota delta [mbind option_bind] in Hnouser. rewrite Hnouser.
  simpl_state. rewrite Hsaved, (Some_nonempty _ Hne), Hparse. reflexivity.
Qed.

(** The same when [setSession] rejects instead of answering. *)
Lemma restoreUser_rejected (w : World) (s : State) (p saved : string)
    (existing : option Session) (parsed access refresh : js) (e : exn) :
  auth_session w = inr existing -> existing ≫= user = None ->
  localStorage s !! ("oauth_supabase_session_" +:+ p) = Some saved -> saved <> "" ->
  json_parse w saved = Some parsed ->
  get_prop parsed "access_token" = inr access ->
  get_prop parsed "refresh_token" = inr refresh ->
  auth_restore w (JObj [("access_token", access); ("refresh_token", refresh)]) = inl e ->
  localStorage (HandleAware.restoreUser p w s).2 = localStorage s.
Proof.
  intros Hsession Hnouser Hsaved Hne Hparse Haccess Hrefresh Hrestore.
  unfold HandleAware.restoreUser. unfold_calls. rewrite Hsession.
  unfold_calls. cbv beta iota delta [mbind option_bind] in Hnouser. rewrite Hnouser.
  simpl_state. rewrite Hsaved, (Some_nonempty _ Hne), Hparse, Haccess, Hrefresh, Hrestore.
  reflexivity.
Qed.

(** The upserting handler never removes the snapshot. *)
Lemma restoreSession_keeps_snapshot (w : World) (s : State) (p : string) :
  localStorage (UpsertVariant.restoreSession p w s).2 = localStorage s.
Proof.
  unfold UpsertVariant.restoreSession. unfold_calls.
  destruct (auth_session w) as [e | [session |]]; [done | done |].
  match goal with |- context [nonempty ?o] => destruct (nonempty o) as [saved |] end; [| done].
  unfold_calls. destruct (json_parse w saved) as [parsed |]; [| done].
  by destruct (auth_restore w parsed) as [e | r].
Qed.

(** C4, at the input where it fails. With no session in place and a
    snapshot in [localStorage] that is not JSON, the handle-aware handler
    reads the snapshot, ends in the error state, and the snapshot is still
    in [localStorage]. *)
Theorem malformed_snapshot_is_kept :
  LocalStorage_getItem "oauth_supabase_session_twitter"
    ∈ log (HandleAware.handleOAuthCallback Scenario.world Scenario.start_malformed).2 /\
  status (HandleAware.handleOAuthCallback Scenario.world Scenario.start_malformed).2 = error /\
  localStorage (HandleAware.handleOAuthCallback Scenario.world Scenario.start_malformed).2
    !! "oauth_supabase_session_twitter" = Some "{not json".
Proof.
  split_and!; [| reflexivity | reflexivity].
  apply list_elem_of_In. vm_compute. right. left. reflexivity.
Qed.

(** * The closure queued on success *)

Lemma onTimeout_handle_aware (w : World) (s : State) (p : string) :
  HandleAware.onTimeout (SuccessTimeout p) w s =
  (inr tt,
   if opener w then with_event (PostMessage (oauth_success p) (origin w)) (with_event WindowClose s)
   else with_event WindowClose s).
Proof. unfold HandleAware.onTimeout. unfold_calls. by destruct (opener w). Qed.

(** The upserting handler does what the specification says: with an
    opener, post and then close; without one, go to the root. *)
Lemma onTimeout_upsert_variant (w : World) (s : State) (p : string) :
  UpsertVariant.onTimeout (SuccessTimeout p) w s =
  (inr tt,
   if opener w then with_event WindowClose (with_event (PostMessage (oauth_success p) (origin w)) s)
   else with_event (Navigate "/") s).
Proof. unfold UpsertVariant.onTimeout. unfold_calls. by destruct (opener w). Qed.

(** C5, at the input where it fails. In the scenario of the specification
    the handle-aware handler ends in success and queues one closure, at
    2000 ms; run without an opener, that closure closes the window and does
    not navigate; run with an opener, it closes the window before it posts
    the completion message. *)
Theorem success_closes_before_posting_and_never_navigates :
  status (HandleAware.handleOAuthCallback Scenario.world_alone Scenario.start).2 = success /\
  timers (HandleAware.handleOAuthCallback Scenario.world_alone Scenario.start).2 =
    [(SuccessTimeout "twitter", 2000)] /\
  window_events (HandleAware.page Scenario.world_alone Scenario.start).2 = [WindowClose] /\
  window_events (HandleAware.page Scenario.world Scenario.start).2 =
    [WindowClose; PostMessage (oauth_success "twitter") "https://app.example"].
Proof. split_and!; vm_compute; reflexivity. Qed.

Example upsert_variant_posts_then_closes_or_navigates :
  window_events (UpsertVariant.page Scenario.world Scenario.start).2 =
    [PostMessage (oauth_success "twitter") "https://app.example"; WindowClose] /\
  window_events (UpsertVariant.page Scenario.world_alone Scenario.start).2 = [Navigate "/"].
Proof. split; vm_compute; reflexivity. Qed.

(** The counterexample to C10 as stated: the display-name hint is stored
    (as the empty string), the first connect succeeds, and the
    account_name inserted is the fetched profile name, not the hint. *)
Lemma empty_display_name_hint_is_not_persisted :
  sessionStorage Scenario.start_empty_hint !! "oauth_display_name_twitter" = Some "" /\
  status (HandleAware.handleOAuthCallback Scenario.world Scenario.start_empty_hint).2 = success /\
  (social_accounts (HandleAware.handleOAuthCallback Scenario.world Scenario.start_empty_hint).2)
    !! 0%nat ≫= (fun row : Row => row !! "account_name") = Some (JStr "Jane") /\
  Some (JStr "Jane") <> Some (JStr "").
Proof. split_and!; [reflexivity | reflexivity | reflexivity | discriminate]. Qed.

Example display_name_hint_is_persisted :
  (social_accounts (HandleAware.handleOAuthCallback Scenario.world Scenario.start_hint).2)
    !! 0%nat ≫= (fun row : Row => row !! "account_name") = Some (JStr "JD").
Proof. reflexivity. Qed.

Example second_callback_updates_in_place :
  let s := callbacks HandleAware.handleOAuthCallback
             [Scenario.world; Scenario.world_again] Scenario.start in
  length (social_accounts s) = 1%nat /\ status s = success /\
  social_accounts s !! 0%nat ≫= (fun row : Row => row !! "updated_at") =
    Some (JStr "2023-11-14T22:13:20.001Z").
Proof. split_and!; reflexivity. Qed.

(** * The statements at the scenario of the specification *)

Lemma scenario_twitter_first_connect_witness :
  status (HandleAware.handleOAuthCallback Scenario.world Scenario.start).2 = success /\
  exists row,
    social_accounts (HandleAware.handleOAuthCallback Scenario.world Scenario.start).2 =
      (social_accounts Scenario.start ++ [row])%list /\
    row !! "user_id" = Some (JStr "user-1") /\
    row !! "platform" = Some (JStr "twitter") /\
    row !! "account_name" = Some (JStr "Jane") /\
    row !! "account_handle" = Some (JStr "@jane_d") /\
    row !! "access_token" = Some (JStr "tok") /\
    row !! "is_connected" = Some (JBool true).
Proof.
  apply (scenario_twitter_first_connect Scenario.world Scenario.start Scenario.jane
           Scenario.snapshot Scenario.session_object (JStr "at") (JStr "rt")
           (Some {| user := Some Scenario.jane |}));
    try reflexivity.
  - intros H. vm_compute in H. discriminate H.
  - intros req. reflexivity.
  - vm_compute. discriminate.
Defined.

Lemma fetchAccountInfo_documented_witness :
  "twitter" ∈ supported /\
  fetchAccountInfo "twitter" "tok" Scenario.world Scenario.start =
  (inr Scenario.jane_d,
   with_event (Fetch "https://api.twitter.com/2/users/me" [("Authorization", "Bearer tok")])
     Scenario.start).
Proof.
  assert ("twitter" ∈ supported) as Hin by apply list_elem_of_here.
  split; [exact Hin |].
  destruct (fetchAccountInfo_documented "twitter" "tok" Hin) as (url & extract & Hdoc & Hrun).
  injection Hdoc as <- <-.
  apply (Hrun Scenario.twitter_profile); reflexivity.
Defined.

Lemma missing_code_or_state_witness :
  HandleAware.handleOAuthCallback Scenario.world_no_code Scenario.start =
  (inr tt, with_message "Missing authorization code or state"
             (with_status error
                (with_event (Console "error" "OAuth callback error:") Scenario.start))).
Proof.
  apply (missing_code_or_state Scenario.world_no_code Scenario.start).
  - reflexivity.
  - left. reflexivity.
Defined.



Lemma fetchAccountInfo_unsupported_witness :
  fetchAccountInfo "mastodon" "tok" Scenario.world Scenario.start =
  (inl (Error "Unsupported platform: mastodon"), Scenario.start).
Proof.
  apply (fetchAccountInfo_unsupported "mastodon" "tok" Scenario.world Scenario.start).
  intros H. apply list_elem_of_In in H. simpl in H.
  repeat (destruct H as [H | H]; [discriminate H |]). exact H.
Defined.

Lemma reconnect_frame_witness :
  length (social_accounts
            (HandleAware.saveAccount Scenario.jane "twitter" Scenario.jane_d Scenario.tokens None
               Scenario.world_again Scenario.connected).2) =
  length (social_accounts Scenario.connected).
Proof.
  refine (proj1 (reconnect_frame Scenario.world_again Scenario.connected Scenario.jane "twitter"
                   Scenario.jane_d Scenario.tokens None Scenario.record _ _)).
  - reflexivity.
  - vm_compute. reflexivity.
Defined.

Lemma first_connect_account_name_witness :
  exists row,
    social_accounts
      (HandleAware.linkAccount Scenario.jane "twitter" "abc" "xyz" Scenario.world
         Scenario.start_hint).2 = [row] /\
    row !! "account_name" = Some (JStr "JD").
Proof.
  destruct (first_connect_account_name Scenario.world Scenario.start_hint Scenario.jane
              "twitter" "abc" "xyz" Scenario.tokens Scenario.jane_d
              (JStr "2023-11-14T23:13:20.000Z") "https://api.twitter.com/2/users/me"
              (fun data =>
                 nm ← at_path ["data"; "name"] data;
                 username ← at_path ["data"; "username"] data;
                 Some {| name := if truthy nm then nm else username;
                         handle := JStr ("@" +:+ ToString username) |})
              eq_refl eq_refl eq_refl eq_refl eq_refl eq_refl eq_refl)
    as (row & Htable & Hhint & _).
  exists row. split; [exact Htable |].
  apply (Hhint "JD"); [reflexivity | discriminate].
Defined.

(** * The upserting handler and the table *)

Lemma per_platform_per_account (rows : list Row) :
  one_record_per_platform rows -> one_record_per_account rows.
Proof.
  intros H u p h. specialize (H u p). unfold records_for, account_key.
  etrans; [| exact H]. clear H.
  induction rows as [| r rows IH]; [done |]. cbn [List.filter].
  rewrite !matches_cons. change (matches [] r) with true. rewrite !andb_true_r.
  destruct (column_eq r "user_id" u), (column_eq r "platform" p),
    (column_eq r "account_handle" h); simpl; lia.
Qed.

Lemma upsert_conflict_filters (cu : User) (p : string) (ai : AccountInfo) (td : TokenData)
    (expires stamp : js) :
  conflict_filters (upsert_values cu p ai td expires stamp) ["user_id"; "platform"] =
  [("user_id", JStr (User_id cu)); ("platform", JStr p)].
Proof. unfold conflict_filters. simpl. by rewrite !sent_lookup. Qed.

Lemma upsert_keeps_platform (cu : User) (p : string) (ai : AccountInfo) (td : TokenData)
    (expires stamp : js) (next : Z) (rows : list Row) :
  let values := upsert_values cu p ai td expires stamp in
  let fs := [("user_id", JStr (User_id cu)); ("platform", JStr p)] in
  one_record_per_platform rows ->
  one_record_per_platform
    (if existsb (matches fs) rows then updated values fs rows else inserted values next rows).
Proof.
  intros values fs H u' p'.
  destruct (existsb (matches fs) rows) eqn:Hex.
  - unfold updated. rewrite filter_map_agree; [apply H |]. intros r.
    destruct (matches fs r) eqn:Hr; [| done].
    unfold fs in Hr. rewrite !matches_cons, !andb_true_iff, !column_eq_true in Hr.
    destruct Hr as ([Hu _] & [Hp _] & _).
    apply matches_agree. intros c Hc. simpl in Hc.
    apply elem_of_cons in Hc as [-> | Hc];
      [| apply elem_of_cons in Hc as [-> | Hc]; [| by apply elem_of_nil in Hc]].
    + rewrite Hu. by apply union_sent_written.
    + rewrite Hp. by apply union_sent_written.
  - rewrite filter_inserted, length_app.
    match goal with |- context [if ?b then _ else _] => destruct b eqn:E end;
      [| simpl; rewrite Nat.add_0_r; apply H].
    rewrite !matches_cons, !andb_true_iff, !column_eq_true in E.
    rewrite !lookup_insert_ne in E by done. rewrite !sent_lookup in E.
    destruct E as ([Hu _] & [Hp _] & _).
    change (Some (JStr (User_id cu)) = Some u') in Hu.
    change (Some (JStr p) = Some p') in Hp.
    injection Hu as <-. injection Hp as <-.
    unfold fs in Hex.
    assert (List.filter (matches [("user_id", JStr (User_id cu)); ("platform", JStr p)]) rows
            = []) as ->; [| done].
    clear H. induction rows as [| r rows IH]; [done |].
    simpl in Hex. apply orb_false_iff in Hex as [Hr Hex].
    simpl. rewrite Hr. by apply IH.
Qed.

Lemma keeps_upsert_saveAccount (w : World) (cu : User) (p : string) (ai : AccountInfo)
    (td : TokenData) :
  keeps_table w one_record_per_platform (UpsertVariant.saveAccount cu p ai td).
Proof.
  unfold UpsertVariant.saveAccount.
  apply keeps_bind; [keeps_calls |]. intros expires.
  apply keeps_bind; [keeps_calls |]. intros stamp.
  apply keeps_bind; [| intros [e |]; keeps_calls].
  fold (upsert_values cu p ai td expires stamp).
  intros s HQ. unfold db_upsert. unfold_calls.
  destruct (db_fault w _) as [e |]; [done |].
  rewrite upsert_conflict_filters. simpl_state.
  pose proof (upsert_keeps_platform cu p ai td expires stamp (next_id s) _ HQ) as H.
  cbv zeta in H. simpl_state in H.
  by destruct (existsb _ (social_accounts s)).
Qed.

(** The upserting handler keeps at most one record per (user_id,
    platform), hence per (user_id, platform, account_handle), over any
    sequence of callbacks. *)
Lemma upsert_variant_keeps_one_record (ws : list World) (s : State) :
  one_record_per_platform (social_accounts s) ->
  one_record_per_platform
    (social_accounts (callbacks UpsertVariant.handleOAuthCallback ws s)) /\
  one_record_per_account
    (social_accounts (callbacks UpsertVariant.handleOAuthCallback ws s)).
Proof.
  intros HQ.
  assert (one_record_per_platform
            (social_accounts (callbacks UpsertVariant.handleOAuthCallback ws s))) as H.
  { apply keeps_callbacks; [| done]. intros w _.
    unfold UpsertVariant.handleOAuthCallback, UpsertVariant.linkAccount.
    repeat first [ apply keeps_upsert_saveAccount | apply keeps_restoreSession
                 | apply keeps_fetchAccountInfo | keeps_step
                 | progress unfold on_error, console, emit, setStatus, setMessage, setTimeout,
                     localStorage_setItem, Date_now, exchangeCodeForToken ]. }
  split; [exact H | by apply per_platform_per_account].
Qed.

(** * Views of the state that a run leaves alone *)

Section unchanged.
Context {V : Type} (view : State -> V) (w : World).

Lemma unchanged_ret {A} (a : A) : unchanged view w (mret a).
Proof. by intros s. Qed.

Lemma unchanged_throw {A} (e : exn) : unchanged view w (@throw A e).
Proof. by intros s. Qed.

Lemma unchanged_lift {A} (r : exn + A) : unchanged view w (lift r).
Proof. by intros s. Qed.

Lemma unchanged_ask {A} (f : World -> A) : unchanged view w (ask f).
Proof. by intros s. Qed.

Lemma unchanged_get {A} (f : State -> A) : unchanged view w (get f).
Proof. by intros s. Qed.

Lemma unchanged_modify (f : State -> State) :
  (forall s, view (f s) = view s) -> unchanged view w (modify f).
Proof. intros Hf s. apply Hf. Qed.

Lemma unchanged_bind {A B} (m : M A) (k : A -> M B) :
  unchanged view w m -> (forall a, unchanged view w (k a)) -> unchanged view w (m ≫= k).
Proof.
  intros Hm Hk s. rewrite bind_run. specialize (Hm s).
  destruct (m w s) as [[e | a] s']; [done |]. simpl in Hm. by rewrite Hk.
Qed.

Lemma unchanged_try_catch {A} (body : M A) (handler : exn -> M A) :
  unchanged view w body -> (forall e, unchanged view w (handler e)) ->
  unchanged view w (try_catch body handler).
Proof.
  intros Hm Hk s. unfold try_catch. specialize (Hm s).
  destruct (body w s) as [[e | a] s']; [| done]. simpl in Hm. by rewrite Hk.
Qed.

End unchanged.

Ltac unchanged_leaf :=
  intros ?;
  first
    [ reflexivity
    | unfold window_events, remote_calls, writes; simpl; rewrite List.filter_app; simpl;
      apply app_nil_r
    | unfold writes; simpl; rewrite List.filter_app; simpl; rewrite app_nil_r; reflexivity
    | simpl; apply lookup_delete_ne; solve [auto]
    | simpl; apply lookup_insert_ne; solve [auto]
    | match goal with |- context [if ?b then _ else _] => destruct b end; reflexivity ].

Ltac unchanged_step :=
  match goal with
  | |- unchanged _ _ (_ ≫= _) => apply unchanged_bind; [| intros ?]
  | |- unchanged _ _ (mret _) => apply unchanged_ret
  | |- unchanged _ _ (throw _) => apply unchanged_throw
  | |- unchanged _ _ (lift _) => apply unchanged_lift
  | |- unchanged _ _ (ask _) => apply unchanged_ask
  | |- unchanged _ _ (get _) => apply unchanged_get
  | |- unchanged _ _ (modify _) => apply unchanged_modify; unchanged_leaf
  | |- unchanged _ _ (try_catch _ _) => apply unchanged_try_catch; [| intros ?]
  | |- unchanged _ _ (match ?x with _ => _ end) => destruct x
  | |- unchanged _ _ (let '(_, _) := ?x in _) => destruct x
  end.

Ltac unchanged_blocks :=
  repeat first
    [ unchanged_step
    | progress unfold emit, localStorage_getItem, localStorage_setItem, localStorage_removeItem,
        sessionStorage_getItem, sessionStorage_removeItem, console, setStatus, setMessage,
        setTimeout, Date_now, JSON_parse, supabase_auth_getSession, supabase_auth_setSession,
        exchangeCodeForToken, fetch, expiry, now_iso, on_error,
        db_select_maybeSingle, db_update, db_insert, db_upsert,
        fetchAccountInfo, HandleAware.restoreUser, HandleAware.saveAccount,
        HandleAware.linkAccount, HandleAware.handleOAuthCallback,
        UpsertVariant.restoreSession, UpsertVariant.saveAccount, UpsertVariant.linkAccount,
        UpsertVariant.handleOAuthCallback ].

Lemma unchanged_timers_saveAccount (w : World) (cu : User) (p : string) (ai : AccountInfo)
    (td : TokenData) (hint : option string) :
  unchanged timers w (HandleAware.saveAccount cu p ai td hint).
Proof. unchanged_blocks. Qed.

Lemma unchanged_timers_upsert_saveAccount (w : World) (cu : User) (p : string)
    (ai : AccountInfo) (td : TokenData) :
  unchanged timers w (UpsertVariant.saveAccount cu p ai td).
Proof. unchanged_blocks. Qed.

(** The login step leaves alone the table, the queue of closures, the
    hints, the clock and the write requests. *)
Lemma unchanged_restoreUser (w : World) (platform : string) :
  unchanged (fun s => (durable s, sessionStorage s, clock s, writes s)) w
    (HandleAware.restoreUser platform).
Proof. unchanged_blocks. Qed.

Lemma unchanged_restoreSession (w : World) (platform : string) :
  unchanged (fun s => (durable s, sessionStorage s, localStorage s, clock s, writes s)) w
    (UpsertVariant.restoreSession platform).
Proof. unchanged_blocks. Qed.


(** * How a run of the handle-aware handler ends *)

Lemma on_error_outcome (e : exn) (w : World) (s : State) :
  on_error e w s =
  (inr tt, with_message (shown_message e)
             (with_status error (with_event (Console "error" "OAuth callback error:") s))).
Proof.
  unfold on_error, shown_message. unfold_calls. unfold js_or, truthy.
  by destruct (String.eqb (exn_message e) "").
Qed.

Lemma falsy_nonempty_None (o : option string) :
  truthy (or_null o) = false -> nonempty o = None.
Proof.
  destruct o as [x |]; [| done]. simpl. by destruct (String.eqb x "").
Qed.

Lemma saveAccount_throws (w : World) (s : State) (cu : User) (p : string) (ai : AccountInfo)
    (td : TokenData) (hint : option string) (e : exn) :
  (HandleAware.saveAccount cu p ai td hint w s).1 = inl e ->
  social_accounts (HandleAware.saveAccount cu p ai td hint w s).2 = social_accounts s /\
  next_id (HandleAware.saveAccount cu p ai td hint w s).2 = next_id s.
Proof.
  intros He. pose proof (saveAccount_outcome cu p ai td hint w s) as H. cbv zeta in H.
  destruct (db_fault w _) as [e' |];
    [| destruct (records_for _ _ _ _) as [| r [| r' rest]]];
    (destruct H as [(e0 & _ & H1 & H2) | H]; [done |]);
    [destruct H as (? & H & _) | destruct H as (? & H & _)
     | destruct H as (? & ? & H & _) | destruct H as (? & H & _)];
    congruence.
Qed.

Ltac by_failure td :=
  let secs := fresh "secs" in
  destruct (expires_in td) as [secs |]; [destruct (secs =? 0) |]; simpl; discriminate.

Ltac by_writes td :=
  let secs := fresh "secs" in
  destruct (expires_in td) as [secs |]; [destruct (secs =? 0) |];
  repeat split; try (reflexivity || assumption);
  unfold writes; simpl; rewrite !List.filter_app; simpl; by rewrite ?app_nil_r.

(** The persistence step of part_001 when it returns: the one write
    request it has sent, which the table has accepted and applied. *)
Lemma saveAccount_returns (cu : User) (p : string) (ai : AccountInfo) (td : TokenData)
    (hint : option string) (w : World) (s : State) :
  (HandleAware.saveAccount cu p ai td hint w s).1 = inr tt ->
  exists expires iso,
    expiry_value td (time_at w (clock s)) = inr expires /\
    db_fault w (handle_aware_write (found_record w cu p ai (social_accounts s))
                  cu p ai td hint expires (JStr iso)) = None /\
    writes (HandleAware.saveAccount cu p ai td hint w s).2 =
      (writes s ++
       [Db (handle_aware_write (found_record w cu p ai (social_accounts s))
              cu p ai td hint expires (JStr iso))])%list /\
    (social_accounts (HandleAware.saveAccount cu p ai td hint w s).2,
     next_id (HandleAware.saveAccount cu p ai td hint w s).2) =
      applied (handle_aware_write (found_record w cu p ai (social_accounts s))
                 cu p ai td hint expires (JStr iso))
        (social_accounts s, next_id s).
Proof.
  unfold found_record, records_for, account_key.
  set (key := [("user_id", JStr (User_id cu)); ("platform", JStr p);
               ("account_handle", handle ai)]).
  set (run := HandleAware.saveAccount cu p ai td hint w s).
  assert (run = HandleAware.saveAccount cu p ai td hint w s) as Hrun by done.
  clearbody run. unfold HandleAware.saveAccount in Hrun.
  rewrite bind_run, select_run in Hrun. fold key in Hrun.
  assert (forall found : js, truthy found = false ->
    run = (if truthy found
           then expires ← expiry td; stamp ← now_iso;
                ident ← lift (get_prop found "id");
                updateError ← db_update
                  (list_to_map [("access_token", JStr (access_token td));
                                ("refresh_token", refresh_or_null td);
                                ("token_expires_at", expires);
                                ("is_connected", JBool true);
                                ("updated_at", stamp)]) [("id", ident)];
                match updateError with Some e => throw e | None => mret () end
           else expiresAt ← expiry td;
                dbError ← db_insert
                  (list_to_map [("user_id", JStr (User_id cu)); ("platform", JStr p);
                                ("account_name", js_or (or_null hint) (name ai));
                                ("account_handle", handle ai);
                                ("access_token", JStr (access_token td));
                                ("refresh_token", refresh_or_null td);
                                ("token_expires_at", expiresAt);
                                ("is_connected", JBool true)]);
                match dbError with Some e => throw e | None => mret () end)
            w (with_event (Db (Select "id" key)) s) ->
    run.1 = inr tt ->
    exists expires iso,
      expiry_value td (time_at w (clock s)) = inr expires /\
      db_fault w (handle_aware_write None cu p ai td hint expires (JStr iso)) = None /\
      writes run.2 =
        (writes s ++ [Db (handle_aware_write None cu p ai td hint expires (JStr iso))])%list /\
      (social_accounts run.2, next_id run.2) =
        applied (handle_aware_write None cu p ai td hint expires (JStr iso))
          (social_accounts s, next_id s)) as Hinsert.
  { clear Hrun. intros found -> Hrun Hok.
    rewrite bind_run, expiry_run in Hrun. simpl clock in Hrun.
    destruct (expiry_value td (time_at w (clock s))) as [e | expires] eqn:Hexp.
    { subst run. revert Hok. by_failure td. }
    rewrite bind_run, insert_run in Hrun.
    fold (connect_values cu p ai td hint expires) in Hrun.
    match type of Hrun with
    | context [db_fault w ?r] => destruct (db_fault w r) as [e |] eqn:Hf
    end.
    - subst run. revert Hok. by_failure td.
    - exists expires, "". subst run. unfold handle_aware_write, applied. by_writes td. }
  destruct (db_fault w (Select "id" key)) as [e |]; [exact (Hinsert null eq_refl Hrun) |].
  destruct (List.filter (matches key) (social_accounts s)) as [| r [| r' rest]];
    [exact (Hinsert null eq_refl Hrun) | | exact (Hinsert null eq_refl Hrun)].
  clear Hinsert. intros Hok.
  cbn [truthy] in Hrun. rewrite bind_run, expiry_run in Hrun. simpl clock in Hrun.
  destruct (expiry_value td (time_at w (clock s))) as [e | expires] eqn:Hexp.
  { subst run. revert Hok. by_failure td. }
  rewrite bind_run, now_iso_run in Hrun.
  match type of Hrun with context [toISOString ?t] => destruct (toISOString t) as [e | iso] end.
  { subst run. revert Hok. by_failure td. }
  rewrite bind_run in Hrun. unfold lift at 1 in Hrun.
  cbn [get_prop assoc String.eqb Ascii.eqb Bool.eqb] in Hrun.
  cbv iota beta in Hrun. rewrite bind_run, update_run in Hrun.
  fold (reconnect_values td expires (JStr iso)) in Hrun.
  match type of Hrun with
  | context [db_fault w ?r] => destruct (db_fault w r) as [e |] eqn:Hf
  end.
  - subst run. revert Hok. by_failure td.
  - exists expires, iso. subst run. unfold handle_aware_write, applied. by_writes td.
Qed.

(** Lines 73-129, once the user is known: either the step throws and the
    table and the queue of closures are as before, or it ends in the
    success state after the one accepted write and the one [setTimeout]. *)
Lemma linkAccount_result (w : World) (s : State) (cu : User) (p c st : string) :
  (exists e, (HandleAware.linkAccount cu p c st w s).1 = inl e /\
             durable (HandleAware.linkAccount cu p c st w s).2 = durable s) \/
  (exists td ai expires iso,
      (HandleAware.linkAccount cu p c st w s).1 = inr tt /\
      token_endpoint w p c st = inr td /\
      (forall s0, (fetchAccountInfo p (access_token td) w s0).1 = inr ai) /\
      expiry_value td (time_at w (clock s)) = inr expires /\
      status (HandleAware.linkAccount cu p c st w s).2 = success /\
      timers (HandleAware.linkAccount cu p c st w s).2 =
        (timers s ++ [(SuccessTimeout p, 2000)])%list /\
      db_fault w (handle_aware_write (found_record w cu p ai (social_accounts s)) cu p ai td
                    (sessionStorage s !! ("oauth_display_name_" +:+ p)) expires (JStr iso)) = None /\
      writes (HandleAware.linkAccount cu p c st w s).2 =
        (writes s ++
         [Db (handle_aware_write (found_record w cu p ai (social_accounts s)) cu p ai td
                (sessionStorage s !! ("oauth_display_name_" +:+ p)) expires (JStr iso))])%list /\
      (social_accounts (HandleAware.linkAccount cu p c st w s).2,
       next_id (HandleAware.linkAccount cu p c st w s).2) =
        applied (handle_aware_write (found_record w cu p ai (social_accounts s)) cu p ai td
                   (sessionStorage s !! ("oauth_display_name_" +:+ p)) expires (JStr iso))
          (social_accounts s, next_id s)).
Proof.
  unfold HandleAware.linkAccount. unfold_calls.
  destruct (token_endpoint w p c st) as [e | td] eqn:Htok; [left; by exists e |].
  destruct (fetchAccountInfo_effect p (access_token td) w) as [r Hr]. rewrite Hr.
  destruct r as [e | ai];
    [left; exists e; by destruct (documented p) as [[url extract] |] |].
  simpl_state.
  destruct (documented p) as [[url extract] |];
    match goal with
    | |- context [HandleAware.saveAccount cu p ai td ?hint w ?S] =>
        pose proof (saveAccount_throws w S cu p ai td hint) as Hthrows;
        pose proof (saveAccount_returns cu p ai td hint w S) as Hreturns;
        pose proof (unchanged_timers_saveAccount w cu p ai td hint S) as Htimers;
        destruct (HandleAware.saveAccount cu p ai td hint w S) as [[e | []] s1]
    end; simpl in Hthrows, Hreturns, Htimers.
  1, 3: left; exists e; split; [done |]; destruct (Hthrows e eq_refl) as [H1 H2];
    simpl; unfold durable; by rewrite H1, H2, Htimers.
  all: right; destruct (Hreturns eq_refl) as (expires & iso & Hexp & Hfault & Hw & Happ);
    exists td, ai, expires, iso; cbn [fst snd]; split_and!;
    first [ done
          | intros s0; by rewrite Hr
          | simpl; by rewrite Htimers
          | unfold writes in Hw |- *; simpl_state; simpl_state in Hw;
            rewrite !List.filter_app in Hw; rewrite !List.filter_app;
            cbn [List.filter is_write app] in Hw |- *;
            rewrite ?app_nil_r in Hw; rewrite ?app_nil_r; exact Hw
          | exact Happ ].
Qed.

(** Every run of the handle-aware handler: it ends in the error state with
    the table and the queue of closures as before, or in the success
    state after the one accepted write of the persistence step, for the
    user, the tokens and the account of this run. *)
Lemma handle_aware_result (w : World) (s : State) :
  (HandleAware.handleOAuthCallback w s).1 = inr tt /\
  ((status (HandleAware.handleOAuthCallback w s).2 = error /\
    durable (HandleAware.handleOAuthCallback w s).2 = durable s) \/
   (status (HandleAware.handleOAuthCallback w s).2 = success /\
    exists p c st cu td ai expires iso,
      redirect_for w c st p /\
      (HandleAware.restoreUser p w s).1 = inr (Some cu) /\
      token_endpoint w p c st = inr td /\
      (forall s0, (fetchAccountInfo p (access_token td) w s0).1 = inr ai) /\
      expiry_value td (time_at w (clock s)) = inr expires /\
      timers (HandleAware.handleOAuthCallback w s).2 =
        (timers s ++ [(SuccessTimeout p, 2000)])%list /\
      db_fault w (handle_aware_write (found_record w cu p ai (social_accounts s)) cu p ai td
                    (sessionStorage s !! ("oauth_display_name_" +:+ p)) expires (JStr iso)) = None /\
      writes (HandleAware.handleOAuthCallback w s).2 =
        (writes s ++
         [Db (handle_aware_write (found_record w cu p ai (social_accounts s)) cu p ai td
                (sessionStorage s !! ("oauth_display_name_" +:+ p)) expires (JStr iso))])%list /\
      (social_accounts (HandleAware.handleOAuthCallback w s).2,
       next_id (HandleAware.handleOAuthCallback w s).2) =
        applied (handle_aware_write (found_record w cu p ai (social_accounts s)) cu p ai td
                   (sessionStorage s !! ("oauth_display_name_" +:+ p)) expires (JStr iso))
          (social_accounts s, next_id s))).
Proof.
  unfold HandleAware.handleOAuthCallback. unfold_calls.
  destruct (truthy (or_null (URLSearchParams_get "error" (URLSearchParams (search w)))))
    eqn:Herr; [rewrite on_error_outcome; split; [done |]; by left |].
  apply falsy_nonempty_None in Herr.
  destruct (nonempty (URLSearchParams_get "code" (URLSearchParams (search w))))
    as [c |] eqn:Hc; [| rewrite on_error_outcome; split; [done |]; by left].
  destruct (nonempty (URLSearchParams_get "state" (URLSearchParams (search w))))
    as [st |] eqn:Hst; [| rewrite on_error_outcome; split; [done |]; by left].
  destruct (nonempty (last_item (split "/" (pathname w)))) as [p |] eqn:Hp;
    [| rewrite on_error_outcome; split; [done |]; by left].
  pose proof (unchanged_restoreUser w p s) as Hkept. simpl in Hkept.
  destruct (HandleAware.restoreUser p w s) as [[e | [cu |]] s1] eqn:Hrestore;
    simpl in Hkept; injection Hkept as Htable Hnext Htimers1 Hsession Hclock Hwrites;
    assert (durable s1 = durable s) as Hdurable
      by (unfold durable; by rewrite Htable, Hnext, Htimers1);
    [rewrite on_error_outcome; split; [done |]; left; split; [done | exact Hdurable]
    | | rewrite on_error_outcome; split; [done |]; left; split; [done | exact Hdurable]].
  destruct (linkAccount_result w s1 cu p c st)
    as [(e & He & Hd) | (td & ai & expires & iso & Hok & Htok & Hfetch & Hexp & Hstatus
                         & Htimers & Hfault & Hw & Happ)].
  - destruct (HandleAware.linkAccount cu p c st w s1) as [[e' | []] s2]; [| done].
    rewrite on_error_outcome. split; [done |]. left. split; [done |].
    cbn [snd] in Hd. etrans; [exact Hd | exact Hdurable].
  - destruct (HandleAware.linkAccount cu p c st w s1) as [[e' | []] s2]; [done |].
    cbn [fst snd] in *. split; [done |]. right. split; [done |].
    rewrite Htable, Hnext, Hsession, Hclock in *. rewrite Htimers1 in Htimers.
    rewrite Hwrites in Hw.
    exists p, c, st, cu, td, ai, expires, iso. split_and!; try done.
    by rewrite Hrestore.
Qed.

Lemma handle_aware_outcome (w : World) (s : State) :
  (HandleAware.handleOAuthCallback w s).1 = inr tt /\
  ((status (HandleAware.handleOAuthCallback w s).2 = error /\
    durable (HandleAware.handleOAuthCallback w s).2 = durable s) \/
   (status (HandleAware.handleOAuthCallback w s).2 = success /\
    exists p, platform_of w = Some p /\
      timers (HandleAware.handleOAuthCallback w s).2 =
        (timers s ++ [(SuccessTimeout p, 2000)])%list)).
Proof.
  destruct (handle_aware_result w s)
    as [Hres [H | (Hstatus & p & c & st & cu & td & ai & expires & iso & Hredirect & _ & _
                   & _ & _ & Htimers & _)]].
  - split; [done |]. by left.
  - split; [done |]. right. split; [done |]. exists p. split; [apply Hredirect | done].
Qed.

(** * How a run of the upserting handler ends *)

Ltac unfold_calls_in H :=
  cbv beta iota zeta delta
    [mbind M_bind mret M_ret throw try_catch lift ask get modify emit
     localStorage_getItem localStorage_setItem localStorage_removeItem
     sessionStorage_getItem sessionStorage_removeItem console setStatus setMessage
     setTimeout Date_now JSON_parse supabase_auth_getSession supabase_auth_setSession
     exchangeCodeForToken fetch option_bind fst snd] in H.

Lemma upsert_saveAccount_outcome (cu : User) (p : string) (ai : AccountInfo) (td : TokenData)
    (w : World) (s : State) :
  let run := UpsertVariant.saveAccount cu p ai td w s in
  (exists e, run.1 = inl e /\ social_accounts run.2 = social_accounts s /\
             next_id run.2 = next_id s /\ localStorage run.2 = localStorage s) \/
  (exists expires iso,
      run.1 = inr tt /\ expiry_value td (time_at w (clock s)) = inr expires /\
      localStorage run.2 = localStorage s /\
      (social_accounts run.2, next_id run.2) =
        if existsb (matches [("user_id", JStr (User_id cu)); ("platform", JStr p)])
             (social_accounts s)
        then (updated (upsert_values cu p ai td expires (JStr iso))
                [("user_id", JStr (User_id cu)); ("platform", JStr p)] (social_accounts s),
              next_id s)
        else (inserted (upsert_values cu p ai td expires (JStr iso)) (next_id s)
                (social_accounts s),
              next_id s + 1)).
Proof.
  intros run. assert (run = UpsertVariant.saveAccount cu p ai td w s) as Hrun by done.
  clearbody run. unfold UpsertVariant.saveAccount in Hrun.
  rewrite bind_run, expiry_run in Hrun.
  destruct (expiry_value td (time_at w (clock s))) as [e | expires] eqn:Hexp.
  { left. exists e. subst run. by_expiry td. }
  rewrite bind_run, now_iso_run in Hrun.
  match type of Hrun with context [toISOString ?t] => destruct (toISOString t) as [e | iso] end.
  { left. exists e. subst run. by_expiry td. }
  fold (upsert_values cu p ai td expires (JStr iso)) in Hrun.
  rewrite bind_run in Hrun. unfold db_upsert in Hrun. unfold_calls_in Hrun.
  match type of Hrun with context [db_fault w ?r] => destruct (db_fault w r) as [e |] end.
  - left. eexists. subst run. by_expiry td.
  - right. exists expires, iso. rewrite upsert_conflict_filters in Hrun. subst run.
    destruct (expires_in td) as [secs |]; [destruct (secs =? 0) |]; simpl;
      match goal with |- context [existsb ?f ?l] => destruct (existsb f l) end;
      repeat split; (reflexivity || assumption).
Qed.

Lemma upsert_saveAccount_throws (cu : User) (p : string) (ai : AccountInfo) (td : TokenData)
    (w : World) (s : State) (e : exn) :
  (UpsertVariant.saveAccount cu p ai td w s).1 = inl e ->
  social_accounts (UpsertVariant.saveAccount cu p ai td w s).2 = social_accounts s /\
  next_id (UpsertVariant.saveAccount cu p ai td w s).2 = next_id s /\
  localStorage (UpsertVariant.saveAccount cu p ai td w s).2 = localStorage s.
Proof.
  intros He. destruct (upsert_saveAccount_outcome cu p ai td w s)
    as [(e0 & _ & H) | (? & ? & H & _)]; [done | congruence].
Qed.

(** The persistence step of OAuthCallback.tsx when it returns: the one
    upsert it has sent, which the table has accepted and applied. *)
Lemma upsert_saveAccount_returns (cu : User) (p : string) (ai : AccountInfo) (td : TokenData)
    (w : World) (s : State) :
  (UpsertVariant.saveAccount cu p ai td w s).1 = inr tt ->
  exists expires iso,
    expiry_value td (time_at w (clock s)) = inr expires /\
    db_fault w (upsert_write cu p ai td expires (JStr iso)) = None /\
    writes (UpsertVariant.saveAccount cu p ai td w s).2 =
      (writes s ++ [Db (upsert_write cu p ai td expires (JStr iso))])%list /\
    (social_accounts (UpsertVariant.saveAccount cu p ai td w s).2,
     next_id (UpsertVariant.saveAccount cu p ai td w s).2) =
      applied (upsert_write cu p ai td expires (JStr iso)) (social_accounts s, next_id s) /\
    localStorage (UpsertVariant.saveAccount cu p ai td w s).2 = localStorage s.
Proof.
  set (run := UpsertVariant.saveAccount cu p ai td w s).
  assert (run = UpsertVariant.saveAccount cu p ai td w s) as Hrun by done.
  clearbody run. unfold UpsertVariant.saveAccount in Hrun. intros Hok.
  rewrite bind_run, expiry_run in Hrun.
  destruct (expiry_value td (time_at w (clock s))) as [e | expires] eqn:Hexp.
  { subst run. revert Hok. by_failure td. }
  rewrite bind_run, now_iso_run in Hrun.
  match type of Hrun with context [toISOString ?t] => destruct (toISOString t) as [e | iso] end.
  { subst run. revert Hok. by_failure td. }
  fold (upsert_values cu p ai td expires (JStr iso)) in Hrun.
  rewrite bind_run in Hrun. unfold db_upsert in Hrun. unfold_calls_in Hrun.
  match type of Hrun with
  | context [db_fault w ?r] => destruct (db_fault w r) as [e |] eqn:Hf
  end.
  { subst run. revert Hok. by_failure td. }
  exists expires, iso. subst run. unfold upsert_write, applied.
  cbn [fst snd]. split; [done |]. split; [exact Hf |].
  destruct (expires_in td) as [secs |]; [destruct (secs =? 0) |]; simpl_state;
    match goal with |- context [existsb ?f ?l] => destruct (existsb f l) end;
    (split; [unfold writes; simpl_state; rewrite !List.filter_app;
             cbn [List.filter is_write app]; by rewrite ?app_nil_r |]);
    split; reflexivity.
Qed.

Lemma restoreSession_result (w : World) (p : string) (s1 s2 : State) :
  localStorage s1 = localStorage s2 ->
  (UpsertVariant.restoreSession p w s1).1 = (UpsertVariant.restoreSession p w s2).1.
Proof.
  intros H. unfold UpsertVariant.restoreSession. unfold_calls.
  destruct (auth_session w) as [e | [session |]]; [done | done |].
  simpl_state. rewrite H.
  destruct (nonempty (localStorage s2 !! ("oauth_supabase_session_" +:+ p))) as [saved |];
    [| done].
  destruct (json_parse w saved) as [parsed |]; [| done].
  by destruct (auth_restore w parsed) as [e | r].
Qed.

(** Lines 68-117, once the session has a user. The step throws with the
    table as before, or with the upsert applied when it is [setItem] that
    throws; or it ends in the success state after the one accepted upsert,
    the receipt in [localStorage] and the one [setTimeout]. *)
Lemma upsert_linkAccount_result (w : World) (s : State) (cu : User) (p c st : string) :
  (exists e,
      (UpsertVariant.linkAccount cu p c st w s).1 = inl e /\
      timers (UpsertVariant.linkAccount cu p c st w s).2 = timers s /\
      localStorage (UpsertVariant.linkAccount cu p c st w s).2 = localStorage s /\
      ((social_accounts (UpsertVariant.linkAccount cu p c st w s).2 = social_accounts s /\
        next_id (UpsertVariant.linkAccount cu p c st w s).2 = next_id s) \/
       (exists td ai expires iso ts,
           token_endpoint w p c st = inr td /\
           (forall s0, (fetchAccountInfo p (access_token td) w s0).1 = inr ai) /\
           db_fault w (upsert_write cu p ai td expires (JStr iso)) = None /\
           setItem_fault w ("oauth_success_" +:+ p) (receipt p ai ts) = Some e /\
           (social_accounts (UpsertVariant.linkAccount cu p c st w s).2,
            next_id (UpsertVariant.linkAccount cu p c st w s).2) =
             applied (upsert_write cu p ai td expires (JStr iso))
               (social_accounts s, next_id s)))) \/
  (exists td ai expires iso ts,
      (UpsertVariant.linkAccount cu p c st w s).1 = inr tt /\
      token_endpoint w p c st = inr td /\
      (forall s0, (fetchAccountInfo p (access_token td) w s0).1 = inr ai) /\
      expiry_value td (time_at w (clock s)) = inr expires /\
      status (UpsertVariant.linkAccount cu p c st w s).2 = success /\
      timers (UpsertVariant.linkAccount cu p c st w s).2 =
        (timers s ++ [(SuccessTimeout p, 2000)])%list /\
      db_fault w (upsert_write cu p ai td expires (JStr iso)) = None /\
      writes (UpsertVariant.linkAccount cu p c st w s).2 =
        (writes s ++ [Db (upsert_write cu p ai td expires (JStr iso))])%list /\
      (social_accounts (UpsertVariant.linkAccount cu p c st w s).2,
       next_id (UpsertVariant.linkAccount cu p c st w s).2) =
        applied (upsert_write cu p ai td expires (JStr iso)) (social_accounts s, next_id s) /\
      setItem_fault w ("oauth_success_" +:+ p) (receipt p ai ts) = None /\
      localStorage (UpsertVariant.linkAccount cu p c st w s).2 =
        <["oauth_success_" +:+ p := receipt p ai ts]> (localStorage s)).
Proof.
  unfold UpsertVariant.linkAccount. unfold_calls.
  destruct (token_endpoint w p c st) as [e | td] eqn:Htok;
    [left; exists e; split_and!; try done; by left |].
  destruct (fetchAccountInfo_effect p (access_token td) w) as [r Hr]. rewrite Hr.
  destruct r as [e | ai];
    [left; exists e; destruct (documented p) as [[url extract] |];
     split_and!; try done; by left |].
  simpl_state.
  destruct (documented p) as [[url extract] |];
    match goal with
    | |- context [UpsertVariant.saveAccount cu p ai td w ?S] =>
        pose proof (upsert_saveAccount_throws cu p ai td w S) as Hthrows;
        pose proof (upsert_saveAccount_returns cu p ai td w S) as Hreturns;
        pose proof (unchanged_timers_upsert_saveAccount w cu p ai td S) as Htimers;
        destruct (UpsertVariant.saveAccount cu p ai td w S) as [[e | []] s1]
    end; simpl in Hthrows, Hreturns, Htimers.
  1, 3: left; exists e; destruct (Hthrows e eq_refl) as (H1 & H2 & H3);
    split_and!; try done; by left.
  all: destruct (Hreturns eq_refl) as (expires & iso & Hexp & Hfault & Hw & Happ & Hls);
    fold (receipt p ai (time_at w (clock s1)));
    destruct (setItem_fault w ("oauth_success_" +:+ p) (receipt p ai (time_at w (clock s1))))
      as [e |] eqn:Hfull;
    [ left; exists e; split_and!; try done; right;
      exists td, ai, expires, iso, (time_at w (clock s1));
      split_and!; first [done | intros s0; by rewrite Hr | exact Happ]
    | right; exists td, ai, expires, iso, (time_at w (clock s1)); cbn [fst snd];
      split_and!;
      first [ done
            | intros s0; by rewrite Hr
            | simpl; by rewrite Htimers
            | unfold writes in Hw |- *; simpl_state; simpl_state in Hw;
              rewrite !List.filter_app in Hw; rewrite !List.filter_app;
              cbn [List.filter is_write app] in Hw |- *;
              rewrite ?app_nil_r in Hw; rewrite ?app_nil_r; exact Hw
            | exact Happ
            | simpl; by rewrite Hls ] ].
Qed.

(** Every run of the upserting handler. *)
Lemma upsert_variant_result (w : World) (s : State) :
  (UpsertVariant.handleOAuthCallback w s).1 = inr tt /\
  ((status (UpsertVariant.handleOAuthCallback w s).2 = error /\
    timers (UpsertVariant.handleOAuthCallback w s).2 = timers s /\
    localStorage (UpsertVariant.handleOAuthCallback w s).2 = localStorage s /\
    ((social_accounts (UpsertVariant.handleOAuthCallback w s).2 = social_accounts s /\
      next_id (UpsertVariant.handleOAuthCallback w s).2 = next_id s) \/
     (exists p c st session cu td ai expires iso ts e,
         redirect_for w c st p /\
         (UpsertVariant.restoreSession p w s).1 = inr (Some session) /\
         user session = Some cu /\
         token_endpoint w p c st = inr td /\
         (forall s0, (fetchAccountInfo p (access_token td) w s0).1 = inr ai) /\
         db_fault w (upsert_write cu p ai td expires (JStr iso)) = None /\
         setItem_fault w ("oauth_success_" +:+ p) (receipt p ai ts) = Some e /\
         message (UpsertVariant.handleOAuthCallback w s).2 = shown_message e /\
         (social_accounts (UpsertVariant.handleOAuthCallback w s).2,
          next_id (UpsertVariant.handleOAuthCallback w s).2) =
           applied (upsert_write cu p ai td expires (JStr iso))
             (social_accounts s, next_id s)))) \/
   (status (UpsertVariant.handleOAuthCallback w s).2 = success /\
    exists p c st session cu td ai expires iso ts,
      redirect_for w c st p /\
      (UpsertVariant.restoreSession p w s).1 = inr (Some session) /\
      user session = Some cu /\
      token_endpoint w p c st = inr td /\
      (forall s0, (fetchAccountInfo p (access_token td) w s0).1 = inr ai) /\
      expiry_value td (time_at w (clock s)) = inr expires /\
      timers (UpsertVariant.handleOAuthCallback w s).2 =
        (timers s ++ [(SuccessTimeout p, 2000)])%list /\
      db_fault w (upsert_write cu p ai td expires (JStr iso)) = None /\
      writes (UpsertVariant.handleOAuthCallback w s).2 =
        (writes s ++ [Db (upsert_write cu p ai td expires (JStr iso))])%list /\
      (social_accounts (UpsertVariant.handleOAuthCallback w s).2,
       next_id (UpsertVariant.handleOAuthCallback w s).2) =
        applied (upsert_write cu p ai td expires (JStr iso)) (social_accounts s, next_id s) /\
      setItem_fault w ("oauth_success_" +:+ p) (receipt p ai ts) = None /\
      localStorage (UpsertVariant.handleOAuthCallback w s).2 =
        <["oauth_success_" +:+ p := receipt p ai ts]> (localStorage s))).
Proof.
  unfold UpsertVariant.handleOAuthCallback. unfold_calls.
  destruct (truthy (or_null (URLSearchParams_get "error" (URLSearchParams (search w)))))
    eqn:Herr;
    [rewrite on_error_outcome; split; [done |]; left; split_and!; try done; by left |].
  apply falsy_nonempty_None in Herr.
  destruct (nonempty (URLSearchParams_get "code" (URLSearchParams (search w))))
    as [c |] eqn:Hc;
    [| rewrite on_error_outcome; split; [done |]; left; split_and!; try done; by left].
  destruct (nonempty (URLSearchParams_get "state" (URLSearchParams (search w))))
    as [st |] eqn:Hst;
    [| rewrite on_error_outcome; split; [done |]; left; split_and!; try done; by left].
  destruct (nonempty (last_item (split "/" (pathname w)))) as [p |] eqn:Hp;
    [| rewrite on_error_outcome; split; [done |]; left; split_and!; try done; by left].
  match goal with
  | |- context [UpsertVariant.restoreSession p w ?S] =>
      pose proof (unchanged_restoreSession w p S) as Hkept;
      pose proof (restoreSession_result w p S s eq_refl) as Hsame;
      destruct (UpsertVariant.restoreSession p w S) as [[e | session] s1]
  end;
    simpl in Hkept; injection Hkept as Htable Hnext Htimers1 Hsession Hls Hclock Hwrites;
    [rewrite on_error_outcome; split; [done |]; left; split_and!; try done; by left |].
  assert (writes s1 = writes s) as Hwrites'.
  { rewrite Hwrites. unfold writes. simpl_state. rewrite !List.filter_app.
    cbn [List.filter is_write app]. by rewrite ?app_nil_r. }
  clear Hwrites. simpl in Hsame.
  destruct session as [session |]; [destruct (user session) as [cu |] eqn:Hcu |];
    [| rewrite on_error_outcome; split; [done |]; left; split_and!; try done; by left ..].
  destruct (upsert_linkAccount_result w s1 cu p c st)
    as [(e & He & Htimers & Hstore & Hcases)
       | (td & ai & expires & iso & ts & Hok & Htok & Hfetch & Hexp & Hstatus & Htimers
          & Hfault & Hw & Happ & Hfull & Hstore)].
  - destruct (UpsertVariant.linkAccount cu p c st w s1) as [[e' | []] s2]; [| done].
    cbn [fst snd] in *. injection He as ->.
    rewrite on_error_outcome. split; [done |]. left. simpl_state.
    split_and!; [done | congruence | congruence |].
    destruct Hcases as [[H1 H2] | (td & ai & expires & iso & ts & Htok & Hfetch & Hfault
                                   & Hfull & Happ)].
    + left. split; congruence.
    + right. exists p, c, st, session, cu, td, ai, expires, iso, ts, e.
      rewrite Htable, Hnext in Happ. split_and!; first [done | by symmetry].
  - destruct (UpsertVariant.linkAccount cu p c st w s1) as [[e' | []] s2]; [done |].
    cbn [fst snd] in *. split; [done |]. right. split; [done |].
    rewrite Htable, Hnext, Hclock in *. rewrite Htimers1 in Htimers.
    rewrite Hwrites' in Hw. rewrite Hls in Hstore.
    exists p, c, st, session, cu, td, ai, expires, iso, ts.
    split_and!; first [done | by symmetry].
Qed.

Lemma upsert_variant_outcome (w : World) (s : State) :
  (UpsertVariant.handleOAuthCallback w s).1 = inr tt /\
  ((status (UpsertVariant.handleOAuthCallback w s).2 = error /\
    timers (UpsertVariant.handleOAuthCallback w s).2 = timers s) \/
   (status (UpsertVariant.handleOAuthCallback w s).2 = success /\
    exists p, platform_of w = Some p /\
      timers (UpsertVariant.handleOAuthCallback w s).2 =
        (timers s ++ [(SuccessTimeout p, 2000)])%list)).
Proof.
  destruct (upsert_variant_result w s)
    as [Hres [(Hstatus & Htimers & _)
             | (Hstatus & p & c & st & session & cu & td & ai & expires & iso & ts
                & Hredirect & _ & _ & _ & _ & _ & Htimers & _)]].
  - split; [done |]. by left.
  - split; [done |]. right. split; [done |]. exists p. split; [apply Hredirect | done].
Qed.

(** * What a run has written when it ends *)

(** X2. A run of the handle-aware handler that ends in the error state
    has written nothing: the rows of the table, the next id and the queue
    of closures are as before. The same holds of the upserting handler
    when [localStorage.setItem] does not throw (it is called after the
    upsert, inside the same [try]). *)
Theorem failed_run_writes_nothing (w : World) (s : State) :
  (status (HandleAware.handleOAuthCallback w s).2 = error ->
   social_accounts (HandleAware.handleOAuthCallback w s).2 = social_accounts s /\
   next_id (HandleAware.handleOAuthCallback w s).2 = next_id s /\
   timers (HandleAware.handleOAuthCallback w s).2 = timers s) /\
  (status (UpsertVariant.handleOAuthCallback w s).2 = error ->
   (forall key value, setItem_fault w key value = None) ->
   social_accounts (UpsertVariant.handleOAuthCallback w s).2 = social_accounts s /\
   next_id (UpsertVariant.handleOAuthCallback w s).2 = next_id s /\
   timers (UpsertVariant.handleOAuthCallback w s).2 = timers s).
Proof.
  split.
  - intros Herr. destruct (handle_aware_result w s) as [_ [[_ H] | [H _]]]; [| congruence].
    unfold durable in H. by injection H.
  - intros Herr Hstorage.
    destruct (upsert_variant_result w s) as [_ [(_ & Ht & _ & Hcases) | [H _]]];
      [| congruence].
    destruct Hcases as [[H1 H2] | (p & c & st & session & cu & td & ai & expires & iso & ts
                                   & e & _ & _ & _ & _ & _ & _ & Hfull & _)]; [done |].
    by rewrite Hstorage in Hfull.
Qed.

Lemma failed_run_writes_nothing_witness :
  status (HandleAware.handleOAuthCallback
            (Cases.usual (inr Scenario.tokens) Cases.profile Cases.insert_fails)
            Cases.start).2 = error /\
  social_accounts (HandleAware.handleOAuthCallback
                     (Cases.usual (inr Scenario.tokens) Cases.profile Cases.insert_fails)
                     Cases.start).2 = [] /\
  status (UpsertVariant.handleOAuthCallback
            (Cases.usual (inr Scenario.tokens) Cases.profile Cases.upsert_fails)
            Cases.start).2 = error /\
  social_accounts (UpsertVariant.handleOAuthCallback
                     (Cases.usual (inr Scenario.tokens) Cases.profile Cases.upsert_fails)
                     Cases.start).2 = [].
Proof.
  assert (status (HandleAware.handleOAuthCallback
                    (Cases.usual (inr Scenario.tokens) Cases.profile Cases.insert_fails)
                    Cases.start).2 = error) as H1 by (vm_compute; reflexivity).
  assert (status (UpsertVariant.handleOAuthCallback
                    (Cases.usual (inr Scenario.tokens) Cases.profile Cases.upsert_fails)
                    Cases.start).2 = error) as H2 by (vm_compute; reflexivity).
  split; [exact H1 |]. split; [| split; [exact H2 |]].
  - exact (proj1 (proj1 (failed_run_writes_nothing
                           (Cases.usual (inr Scenario.tokens) Cases.profile Cases.insert_fails)
                           Cases.start) H1)).
  - exact (proj1 (proj2 (failed_run_writes_nothing
                           (Cases.usual (inr Scenario.tokens) Cases.profile Cases.upsert_fails)
                           Cases.start) H2 (fun _ _ => eq_refl))).
Defined.

(** X3. A run that ends in success has sent exactly one write request to
    the table, which the table has accepted and applied, and has queued
    exactly one closure, for the platform of the path, at 2000 ms. In the
    handle-aware handler the request is the update, by its id, of the
    record that the lookup found for the user, the platform and the
    fetched handle, or else the insert of a new record; in the upserting
    handler it is the upsert on (user_id, platform). The user is the one
    of the login step, the tokens are those of the exchange, the account
    is the one fetched with them. *)
Theorem successful_run_writes_once (w : World) (s : State) :
  (status (HandleAware.handleOAuthCallback w s).2 = success ->
   exists p c st cu td ai expires iso,
     redirect_for w c st p /\
     (HandleAware.restoreUser p w s).1 = inr (Some cu) /\
     token_endpoint w p c st = inr td /\
     (fetchAccountInfo p (access_token td) w s).1 = inr ai /\
     expiry_value td (time_at w (clock s)) = inr expires /\
     let req := handle_aware_write (found_record w cu p ai (social_accounts s)) cu p ai td
                  (sessionStorage s !! ("oauth_display_name_" +:+ p)) expires (JStr iso) in
     db_fault w req = None /\
     writes (HandleAware.handleOAuthCallback w s).2 = (writes s ++ [Db req])%list /\
     (social_accounts (HandleAware.handleOAuthCallback w s).2,
      next_id (HandleAware.handleOAuthCallback w s).2) =
       applied req (social_accounts s, next_id s) /\
     timers (HandleAware.handleOAuthCallback w s).2 =
       (timers s ++ [(SuccessTimeout p, 2000)])%list) /\
  (status (UpsertVariant.handleOAuthCallback w s).2 = success ->
   exists p c st session cu td ai expires iso,
     redirect_for w c st p /\
     (UpsertVariant.restoreSession p w s).1 = inr (Some session) /\
     user session = Some cu /\
     token_endpoint w p c st = inr td /\
     (fetchAccountInfo p (access_token td) w s).1 = inr ai /\
     expiry_value td (time_at w (clock s)) = inr expires /\
     let req := upsert_write cu p ai td expires (JStr iso) in
     db_fault w req = None /\
     writes (UpsertVariant.handleOAuthCallback w s).2 = (writes s ++ [Db req])%list /\
     (social_accounts (UpsertVariant.handleOAuthCallback w s).2,
      next_id (UpsertVariant.handleOAuthCallback w s).2) =
       applied req (social_accounts s, next_id s) /\
     timers (UpsertVariant.handleOAuthCallback w s).2 =
       (timers s ++ [(SuccessTimeout p, 2000)])%list).
Proof.
  split; intros Hok.
  - destruct (handle_aware_result w s)
      as [_ [[H _] | (_ & p & c & st & cu & td & ai & expires & iso & H1 & H2 & H3 & H4
                      & H5 & H6 & H7 & H8 & H9)]]; [congruence |].
    exists p, c, st, cu, td, ai, expires, iso. cbv zeta. by split_and!.
  - destruct (upsert_variant_result w s)
      as [_ [[H _] | (_ & p & c & st & session & cu & td & ai & expires & iso & ts & H1
                      & H2 & H3 & H4 & H5 & H6 & H7 & H8 & H9 & H10 & _)]]; [congruence |].
    exists p, c, st, session, cu, td, ai, expires, iso. cbv zeta. by split_and!.
Qed.

Lemma successful_run_writes_once_witness :
  status (HandleAware.handleOAuthCallback Scenario.world Scenario.start).2 = success /\
  length (writes (HandleAware.handleOAuthCallback Scenario.world Scenario.start).2) = 1%nat /\
  length (social_accounts (HandleAware.handleOAuthCallback Scenario.world Scenario.start).2)
    = 1%nat.
Proof.
  assert (status (HandleAware.handleOAuthCallback Scenario.world Scenario.start).2 = success)
    as H by (vm_compute; reflexivity).
  split; [exact H |].
  destruct (proj1 (successful_run_writes_once Scenario.world Scenario.start) H)
    as (p & c & st & cu & td & ai & expires & iso & _ & _ & _ & _ & _ & _ & Hw & Happ & _).
  split.
  - rewrite Hw. reflexivity.
  - apply (f_equal (fun t => length t.1)) in Happ. cbn [fst] in Happ. rewrite Happ.
    vm_compute. reflexivity.
Defined.

(** * The page after the delay *)

Lemma unchanged_window_events_handle_aware (w : World) :
  unchanged window_events w HandleAware.handleOAuthCallback.
Proof. unchanged_blocks. Qed.

Lemma unchanged_window_events_upsert_variant (w : World) :
  unchanged window_events w UpsertVariant.handleOAuthCallback.
Proof. unchanged_blocks. Qed.

(** X4. The page of the upserting handler, loaded with no closure pending:
    after a run that ends in success the queued closure posts
    [{type: 'oauth_success', platform}] to the opener at the page's own
    origin and then closes the window, or, without an opener, navigates to
    [/]; after a run that ends in error the window is left alone. *)
Theorem upsert_page_notifies_then_closes (w : World) (s : State) :
  timers s = [] ->
  (status (UpsertVariant.handleOAuthCallback w s).2 = success ->
   exists p, platform_of w = Some p /\
     window_events (UpsertVariant.page w s).2 =
       (window_events s ++
        (if opener w then [PostMessage (oauth_success p) (origin w); WindowClose]
         else [Navigate "/"]))%list) /\
  (status (UpsertVariant.handleOAuthCallback w s).2 = error ->
   window_events (UpsertVariant.page w s).2 = window_events s).
Proof.
  intros Hempty.
  pose proof (unchanged_window_events_upsert_variant w s) as Hwin.
  unfold UpsertVariant.page. rewrite bind_run.
  destruct (upsert_variant_outcome w s) as [Hres Hout].
  destruct (UpsertVariant.handleOAuthCallback w s) as [[e | []] s1]; [done |].
  simpl in *. split; intros Hstatus.
  - destruct Hout as [[H _] | (_ & p & Hp & Ht)]; [congruence |].
    exists p. split; [exact Hp |].
    unfold run_timers. rewrite Ht, Hempty. cbn [app fold_left fst].
    rewrite onTimeout_upsert_variant. cbn [snd].
    destruct (opener w); unfold window_events; simpl;
      rewrite !List.filter_app; simpl; fold (window_events s1);
      by rewrite Hwin, <- ?app_assoc.
  - destruct Hout as [[_ Ht] | [H _]]; [| congruence].
    unfold run_timers. rewrite Ht, Hempty. simpl. exact Hwin.
Qed.

Lemma upsert_page_notifies_then_closes_witness :
  timers Scenario.start = [] /\
  status (UpsertVariant.handleOAuthCallback Scenario.world Scenario.start).2 = success /\
  window_events (UpsertVariant.page Scenario.world Scenario.start).2 =
    [PostMessage (oauth_success "twitter") "https://app.example"; WindowClose].
Proof.
  split; [reflexivity |]. split; [reflexivity |].
  destruct (proj1 (upsert_page_notifies_then_closes Scenario.world Scenario.start eq_refl)
              eq_refl) as (p & Hp & Hw).
  vm_compute in Hp. injection Hp as <-. exact Hw.
Defined.

(** X5. The page of the handle-aware handler, loaded with no closure
    pending: after a run that ends in success the queued closure first
    calls [window.close()] and then posts the completion message when there
    is an opener; it never navigates. After a run that ends in error the
    window is left alone. *)
Theorem handle_aware_page_closes_then_notifies (w : World) (s : State) :
  timers s = [] ->
  (status (HandleAware.handleOAuthCallback w s).2 = success ->
   exists p, platform_of w = Some p /\
     window_events (HandleAware.page w s).2 =
       (window_events s ++
        WindowClose :: (if opener w then [PostMessage (oauth_success p) (origin w)] else []))%list) /\
  (status (HandleAware.handleOAuthCallback w s).2 = error ->
   window_events (HandleAware.page w s).2 = window_events s).
Proof.
  intros Hempty.
  pose proof (unchanged_window_events_handle_aware w s) as Hwin.
  unfold HandleAware.page. rewrite bind_run.
  destruct (handle_aware_outcome w s) as [Hres Hout].
  destruct (HandleAware.handleOAuthCallback w s) as [[e | []] s1]; [done |].
  simpl in *. split; intros Hstatus.
  - destruct Hout as [[H _] | (_ & p & Hp & Ht)]; [congruence |].
    exists p. split; [exact Hp |].
    unfold run_timers. rewrite Ht, Hempty. cbn [app fold_left fst].
    rewrite onTimeout_handle_aware. cbn [snd].
    destruct (opener w); unfold window_events; simpl;
      rewrite !List.filter_app; simpl; fold (window_events s1);
      by rewrite Hwin, <- ?app_assoc.
  - destruct Hout as [[_ H] | [H _]]; [| congruence].
    unfold durable in H. injection H as _ _ Ht.
    unfold run_timers. rewrite Ht, Hempty. simpl. exact Hwin.
Qed.

Lemma handle_aware_page_closes_then_notifies_witness :
  timers Scenario.start = [] /\
  status (HandleAware.handleOAuthCallback Scenario.world_alone Scenario.start).2 = success /\
  window_events (HandleAware.page Scenario.world_alone Scenario.start).2 = [WindowClose].
Proof.
  split; [reflexivity |]. split; [reflexivity |].
  destruct (proj1 (handle_aware_page_closes_then_notifies Scenario.world_alone Scenario.start
                     eq_refl) eq_refl) as (p & Hp & Hw).
  exact Hw.
Defined.

(** * The error paths, step by step *)

Lemma restoreUser_session_in_place (w : World) (s : State) (p : string) (cu : User) :
  session_in_place w cu ->
  HandleAware.restoreUser p w s = (inr (Some cu), with_event GetSession s).
Proof.
  intros (session & Hs & Hu). unfold HandleAware.restoreUser. unfold_calls.
  rewrite Hs. unfold_calls. destruct session as [u]. simpl in Hu. by rewrite Hu.
Qed.

Lemma handle_aware_reaches (w : World) (s : State) (c st p : string) (cu : User) :
  redirect_for w c st p ->
  (HandleAware.restoreUser p w s).1 = inr (Some cu) ->
  HandleAware.handleOAuthCallback w s =
  try_catch (HandleAware.linkAccount cu p c st) on_error w (HandleAware.restoreUser p w s).2.
Proof.
  intros (Herr & Hc & Hst & Hp) Hlogin.
  apply handler_reaches_linkAccount; try done.
  destruct (HandleAware.restoreUser p w s) as [r s1]. simpl in Hlogin. by subst r.
Qed.

Lemma upsert_variant_reaches (w : World) (s : State) (c st p : string) (session : Session)
    (cu : User) :
  redirect_for w c st p ->
  (UpsertVariant.restoreSession p w s).1 = inr (Some session) ->
  user session = Some cu ->
  UpsertVariant.handleOAuthCallback w s =
  try_catch (UpsertVariant.linkAccount cu p c st) on_error w
    (UpsertVariant.restoreSession p w
       (with_message ("Connecting to " +:+ p +:+ "...")
          (with_event (Console "log" "OAuth Callback Debug:") s))).2.
Proof.
  intros (Herr & Hc & Hst & Hp) Hlogin Hcu.
  unfold UpsertVariant.handleOAuthCallback. unfold_calls.
  rewrite (nonempty_None_falsy _ Herr), Hc, Hst. unfold platform_of in Hp. rewrite Hp.
  match goal with
  | |- context [UpsertVariant.restoreSession p w ?S] =>
      pose proof (restoreSession_result w p S s eq_refl) as Hsame;
      rewrite Hlogin in Hsame;
      destruct (UpsertVariant.restoreSession p w S) as [r s1]
  end.
  simpl in Hsame. subst r. by rewrite Hcu.
Qed.

(** X6. No session in place and no snapshot under
    [oauth_supabase_session_<platform>] (absent or empty): both handlers
    end in the error state with the fixed "not logged in" message, having
    asked for the session and read the storage key and nothing else; no
    token is exchanged. *)
Theorem not_logged_in_stops_before_exchange (w : World) (s : State) (c st p : string) :
  redirect_for w c st p ->
  auth_session w = inr None ->
  nonempty (localStorage s !! ("oauth_supabase_session_" +:+ p)) = None ->
  HandleAware.handleOAuthCallback w s =
    (inr tt,
     with_message not_logged_in
       (with_status error
          (with_event (Console "error" "OAuth callback error:")
             (with_event (LocalStorage_getItem ("oauth_supabase_session_" +:+ p))
                (with_event GetSession s))))) /\
  UpsertVariant.handleOAuthCallback w s =
    (inr tt,
     with_message not_logged_in
       (with_status error
          (with_event (Console "error" "OAuth callback error:")
             (with_event (LocalStorage_getItem ("oauth_supabase_session_" +:+ p))
                (with_event GetSession
                   (with_message ("Connecting to " +:+ p +:+ "...")
                      (with_event (Console "log" "OAuth Callback Debug:") s))))))).
Proof.
  intros (Herr & Hc & Hst & Hp) Hsession Hnone. unfold platform_of in Hp. split.
  - unfold HandleAware.handleOAuthCallback, HandleAware.restoreUser. unfold_calls.
    rewrite (nonempty_None_falsy _ Herr), Hc, Hst, Hp, Hsession. unfold_calls.
    simpl_state. rewrite Hnone. by rewrite on_error_outcome.
  - unfold UpsertVariant.handleOAuthCallback, UpsertVariant.restoreSession. unfold_calls.
    rewrite (nonempty_None_falsy _ Herr), Hc, Hst, Hp, Hsession. unfold_calls.
    simpl_state. rewrite Hnone. by rewrite on_error_outcome.
Qed.

Lemma not_logged_in_stops_before_exchange_witness :
  status (HandleAware.handleOAuthCallback Scenario.world Cases.start).2 = error /\
  message (HandleAware.handleOAuthCallback Scenario.world Cases.start).2 = not_logged_in.
Proof.
  rewrite (proj1 (not_logged_in_stops_before_exchange Scenario.world Cases.start
                    "abc" "xyz" "twitter"
                    (conj eq_refl (conj eq_refl (conj eq_refl eq_refl))) eq_refl eq_refl)).
  split; reflexivity.
Defined.

(** X7. When the login step has yielded a user (from the session in
    place or from the snapshot) and the token exchange rejects, both
    handlers end in the error state showing the message of the rejection
    (or [Failed to connect account] when it has none): after the login
    step the run only sets the progress message, calls the exchange and
    reports; the profile is not fetched, the table is not reached and the
    hints stay in [sessionStorage]. *)
Theorem exchange_failure_stops_the_flow (w : World) (s : State) (c st p : string) (e : exn) :
  redirect_for w c st p ->
  token_endpoint w p c st = inl e ->
  (forall cu,
     (HandleAware.restoreUser p w s).1 = inr (Some cu) ->
     HandleAware.handleOAuthCallback w s =
       (inr tt,
        with_message (shown_message e)
          (with_status error
             (with_event (Console "error" "OAuth callback error:")
                (with_event (ExchangeCode p c st)
                   (with_message ("Connecting to " +:+ p +:+ "...")
                      (HandleAware.restoreUser p w s).2))))) /\
     sessionStorage (HandleAware.handleOAuthCallback w s).2 = sessionStorage s /\
     durable (HandleAware.handleOAuthCallback w s).2 = durable s) /\
  (forall session cu,
     (UpsertVariant.restoreSession p w s).1 = inr (Some session) ->
     user session = Some cu ->
     UpsertVariant.handleOAuthCallback w s =
       (inr tt,
        with_message (shown_message e)
          (with_status error
             (with_event (Console "error" "OAuth callback error:")
                (with_event (ExchangeCode p c st)
                   (UpsertVariant.restoreSession p w
                      (with_message ("Connecting to " +:+ p +:+ "...")
                         (with_event (Console "log" "OAuth Callback Debug:") s))).2)))) /\
     stores (UpsertVariant.handleOAuthCallback w s).2 = stores s).
Proof.
  intros Hredirect Htok. split.
  - intros cu Hlogin.
    rewrite (handle_aware_reaches w s c st p cu Hredirect Hlogin).
    unfold HandleAware.linkAccount. unfold_calls. rewrite Htok, on_error_outcome.
    split; [done |].
    pose proof (unchanged_restoreUser w p s) as Hkept.
    destruct (HandleAware.restoreUser p w s) as [r s1]. simpl in Hkept.
    injection Hkept as Htable Hnext Htimers Hsession _ _.
    split; [exact Hsession |]. unfold durable. simpl.
    by rewrite Htable, Hnext, Htimers.
  - intros session cu Hlogin Hcu.
    rewrite (upsert_variant_reaches w s c st p session cu Hredirect Hlogin Hcu).
    unfold UpsertVariant.linkAccount. unfold_calls. rewrite Htok, on_error_outcome.
    split; [done |].
    match goal with
    | |- context [UpsertVariant.restoreSession p w ?S] =>
        pose proof (unchanged_restoreSession w p S) as Hkept;
        destruct (UpsertVariant.restoreSession p w S) as [r s1]
    end.
    simpl in Hkept. injection Hkept as Htable Hnext Htimers Hsession Hls _ _.
    unfold stores. simpl. by rewrite Htable, Hnext, Htimers, Hsession, Hls.
Qed.

Lemma exchange_failure_stops_the_flow_witness :
  (HandleAware.restoreUser "twitter"
     (Cases.restoring (inl (Error "invalid_grant")) Cases.profile Cases.no_fault)
     Scenario.start_hint).1 = inr (Some Scenario.jane) /\
  message (HandleAware.handleOAuthCallback
             (Cases.restoring (inl (Error "invalid_grant")) Cases.profile Cases.no_fault)
             Scenario.start_hint).2 = "invalid_grant" /\
  sessionStorage (HandleAware.handleOAuthCallback
                    (Cases.restoring (inl (Error "invalid_grant")) Cases.profile Cases.no_fault)
                    Scenario.start_hint).2 = sessionStorage Scenario.start_hint.
Proof.
  assert ((HandleAware.restoreUser "twitter"
             (Cases.restoring (inl (Error "invalid_grant")) Cases.profile Cases.no_fault)
             Scenario.start_hint).1 = inr (Some Scenario.jane)) as Hlogin
    by (vm_compute; reflexivity).
  split; [exact Hlogin |].
  destruct (proj1 (exchange_failure_stops_the_flow
                     (Cases.restoring (inl (Error "invalid_grant")) Cases.profile
                        Cases.no_fault)
                     Scenario.start_hint "abc" "xyz" "twitter" (Error "invalid_grant")
                     (conj eq_refl (conj eq_refl (conj eq_refl eq_refl))) eq_refl)
              Scenario.jane Hlogin) as (Hrun & Hsession & _).
  split; [| exact Hsession]. rewrite Hrun. reflexivity.
Defined.

(** * [fetchAccountInfo] off the documented path *)

(** X8. Whatever the platform and whatever the endpoint answers,
    [fetchAccountInfo] changes the page in one way only: it issues the one
    bearer-token request to the endpoint of a supported platform, and
    nothing at all for any other platform. Its result does not depend on
    the state it is called in. *)
Theorem fetchAccountInfo_issues_one_request (platform accessToken : string) (w : World)
    (s s' : State) :
  (fetchAccountInfo platform accessToken w s).2 =
    match documented platform with
    | Some (url, _) =>
        with_event (Fetch url [("Authorization", "Bearer " +:+ accessToken)]) s
    | None => s
    end /\
  (fetchAccountInfo platform accessToken w s).1 =
  (fetchAccountInfo platform accessToken w s').1.
Proof.
  destruct (fetchAccountInfo_effect platform accessToken w) as [r Hr].
  by rewrite !Hr.
Qed.

(** X9. A response that is not ok is never parsed: for a supported
    platform, [fetchAccountInfo] throws
    [Failed to fetch account info from <platform>] after its one request,
    whatever the body of the response; a request that rejects is thrown
    on as it is. *)
Theorem fetchAccountInfo_failed_request (platform accessToken url : string)
    (extract : js -> option AccountInfo) (w : World) (s : State) :
  documented platform = Some (url, extract) ->
  (forall response,
     http w url [("Authorization", "Bearer " +:+ accessToken)] = inr response ->
     ok response = false) ->
  fetchAccountInfo platform accessToken w s =
  (match http w url [("Authorization", "Bearer " +:+ accessToken)] with
   | inl e => inl e
   | inr _ => inl (Error ("Failed to fetch account info from " +:+ platform))
   end,
   with_event (Fetch url [("Authorization", "Bearer " +:+ accessToken)]) s).
Proof.
  unfold documented, fetchAccountInfo. intros Hdoc Hhttp.
  destruct (String.eqb platform "twitter") eqn:E1;
    [| destruct (String.eqb platform "linkedin") eqn:E2;
       [| destruct (String.eqb platform "instagram") eqn:E3;
          [| destruct (String.eqb platform "facebook") eqn:E4;
             [| destruct (String.eqb platform "tiktok") eqn:E5; [| discriminate]]]]];
    injection Hdoc as <- <-; unfold_calls;
    match goal with
    | |- context [http w ?u ?h] =>
        destruct (http w u h) as [e | [[] body]];
        cbv beta iota zeta delta [ok json negb]; try reflexivity
    end;
    by specialize (Hhttp _ eq_refl).
Qed.

Lemma fetchAccountInfo_failed_request_witness :
  fetchAccountInfo "twitter" "tok"
    (Cases.usual (inr Scenario.tokens)
       (inr {| ok := false; json := inr Scenario.twitter_profile |}) Cases.no_fault)
    Cases.start =
  (inl (Error "Failed to fetch account info from twitter"),
   with_event (Fetch "https://api.twitter.com/2/users/me" [("Authorization", "Bearer tok")])
     Cases.start).
Proof.
  apply (fetchAccountInfo_failed_request "twitter" "tok" "https://api.twitter.com/2/users/me" _
           (Cases.usual (inr Scenario.tokens)
              (inr {| ok := false; json := inr Scenario.twitter_profile |}) Cases.no_fault)
           Cases.start eq_refl).
  intros response [= <-]. reflexivity.
Defined.

(** X10. The body of an ok response is not validated. When it is an
    object without the fields read from it, LinkedIn, Instagram and
    Facebook still return an account, built from [undefined] (the name
    ["undefined undefined"], the handle ["@undefined"]), while Twitter and
    TikTok throw the [TypeError] of reading a property of [undefined]. *)
Theorem fetchAccountInfo_body_without_fields (platform accessToken url : string)
    (extract : js -> option AccountInfo) (fields : list (string * js))
    (w : World) (s : State) :
  documented platform = Some (url, extract) ->
  http w url [("Authorization", "Bearer " +:+ accessToken)] =
    inr {| ok := true; json := inr (JObj fields) |} ->
  (forall k, k ∈ ["data"; "localizedFirstName"; "localizedLastName"; "id"; "username"; "name"] ->
             assoc k fields = None) ->
  (fetchAccountInfo platform accessToken w s).1 =
    if String.eqb platform "twitter" then
      inl (TypeError "Cannot read properties of undefined (reading 'name')")
    else if String.eqb platform "linkedin" then
      inr {| name := JStr "undefined undefined"; handle := undefined |}
    else if String.eqb platform "instagram" then
      inr {| name := undefined; handle := JStr "@undefined" |}
    else if String.eqb platform "facebook" then
      inr {| name := undefined; handle := undefined |}
    else
      inl (TypeError "Cannot read properties of undefined (reading 'user')").
Proof.
  unfold documented, fetchAccountInfo. intros Hdoc Hhttp Hfields.
  assert (forall k, k ∈ ["data"; "localizedFirstName"; "localizedLastName"; "id";
                         "username"; "name"] ->
                    get_prop (JObj fields) k = inr undefined) as Hget.
  { intros k Hk. unfold get_prop. by rewrite (Hfields k Hk). }
  destruct (String.eqb platform "twitter") eqn:E1;
    [| destruct (String.eqb platform "linkedin") eqn:E2;
       [| destruct (String.eqb platform "instagram") eqn:E3;
          [| destruct (String.eqb platform "facebook") eqn:E4;
             [| destruct (String.eqb platform "tiktok") eqn:E5; [| discriminate]]]]];
    injection Hdoc as <- <-; unfold_calls; rewrite Hhttp;
    cbv beta iota zeta delta [ok json negb]; unfold_calls;
    repeat match goal with
           | |- context [get_prop (JObj fields) ?k] =>
               rewrite (Hget k)
                 by (repeat first [apply list_elem_of_here | apply list_elem_of_further])
           end;
    reflexivity.
Qed.

Lemma fetchAccountInfo_body_without_fields_witness :
  (fetchAccountInfo "instagram" "tok"
     (Cases.world_of "/oauth/callback/instagram" "?code=abc&state=xyz" Cases.logged_in
        (inr Scenario.tokens)
        (inr {| ok := true; json := inr (JObj [("error", JStr "expired")]) |}) Cases.no_fault)
     Cases.start).1 =
  inr {| name := undefined; handle := JStr "@undefined" |}.
Proof.
  apply (fetchAccountInfo_body_without_fields "instagram" "tok"
           "https://graph.instagram.com/me?fields=id,username" _
           [("error", JStr "expired")]
           (Cases.world_of "/oauth/callback/instagram" "?code=abc&state=xyz" Cases.logged_in
              (inr Scenario.tokens)
              (inr {| ok := true; json := inr (JObj [("error", JStr "expired")]) |})
              Cases.no_fault)
           Cases.start eq_refl eq_refl).
  intros k Hk.
  repeat (apply elem_of_cons in Hk as [-> | Hk]; [reflexivity |]).
  by apply elem_of_nil in Hk.
Defined.

(** * Failures after the token exchange *)

Lemma unchanged_sessionStorage_saveAccount (w : World) (cu : User) (p : string)
    (ai : AccountInfo) (td : TokenData) (hint : option string) :
  unchanged sessionStorage w (HandleAware.saveAccount cu p ai td hint).
Proof. unchanged_blocks. Qed.

Lemma expiry_value_in_range (w : World) (td : TokenData) (n : nat) :
  clock_in_range w td n -> exists expires, expiry_value td (time_at w n) = inr expires.
Proof.
  intros Hclock. unfold expiry_value. destruct (Hclock n ltac:(lia)) as [_ H].
  destruct (expires_in td) as [secs |]; [| by eexists].
  destruct (secs =? 0); [by eexists |]. simpl in H.
  destruct (toISOString_in_range _ H) as [iso ->]. by eexists.
Qed.

Lemma upsert_saveAccount_fault (cu : User) (p : string) (ai : AccountInfo) (td : TokenData)
    (w : World) (s : State) :
  clock_in_range w td (clock s) ->
  (forall values onConflict, db_fault w (Upsert values onConflict) <> None) ->
  exists s',
    UpsertVariant.saveAccount cu p ai td w s =
      (inl (Error "Failed to save account connection"), s') /\
    stores s' = stores s.
Proof.
  intros Hclock Hfault. unfold UpsertVariant.saveAccount.
  rewrite bind_run, expiry_run.
  destruct (expiry_value_in_range w td (clock s) Hclock) as [expires ->].
  rewrite bind_run, now_iso_run.
  match goal with
  | |- context [toISOString (time_at w ?n)] =>
      assert (clock s <= n <= clock s + 2)%nat as Hn
        by (destruct (expires_in td) as [secs |]; [destruct (secs =? 0) |]; simpl; lia);
      destruct (toISOString_in_range _ (proj1 (Hclock n Hn))) as [iso ->]
  end.
  rewrite bind_run. unfold db_upsert. unfold_calls.
  match goal with
  | |- context [db_fault w ?r] => destruct (db_fault w r) as [e |] eqn:Hf
  end; [| by apply Hfault in Hf].
  eexists. split; [reflexivity |].
  destruct (expires_in td) as [secs |]; [destruct (secs =? 0) |]; reflexivity.
Qed.

Lemma upsert_saveAccount_accepted (cu : User) (p : string) (ai : AccountInfo)
    (td : TokenData) (w : World) (s : State) :
  clock_in_range w td (clock s) ->
  (forall values onConflict, db_fault w (Upsert values onConflict) = None) ->
  (UpsertVariant.saveAccount cu p ai td w s).1 = inr tt.
Proof.
  intros Hclock Hfault. unfold UpsertVariant.saveAccount.
  rewrite bind_run, expiry_run.
  destruct (expiry_value_in_range w td (clock s) Hclock) as [expires ->].
  rewrite bind_run, now_iso_run.
  match goal with
  | |- context [toISOString (time_at w ?n)] =>
      assert (clock s <= n <= clock s + 2)%nat as Hn
        by (destruct (expires_in td) as [secs |]; [destruct (secs =? 0) |]; simpl; lia);
      destruct (toISOString_in_range _ (proj1 (Hclock n Hn))) as [iso ->]
  end.
  rewrite bind_run. unfold db_upsert. unfold_calls. by rewrite Hfault.
Qed.

(** X11. When the login step has yielded a user and the profile request
    fails after a good token exchange (unsupported platform, rejected or
    failed request, unreadable body), both handlers end in the error
    state showing the message of that failure. The table, the queue of
    closures and [sessionStorage], with its display-name hints, are as
    before the run, and [localStorage] is as the login step left it: as
    before the run in the upserting handler, and in the handle-aware
    handler without the snapshot when the user was restored from it. *)
Theorem profile_failure_leaves_stores (w : World) (s : State) (c st p : string)
    (td : TokenData) (e : exn) :
  redirect_for w c st p ->
  token_endpoint w p c st = inr td ->
  (fetchAccountInfo p (access_token td) w s).1 = inl e ->
  (forall cu,
     (HandleAware.restoreUser p w s).1 = inr (Some cu) ->
     status (HandleAware.handleOAuthCallback w s).2 = error /\
     message (HandleAware.handleOAuthCallback w s).2 = shown_message e /\
     sessionStorage (HandleAware.handleOAuthCallback w s).2 = sessionStorage s /\
     durable (HandleAware.handleOAuthCallback w s).2 = durable s /\
     localStorage (HandleAware.handleOAuthCallback w s).2 =
       localStorage (HandleAware.restoreUser p w s).2) /\
  (forall session cu,
     (UpsertVariant.restoreSession p w s).1 = inr (Some session) ->
     user session = Some cu ->
     status (UpsertVariant.handleOAuthCallback w s).2 = error /\
     message (UpsertVariant.handleOAuthCallback w s).2 = shown_message e /\
     stores (UpsertVariant.handleOAuthCallback w s).2 = stores s).
Proof.
  intros Hredirect Htok Hfetch.
  destruct (fetchAccountInfo_effect p (access_token td) w) as [r Hr].
  rewrite Hr in Hfetch. simpl in Hfetch. subst r. split.
  - intros cu Hlogin.
    rewrite (handle_aware_reaches w s c st p cu Hredirect Hlogin).
    pose proof (unchanged_restoreUser w p s) as Hkept.
    destruct (HandleAware.restoreUser p w s) as [r s1]. simpl in Hkept.
    injection Hkept as Htable Hnext Htimers Hsession _ _.
    unfold HandleAware.linkAccount. unfold_calls. rewrite Htok, Hr, on_error_outcome.
    unfold durable. destruct (documented p) as [[url extract] |]; simpl;
      by rewrite Htable, Hnext, Htimers, Hsession.
  - intros session cu Hlogin Hcu.
    rewrite (upsert_variant_reaches w s c st p session cu Hredirect Hlogin Hcu).
    match goal with
    | |- context [UpsertVariant.restoreSession p w ?S] =>
        pose proof (unchanged_restoreSession w p S) as Hkept;
        destruct (UpsertVariant.restoreSession p w S) as [r s1]
    end.
    simpl in Hkept. injection Hkept as Htable Hnext Htimers Hsession Hls _ _.
    unfold UpsertVariant.linkAccount. unfold_calls. rewrite Htok, Hr, on_error_outcome.
    unfold stores. destruct (documented p) as [[url extract] |]; simpl;
      by rewrite Htable, Hnext, Htimers, Hsession, Hls.
Qed.

Lemma profile_failure_leaves_stores_witness :
  message (HandleAware.handleOAuthCallback
             (Cases.restoring (inr Scenario.tokens)
                (inr {| ok := false; json := inr null |}) Cases.no_fault)
             Scenario.start_hint).2 = "Failed to fetch account info from twitter" /\
  sessionStorage (HandleAware.handleOAuthCallback
                    (Cases.restoring (inr Scenario.tokens)
                       (inr {| ok := false; json := inr null |}) Cases.no_fault)
                    Scenario.start_hint).2 !! "oauth_display_name_twitter" = Some "JD" /\
  localStorage (HandleAware.handleOAuthCallback
                  (Cases.restoring (inr Scenario.tokens)
                     (inr {| ok := false; json := inr null |}) Cases.no_fault)
                  Scenario.start_hint).2 !! "oauth_supabase_session_twitter" = None.
Proof.
  assert ((HandleAware.restoreUser "twitter"
             (Cases.restoring (inr Scenario.tokens)
                (inr {| ok := false; json := inr null |}) Cases.no_fault)
             Scenario.start_hint).1 = inr (Some Scenario.jane)) as Hlogin
    by (vm_compute; reflexivity).
  destruct (proj1 (profile_failure_leaves_stores
                     (Cases.restoring (inr Scenario.tokens)
                        (inr {| ok := false; json := inr null |}) Cases.no_fault)
                     Scenario.start_hint "abc" "xyz" "twitter" Scenario.tokens
                     (Error "Failed to fetch account info from twitter")
                     (conj eq_refl (conj eq_refl (conj eq_refl eq_refl))) eq_refl eq_refl)
              Scenario.jane Hlogin) as (_ & Hmessage & Hsession & _ & Hls).
  split; [exact Hmessage |]. split.
  - rewrite Hsession. reflexivity.
  - rewrite Hls. vm_compute. reflexivity.
Defined.

(** X12. In the handle-aware handler, once the login step has yielded a
    user, the tokens have been exchanged and the profile is known, the
    two hints [oauth_username_<platform>] and
    [oauth_display_name_<platform>] are removed from [sessionStorage]
    before the table is reached: they are gone whether the record is then
    saved or not. *)
Theorem hints_are_consumed_before_saving (w : World) (s : State) (c st p : string)
    (cu : User) (td : TokenData) (ai : AccountInfo) :
  redirect_for w c st p ->
  (HandleAware.restoreUser p w s).1 = inr (Some cu) ->
  token_endpoint w p c st = inr td ->
  (fetchAccountInfo p (access_token td) w s).1 = inr ai ->
  sessionStorage (HandleAware.handleOAuthCallback w s).2 =
  delete ("oauth_display_name_" +:+ p) (delete ("oauth_username_" +:+ p) (sessionStorage s)).
Proof.
  intros Hredirect Hlogin Htok Hfetch.
  rewrite (handle_aware_reaches w s c st p cu Hredirect Hlogin).
  pose proof (unchanged_restoreUser w p s) as Hkept.
  destruct (HandleAware.restoreUser p w s) as [r s1]. simpl in Hkept.
  injection Hkept as _ _ _ Hsession _ _.
  unfold HandleAware.linkAccount. unfold_calls. rewrite Htok.
  match goal with
  | |- context [fetchAccountInfo ?p' ?t ?w' ?S] =>
      destruct (fetchAccountInfo_elsewhere p' t w' S s ai Hfetch) as (url & extract & _ & ->)
  end.
  simpl_state.
  match goal with
  | |- context [HandleAware.saveAccount cu p ai td ?hint w ?S] =>
      pose proof (unchanged_sessionStorage_saveAccount w cu p ai td hint S) as Hsave;
      destruct (HandleAware.saveAccount cu p ai td hint w S) as [[e | []] s']
  end; simpl in Hsave.
  - rewrite on_error_outcome. simpl. by rewrite Hsave, Hsession.
  - simpl. by rewrite Hsave, Hsession.
Qed.

Lemma hints_are_consumed_before_saving_witness :
  sessionStorage (HandleAware.handleOAuthCallback
                    (Cases.restoring (inr Scenario.tokens) Cases.profile Cases.insert_fails)
                    Scenario.start_hint).2 = ∅ /\
  status (HandleAware.handleOAuthCallback
            (Cases.restoring (inr Scenario.tokens) Cases.profile Cases.insert_fails)
            Scenario.start_hint).2 = error.
Proof.
  assert ((HandleAware.restoreUser "twitter"
             (Cases.restoring (inr Scenario.tokens) Cases.profile Cases.insert_fails)
             Scenario.start_hint).1 = inr (Some Scenario.jane)) as Hlogin
    by (vm_compute; reflexivity).
  split; [| vm_compute; reflexivity].
  rewrite (hints_are_consumed_before_saving
             (Cases.restoring (inr Scenario.tokens) Cases.profile Cases.insert_fails)
             Scenario.start_hint "abc" "xyz" "twitter" Scenario.jane Scenario.tokens
             Scenario.jane_d
             (conj eq_refl (conj eq_refl (conj eq_refl eq_refl))) Hlogin eq_refl eq_refl).
  reflexivity.
Defined.

(** X13. In the upserting handler, once the login step has yielded a
    session with a user, when the upsert is refused the page shows the
    fixed message [Failed to save account connection], not the message of
    the backend; the table, both storages and the queue of closures are
    as they were, so no [oauth_success_<platform>] entry is written. *)
Theorem upsert_failure_shows_fixed_message (w : World) (s : State) (c st p : string)
    (session : Session) (cu : User) (td : TokenData) (ai : AccountInfo) :
  redirect_for w c st p ->
  (UpsertVariant.restoreSession p w s).1 = inr (Some session) ->
  user session = Some cu ->
  token_endpoint w p c st = inr td ->
  (fetchAccountInfo p (access_token td) w s).1 = inr ai ->
  clock_in_range w td (clock s) ->
  (forall values onConflict, db_fault w (Upsert values onConflict) <> None) ->
  status (UpsertVariant.handleOAuthCallback w s).2 = error /\
  message (UpsertVariant.handleOAuthCallback w s).2 = "Failed to save account connection" /\
  stores (UpsertVariant.handleOAuthCallback w s).2 = stores s.
Proof.
  intros Hredirect Hlogin Hcu Htok Hfetch Hclock Hfault.
  rewrite (upsert_variant_reaches w s c st p session cu Hredirect Hlogin Hcu).
  match goal with
  | |- context [UpsertVariant.restoreSession p w ?S] =>
      pose proof (unchanged_restoreSession w p S) as Hkept;
      destruct (UpsertVariant.restoreSession p w S) as [r s1]
  end.
  simpl in Hkept. injection Hkept as Htable Hnext Htimers Hsession Hls Hclock1 _.
  unfold UpsertVariant.linkAccount. unfold_calls. rewrite Htok.
  match goal with
  | |- context [fetchAccountInfo ?p' ?t ?w' ?S] =>
      destruct (fetchAccountInfo_elsewhere p' t w' S s ai Hfetch) as (url & extract & _ & ->)
  end.
  simpl_state.
  match goal with
  | |- context [UpsertVariant.saveAccount cu p ai td w ?S] =>
      assert (clock_in_range w td (clock S)) as Hclock'
        by (simpl; by rewrite Hclock1);
      destruct (upsert_saveAccount_fault cu p ai td w S Hclock' Hfault) as (s' & -> & Hs')
  end.
  rewrite on_error_outcome. simpl_state. split; [done |]. split; [done |].
  unfold stores in *. simpl in *. by rewrite Hs', Htable, Hnext, Htimers, Hsession, Hls.
Qed.

Lemma upsert_failure_shows_fixed_message_witness :
  message (UpsertVariant.handleOAuthCallback
             (Cases.restoring (inr Scenario.tokens) Cases.profile Cases.upsert_fails)
             Cases.start_snapshot).2 = "Failed to save account connection" /\
  localStorage (UpsertVariant.handleOAuthCallback
                  (Cases.restoring (inr Scenario.tokens) Cases.profile Cases.upsert_fails)
                  Cases.start_snapshot).2 !! "oauth_success_twitter" = None.
Proof.
  assert (clock_in_range
            (Cases.restoring (inr Scenario.tokens) Cases.profile Cases.upsert_fails)
            Scenario.tokens (clock Cases.start_snapshot)) as Hclock.
  { intros k Hk. simpl in *. lia. }
  assert ((UpsertVariant.restoreSession "twitter"
             (Cases.restoring (inr Scenario.tokens) Cases.profile Cases.upsert_fails)
             Cases.start_snapshot).1 = inr (Some {| user := Some Scenario.jane |})) as Hlogin
    by (vm_compute; reflexivity).
  destruct (upsert_failure_shows_fixed_message
              (Cases.restoring (inr Scenario.tokens) Cases.profile Cases.upsert_fails)
              Cases.start_snapshot "abc" "xyz" "twitter" {| user := Some Scenario.jane |}
              Scenario.jane Scenario.tokens Scenario.jane_d
              (conj eq_refl (conj eq_refl (conj eq_refl eq_refl))) Hlogin eq_refl
              eq_refl eq_refl Hclock ltac:(discriminate)) as (_ & Hmessage & Hstores).
  split; [exact Hmessage |].
  exact (f_equal (fun v => v.1.1.1.1 !! "oauth_success_twitter") Hstores).
Defined.

(** X26. In the upserting handler [localStorage.setItem] is called after
    the upsert, inside the same [try]. When the table accepts the upsert
    and [setItem] then throws (the storage is full), the page ends in the
    error state showing the message of that exception, although the
    record has been written: the table is the one after the upsert, one
    write request has been sent, no receipt is stored and no closure is
    queued. *)
Theorem receipt_failure_follows_the_upsert (w : World) (s : State) (c st p : string)
    (session : Session) (cu : User) (td : TokenData) (ai : AccountInfo) (e : exn) :
  redirect_for w c st p ->
  (UpsertVariant.restoreSession p w s).1 = inr (Some session) ->
  user session = Some cu ->
  token_endpoint w p c st = inr td ->
  (fetchAccountInfo p (access_token td) w s).1 = inr ai ->
  clock_in_range w td (clock s) ->
  (forall values onConflict, db_fault w (Upsert values onConflict) = None) ->
  (forall value, setItem_fault w ("oauth_success_" +:+ p) value = Some e) ->
  status (UpsertVariant.handleOAuthCallback w s).2 = error /\
  message (UpsertVariant.handleOAuthCallback w s).2 = shown_message e /\
  localStorage (UpsertVariant.handleOAuthCallback w s).2 = localStorage s /\
  timers (UpsertVariant.handleOAuthCallback w s).2 = timers s /\
  exists expires iso,
    writes (UpsertVariant.handleOAuthCallback w s).2 =
      (writes s ++ [Db (upsert_write cu p ai td expires (JStr iso))])%list /\
    (social_accounts (UpsertVariant.handleOAuthCallback w s).2,
     next_id (UpsertVariant.handleOAuthCallback w s).2) =
      applied (upsert_write cu p ai td expires (JStr iso)) (social_accounts s, next_id s).
Proof.
  intros Hredirect Hlogin Hcu Htok Hfetch Hclock Hfault Hfull.
  rewrite (upsert_variant_reaches w s c st p session cu Hredirect Hlogin Hcu).
  match goal with
  | |- context [UpsertVariant.restoreSession p w ?S] =>
      pose proof (unchanged_restoreSession w p S) as Hkept;
      destruct (UpsertVariant.restoreSession p w S) as [r s1]
  end.
  simpl in Hkept. injection Hkept as Htable Hnext Htimers Hsession Hls Hclock1 Hwrites.
  assert (writes s1 = writes s) as Hwrites'.
  { rewrite Hwrites. unfold writes. simpl_state. rewrite !List.filter_app.
    cbn [List.filter is_write app]. by rewrite ?app_nil_r. }
  clear Hwrites.
  unfold UpsertVariant.linkAccount. unfold_calls. rewrite Htok.
  match goal with
  | |- context [fetchAccountInfo ?p' ?t ?w' ?S] =>
      destruct (fetchAccountInfo_elsewhere p' t w' S s ai Hfetch) as (url & extract & _ & ->)
  end.
  simpl_state.
  match goal with
  | |- context [UpsertVariant.saveAccount cu p ai td w ?S] =>
      assert (clock_in_range w td (clock S)) as Hclock'
        by (simpl; by rewrite Hclock1);
      pose proof (upsert_saveAccount_accepted cu p ai td w S Hclock' Hfault) as Hok;
      pose proof (upsert_saveAccount_returns cu p ai td w S Hok) as Hreturns;
      pose proof (unchanged_timers_upsert_saveAccount w cu p ai td S) as Htimers';
      destruct (UpsertVariant.saveAccount cu p ai td w S) as [[e' | []] s2]; [done |]
  end.
  destruct Hreturns as (expires & iso & _ & _ & Hw & Happ & Hstore).
  rewrite Hfull, on_error_outcome. simpl_state. cbn [fst snd] in *.
  split; [done |]. split; [done |]. simpl in Hstore, Htimers', Happ.
  split; [by rewrite Hstore, Hls |]. split; [by rewrite Htimers', Htimers |].
  exists expires, iso. split.
  - unfold writes in Hw |- *. simpl_state. simpl_state in Hw.
    rewrite !List.filter_app in Hw. rewrite !List.filter_app.
    cbn [List.filter is_write app] in Hw |- *.
    rewrite ?app_nil_r in Hw. rewrite ?app_nil_r. fold (writes s1) in Hw.
    fold (writes s). by rewrite <- Hwrites'.
  - by rewrite Happ, Htable, Hnext.
Qed.

Lemma receipt_failure_follows_the_upsert_witness :
  status (UpsertVariant.handleOAuthCallback Cases.storage_full Cases.start).2 = error /\
  message (UpsertVariant.handleOAuthCallback Cases.storage_full Cases.start).2 =
    shown_message (Throw "QuotaExceededError" "The quota has been exceeded.") /\
  exists expires iso,
    (social_accounts (UpsertVariant.handleOAuthCallback Cases.storage_full Cases.start).2,
     next_id (UpsertVariant.handleOAuthCallback Cases.storage_full Cases.start).2) =
    applied (upsert_write Scenario.jane "twitter" Scenario.jane_d Scenario.tokens expires
               (JStr iso))
      (social_accounts Cases.start, next_id Cases.start).
Proof.
  assert (clock_in_range Cases.storage_full Scenario.tokens (clock Cases.start)) as Hclock.
  { intros k Hk. simpl in *. lia. }
  assert ((UpsertVariant.restoreSession "twitter" Cases.storage_full Cases.start).1 =
          inr (Some {| user := Some Scenario.jane |})) as Hlogin
    by (vm_compute; reflexivity).
  assert ((fetchAccountInfo "twitter" (access_token Scenario.tokens) Cases.storage_full
             Cases.start).1 = inr Scenario.jane_d) as Hfetch
    by (vm_compute; reflexivity).
  destruct (receipt_failure_follows_the_upsert Cases.storage_full Cases.start
              "abc" "xyz" "twitter" {| user := Some Scenario.jane |} Scenario.jane
              Scenario.tokens Scenario.jane_d
              (Throw "QuotaExceededError" "The quota has been exceeded.")
              (conj eq_refl (conj eq_refl (conj eq_refl eq_refl))) Hlogin eq_refl
              eq_refl Hfetch Hclock (fun _ _ => eq_refl) (fun _ => eq_refl))
    as (Hstatus & Hmessage & _ & _ & expires & iso & _ & Happ).
  split; [exact Hstatus |]. split; [exact Hmessage |].
  exists expires, iso. exact Happ.
Defined.

(** * What a run does to the two storages *)

Ltac unchanged_entry :=
  unchanged_blocks;
  try (apply unchanged_modify; intros ?; simpl;
       first [apply lookup_insert_ne | apply lookup_delete_ne];
       first [discriminate | solve [auto] | by apply not_eq_sym]).

(** X14. The upserting handler never touches [sessionStorage], and it
    never removes or rewrites a snapshot of the session: every
    [oauth_supabase_session_<platform>] entry of [localStorage] is after
    the run what it was before, whatever the outcome. *)
Theorem upsert_variant_keeps_every_snapshot (w : World) (s : State) (p : string) :
  sessionStorage (UpsertVariant.handleOAuthCallback w s).2 = sessionStorage s /\
  localStorage (UpsertVariant.handleOAuthCallback w s).2 !! ("oauth_supabase_session_" +:+ p) =
  localStorage s !! ("oauth_supabase_session_" +:+ p).
Proof.
  split.
  - assert (unchanged sessionStorage w UpsertVariant.handleOAuthCallback) as H
      by unchanged_blocks.
    apply H.
  - assert (unchanged (fun s => localStorage s !! ("oauth_supabase_session_" +:+ p)) w
              UpsertVariant.handleOAuthCallback) as H by unchanged_entry.
    apply H.
Qed.

(** X15. The handle-aware handler leaves every entry of both storages
    alone except those under the keys [oauth_supabase_session_<platform>],
    [oauth_username_<platform>] and [oauth_display_name_<platform>]: any
    other key reads after the run as it did before, whatever the
    outcome. *)
Theorem handle_aware_storage_footprint (w : World) (s : State) (k : string) :
  (forall p, "oauth_supabase_session_" +:+ p <> k) ->
  (forall p, "oauth_username_" +:+ p <> k) ->
  (forall p, "oauth_display_name_" +:+ p <> k) ->
  localStorage (HandleAware.handleOAuthCallback w s).2 !! k = localStorage s !! k /\
  sessionStorage (HandleAware.handleOAuthCallback w s).2 !! k = sessionStorage s !! k.
Proof.
  intros Hsnapshot Husername Hdisplay. split.
  - assert (unchanged (fun s => localStorage s !! k) w HandleAware.handleOAuthCallback) as H
      by unchanged_entry.
    apply H.
  - assert (unchanged (fun s => sessionStorage s !! k) w HandleAware.handleOAuthCallback) as H
      by unchanged_entry.
    apply H.
Qed.

Lemma handle_aware_storage_footprint_witness :
  sessionStorage
    (HandleAware.handleOAuthCallback Scenario.world
       (page_load ∅ {[ "oauth_pkce_verifier" := "v3rifier" ]} [] 1)).2
    !! "oauth_pkce_verifier" = Some "v3rifier".
Proof.
  refine (proj2 (handle_aware_storage_footprint Scenario.world
                   (page_load ∅ {[ "oauth_pkce_verifier" := "v3rifier" ]} [] 1)
                   "oauth_pkce_verifier" _ _ _));
    intros p; simpl; discriminate.
Defined.

Lemma unchanged_localStorage_linkAccount (w : World) (cu : User) (p c st : string) :
  unchanged localStorage w (HandleAware.linkAccount cu p c st).
Proof. unchanged_blocks. Qed.

(** X16. With a session already in place the handle-aware handler
    leaves [localStorage] as it was: a snapshot stored under
    [oauth_supabase_session_<platform>] is still there after the run,
    whatever the outcome. *)
Theorem session_in_place_keeps_snapshot (w : World) (s : State) (cu : User) :
  session_in_place w cu ->
  localStorage (HandleAware.handleOAuthCallback w s).2 = localStorage s.
Proof.
  intros Hsession.
  assert (forall p, unchanged localStorage w (HandleAware.restoreUser p)) as Hrestore.
  { intros p s0. by rewrite (restoreUser_session_in_place w s0 p cu Hsession). }
  assert (unchanged localStorage w HandleAware.handleOAuthCallback) as H; [| apply H].
  unfold HandleAware.handleOAuthCallback.
  repeat first
    [ apply Hrestore
    | apply unchanged_localStorage_linkAccount
    | unchanged_step
    | progress unfold on_error, console, setStatus, setMessage, emit ].
Qed.

Lemma session_in_place_keeps_snapshot_witness :
  localStorage
    (HandleAware.handleOAuthCallback
       (Cases.usual (inr Scenario.tokens) Cases.profile Cases.no_fault)
       Cases.start_snapshot).2 !! "oauth_supabase_session_twitter" = Some Scenario.snapshot.
Proof.
  rewrite (session_in_place_keeps_snapshot
             (Cases.usual (inr Scenario.tokens) Cases.profile Cases.no_fault)
             Cases.start_snapshot Scenario.jane
             (ex_intro _ {| user := Some Scenario.jane |} (conj eq_refl eq_refl))).
  reflexivity.
Defined.

(** X17. A callback path whose last segment is empty (it ends in a
    slash) names no platform: with a code and a state in the query, both
    handlers end in the error state with the message
    [Platform not specified], and no backend is called. *)
Theorem empty_last_segment_is_rejected (w : World) (s : State) (c st : string) :
  nonempty (URLSearchParams_get "error" (URLSearchParams (search w))) = None ->
  nonempty (URLSearchParams_get "code" (URLSearchParams (search w))) = Some c ->
  nonempty (URLSearchParams_get "state" (URLSearchParams (search w))) = Some st ->
  platform_of w = None ->
  HandleAware.handleOAuthCallback w s =
    (inr tt,
     with_message "Platform not specified"
       (with_status error (with_event (Console "error" "OAuth callback error:") s))) /\
  UpsertVariant.handleOAuthCallback w s =
    (inr tt,
     with_message "Platform not specified"
       (with_status error
          (with_event (Console "error" "OAuth callback error:")
             (with_event (Console "log" "OAuth Callback Debug:") s)))).
Proof.
  intros Herr Hc Hst Hp. unfold platform_of in Hp. split.
  - unfold HandleAware.handleOAuthCallback. unfold_calls.
    rewrite (nonempty_None_falsy _ Herr), Hc, Hst, Hp. by rewrite on_error_outcome.
  - unfold UpsertVariant.handleOAuthCallback. unfold_calls.
    rewrite (nonempty_None_falsy _ Herr), Hc, Hst, Hp. by rewrite on_error_outcome.
Qed.

Lemma empty_last_segment_is_rejected_witness :
  message
    (HandleAware.handleOAuthCallback
       (Cases.world_of "/oauth/callback/" "?code=abc&state=xyz" Cases.logged_in
          (inr Scenario.tokens) Cases.profile Cases.no_fault)
       Cases.start).2 = "Platform not specified".
Proof.
  rewrite (proj1 (empty_last_segment_is_rejected
                    (Cases.world_of "/oauth/callback/" "?code=abc&state=xyz" Cases.logged_in
                       (inr Scenario.tokens) Cases.profile Cases.no_fault)
                    Cases.start "abc" "xyz" eq_refl eq_refl eq_refl eq_refl)).
  reflexivity.
Defined.

(** * The table under lookups that fail and under the conflict target *)

Lemma connect_row_matches (cu : User) (p : string) (ai : AccountInfo) (td : TokenData)
    (hint : option string) (expires : js) (next : Z) :
  handle ai <> null -> handle ai <> undefined ->
  matches (account_key (JStr (User_id cu)) (JStr p) (handle ai))
    (<["id" := JNum next]> (sent (connect_values cu p ai td hint expires))) = true.
Proof.
  intros Hnull Hundef. unfold account_key.
  rewrite !matches_cons, !andb_true_iff, !column_eq_true.
  rewrite !lookup_insert_ne by done. rewrite !sent_lookup.
  split_and!; try done.
  change (Some (handle ai) ≫= stored = Some (handle ai)).
  simpl. by destruct (handle ai).
Qed.

(** X18. The handle-aware handler keeps only [data] of its lookup. When
    the lookup fails, or finds several records of the account, it goes on
    as for a first connect: if the insert succeeds, the table has one more
    record of the same user, platform and handle than before. *)
Theorem unanswered_lookup_duplicates_the_account (w : World) (s : State) (cu : User)
    (p : string) (ai : AccountInfo) (td : TokenData) (hint : option string) :
  db_fault w (Select "id" (account_key (JStr (User_id cu)) (JStr p) (handle ai))) <> None \/
  (2 <= length (records_for (JStr (User_id cu)) (JStr p) (handle ai) (social_accounts s)))%nat ->
  handle ai <> null -> handle ai <> undefined ->
  (HandleAware.saveAccount cu p ai td hint w s).1 = inr tt ->
  length (records_for (JStr (User_id cu)) (JStr p) (handle ai)
            (social_accounts (HandleAware.saveAccount cu p ai td hint w s).2)) =
  S (length (records_for (JStr (User_id cu)) (JStr p) (handle ai) (social_accounts s))).
Proof.
  intros Hlookup Hnull Hundef Hok.
  pose proof (saveAccount_outcome cu p ai td hint w s) as H. cbv zeta in H.
  assert (exists expires,
             social_accounts (HandleAware.saveAccount cu p ai td hint w s).2 =
             inserted (connect_values cu p ai td hint expires) (next_id s) (social_accounts s))
    as [expires ->].
  { destruct (db_fault w _) as [e' |];
      [| destruct (records_for _ _ _ (social_accounts s)) as [| r [| r' rest]]];
      try (destruct Hlookup as [Hlookup | Hlookup]; [done | simpl in Hlookup; lia]);
      (destruct H as [(e0 & H0 & _) | (expires & _ & _ & H & _)]; [congruence |]);
      by exists expires. }
  unfold records_for at 1. rewrite filter_inserted, connect_row_matches by done.
  rewrite length_app. unfold records_for. simpl. lia.
Qed.

Lemma unanswered_lookup_duplicates_the_account_witness :
  length (records_for (JStr "user-1") (JStr "twitter") (JStr "@jane_d")
            (social_accounts
               (HandleAware.saveAccount Scenario.jane "twitter" Scenario.jane_d Scenario.tokens
                  None (Cases.usual (inr Scenario.tokens) Cases.profile Cases.select_fails)
                  Scenario.connected).2)) = 2%nat.
Proof.
  apply (unanswered_lookup_duplicates_the_account
           (Cases.usual (inr Scenario.tokens) Cases.profile Cases.select_fails)
           Scenario.connected Scenario.jane "twitter" Scenario.jane_d Scenario.tokens None).
  - left. discriminate.
  - discriminate.
  - discriminate.
  - vm_compute. reflexivity.
Defined.

(** X19. The upserting handler has one record per user and platform:
    when the user already has a record on the platform and the upsert
    succeeds, that record is rewritten in place, under its id, with the
    handle and the name of the account now connected, whatever account it
    held before; no row is added. *)
Theorem upsert_replaces_the_connected_account (w : World) (s : State) (cu : User)
    (p : string) (ai : AccountInfo) (td : TokenData) (r : Row) (i : nat) :
  social_accounts s !! i = Some r ->
  matches [("user_id", JStr (User_id cu)); ("platform", JStr p)] r = true ->
  handle ai <> undefined -> name ai <> undefined ->
  (UpsertVariant.saveAccount cu p ai td w s).1 = inr tt ->
  length (social_accounts (UpsertVariant.saveAccount cu p ai td w s).2) =
    length (social_accounts s) /\
  exists r',
    social_accounts (UpsertVariant.saveAccount cu p ai td w s).2 !! i = Some r' /\
    r' !! "id" = r !! "id" /\
    r' !! "account_handle" = Some (handle ai) /\
    r' !! "account_name" = Some (name ai) /\
    r' !! "access_token" = Some (JStr (access_token td)).
Proof.
  intros Hi Hr Hhandle Hname Hok.
  destruct (upsert_saveAccount_outcome cu p ai td w s)
    as [(e & He & _) | (expires & iso & _ & _ & _ & Htable)]; [congruence |].
  assert (existsb (matches [("user_id", JStr (User_id cu)); ("platform", JStr p)])
            (social_accounts s) = true) as Hex.
  { apply existsb_exists. exists r. split; [| done].
    apply list_elem_of_In. by eapply list_elem_of_lookup_2. }
  rewrite Hex in Htable. injection Htable as Htable _. rewrite Htable.
  split; [apply updated_length |].
  rewrite updated_lookup, Hi. cbn [fmap option_fmap option_map]. rewrite Hr.
  eexists. split; [reflexivity |]. split_and!.
  - by apply union_sent_other.
  - by apply union_sent_written.
  - by apply union_sent_written.
  - by apply union_sent_written.
Qed.

Lemma upsert_replaces_the_connected_account_witness :
  exists r',
    social_accounts
      (UpsertVariant.saveAccount Scenario.jane "twitter"
         {| name := JStr "Jane at work"; handle := JStr "@jane_work" |} Scenario.tokens
         (Cases.usual (inr Scenario.tokens) Cases.profile Cases.no_fault)
         Scenario.connected).2 !! 0%nat = Some r' /\
    r' !! "account_handle" = Some (JStr "@jane_work").
Proof.
  assert (social_accounts Scenario.connected !! 0%nat = Some Scenario.record) as Hi
    by (vm_compute; reflexivity).
  assert (matches [("user_id", JStr (User_id Scenario.jane)); ("platform", JStr "twitter")]
            Scenario.record = true) as Hr
    by (vm_compute; reflexivity).
  assert ((UpsertVariant.saveAccount Scenario.jane "twitter"
             {| name := JStr "Jane at work"; handle := JStr "@jane_work" |} Scenario.tokens
             (Cases.usual (inr Scenario.tokens) Cases.profile Cases.no_fault)
             Scenario.connected).1 = inr tt) as Hok
    by (vm_compute; reflexivity).
  destruct (upsert_replaces_the_connected_account
              (Cases.usual (inr Scenario.tokens) Cases.profile Cases.no_fault)
              Scenario.connected Scenario.jane "twitter"
              {| name := JStr "Jane at work"; handle := JStr "@jane_work" |} Scenario.tokens
              Scenario.record 0%nat Hi Hr ltac:(discriminate) ltac:(discriminate) Hok)
    as (_ & r' & Hr' & _ & Hhandle & _).
  exists r'. split; [exact Hr' | exact Hhandle].
Defined.

(** X20. Over any sequence of callbacks, whatever the backends answer,
    the upserting handler keeps at most one record per (user_id,
    platform), and so at most one per (user_id, platform,
    account_handle). *)
Theorem upsert_variant_one_record_per_platform (ws : list World) (s : State) :
  one_record_per_platform (social_accounts s) ->
  one_record_per_platform
    (social_accounts (callbacks UpsertVariant.handleOAuthCallback ws s)) /\
  one_record_per_account
    (social_accounts (callbacks UpsertVariant.handleOAuthCallback ws s)).
Proof. apply upsert_variant_keeps_one_record. Qed.

Lemma upsert_variant_one_record_per_platform_witness :
  one_record_per_platform
    (social_accounts
       (callbacks UpsertVariant.handleOAuthCallback
          [Cases.usual (inr Scenario.tokens) Cases.profile Cases.no_fault;
           Cases.usual (inr Scenario.tokens) Cases.other_profile Cases.no_fault]
          Cases.start)).
Proof.
  apply (upsert_variant_one_record_per_platform
           [Cases.usual (inr Scenario.tokens) Cases.profile Cases.no_fault;
            Cases.usual (inr Scenario.tokens) Cases.other_profile Cases.no_fault]
           Cases.start).
  intros u p. simpl. lia.
Defined.

(** * A snapshot that the backend does not restore *)

(** X21. With no session in place and a snapshot that parses, when
    [setSession] answers with an error or without a user, the
    handle-aware handler ends in the error state with the "not logged in"
    message and has removed the snapshot from [localStorage]: only a
    promise that rejects (or a snapshot that does not parse) leaves it in
    place. No token is exchanged. *)
Theorem refused_snapshot_is_consumed (w : World) (s : State) (c st p saved : string)
    (existing : option Session) (parsed access refresh : js) (r : AuthResponse) :
  redirect_for w c st p ->
  auth_session w = inr existing -> existing ≫= user = None ->
  localStorage s !! ("oauth_supabase_session_" +:+ p) = Some saved -> saved <> "" ->
  json_parse w saved = Some parsed ->
  get_prop parsed "access_token" = inr access ->
  get_prop parsed "refresh_token" = inr refresh ->
  auth_restore w (JObj [("access_token", access); ("refresh_token", refresh)]) = inr r ->
  auth_error r <> None \/ data_user r = None ->
  HandleAware.handleOAuthCallback w s =
  (inr tt,
   with_message not_logged_in
     (with_status error
        (with_event (Console "error" "OAuth callback error:")
           (with_localStorage (delete ("oauth_supabase_session_" +:+ p))
              (with_event (LocalStorage_removeItem ("oauth_supabase_session_" +:+ p))
                 (with_event
                    (SetSession (JObj [("access_token", access); ("refresh_token", refresh)]))
                    (with_event (LocalStorage_getItem ("oauth_supabase_session_" +:+ p))
                       (with_event GetSession s)))))))).
Proof.
  intros (Herr & Hc & Hst & Hp) Hsession Hnouser Hsaved Hne Hparse Haccess Hrefresh
    Hrestore Hrefused.
  unfold platform_of in Hp.
  unfold HandleAware.handleOAuthCallback. unfold_calls.
  rewrite (nonempty_None_falsy _ Herr), Hc, Hst, Hp.
  rewrite (restoreUser_from_snapshot w s p saved existing parsed access refresh r) by done.
  assert (match auth_error r, data_user r with
          | None, Some u => Some u
          | _, _ => None
          end = None) as ->.
  { destruct (auth_error r), (data_user r); try done. by destruct Hrefused. }
  by rewrite on_error_outcome.
Qed.

Lemma refused_snapshot_is_consumed_witness :
  status (HandleAware.handleOAuthCallback
            (Cases.refusing (inr Cases.invalid_refresh_token)) Cases.start_snapshot).2 = error /\
  localStorage
    (HandleAware.handleOAuthCallback
       (Cases.refusing (inr Cases.invalid_refresh_token)) Cases.start_snapshot).2
    !! "oauth_supabase_session_twitter" = None.
Proof.
  assert (redirect_for (Cases.refusing (inr Cases.invalid_refresh_token)) "abc" "xyz" "twitter")
    as Hredirect by (repeat split; vm_compute; reflexivity).
  assert (localStorage Cases.start_snapshot !! ("oauth_supabase_session_" +:+ "twitter") =
          Some Scenario.snapshot) as Hsaved by (vm_compute; reflexivity).
  assert (Scenario.snapshot <> "") as Hne by (vm_compute; discriminate).
  assert (json_parse (Cases.refusing (inr Cases.invalid_refresh_token)) Scenario.snapshot =
          Some Scenario.session_object) as Hparse by (vm_compute; reflexivity).
  assert (get_prop Scenario.session_object "access_token" = inr (JStr "at")) as Haccess
    by reflexivity.
  assert (get_prop Scenario.session_object "refresh_token" = inr (JStr "rt")) as Hrefresh
    by reflexivity.
  assert (auth_error Cases.invalid_refresh_token <> None \/
          data_user Cases.invalid_refresh_token = None) as Hrefused
    by (right; reflexivity).
  pose proof (refused_snapshot_is_consumed
                (Cases.refusing (inr Cases.invalid_refresh_token))
                Cases.start_snapshot "abc" "xyz" "twitter" Scenario.snapshot None
                Scenario.session_object (JStr "at") (JStr "rt") Cases.invalid_refresh_token
                Hredirect eq_refl eq_refl Hsaved Hne Hparse Haccess Hrefresh eq_refl Hrefused)
    as Hrun.
  rewrite Hrun. split; vm_compute; reflexivity.
Defined.

(** * The connect button *)

Module LoginFacts.
Import SocialMediaLogin.

#[local] Existing Instance C_ret.
#[local] Existing Instance C_bind.

Lemma handleConnect_run (platform_id : string) (b : Backend) (c : Component) :
  handleConnect platform_id b c =
  match session_answer b with
  | inl e =>
      (inr tt,
       {| isLoading := false; error := Some (connect_message e);
          actions := actions c ++ [GetSession; Console "error" "Connect error:"] |})
  | inr session =>
      if negb (truthy (optional_prop session "user")) then
        (inr tt,
         {| isLoading := false;
            error := Some "You must be logged in to connect social accounts";
            actions := actions c ++ [GetSession;
                                     Console "log" "Connect button clicked, session:";
                                     Console "error" "Connect error:"] |})
      else
        match JSON_stringify session with
        | None =>
            (inr tt,
             {| isLoading := false;
                error := Some "Cannot read properties of undefined (reading 'length')";
                actions := actions c ++ [GetSession;
                                         Console "log" "Connect button clicked, session:";
                                         Console "error" "Connect error:"] |})
        | Some sessionData =>
            match initiateOAuth_answer b platform_id sessionData with
            | inr _ =>
                (inr tt,
                 {| isLoading := true; error := None;
                    actions := actions c ++
                      [GetSession;
                       Console "log" "Connect button clicked, session:";
                       Console "log" "About to initiate OAuth with session data length:";
                       InitiateOAuth platform_id sessionData] |})
            | inl e =>
                (inr tt,
                 {| isLoading := false; error := Some (connect_message e);
                    actions := actions c ++
                      [GetSession;
                       Console "log" "Connect button clicked, session:";
                       Console "log" "About to initiate OAuth with session data length:";
                       InitiateOAuth platform_id sessionData;
                       Console "error" "Connect error:"] |})
            end
        end
  end.
Proof.
  unfold handleConnect, connect_message.
  cbv beta iota zeta delta [mbind C_bind attempt getSession setError setIsLoading act raise
                            initiateOAuth isLoading error actions].
  destruct (session_answer b) as [e | session];
    [| destruct (negb (truthy (optional_prop session "user")));
       [| destruct (JSON_stringify session) as [sessionData |];
          [destruct (initiateOAuth_answer b platform_id sessionData) as [e | []] |]]];
    cbv beta iota zeta delta [isLoading error actions]; unfold js_or, truthy;
    try destruct (String.eqb (exn_message e) "");
    simpl; rewrite <- ?app_assoc; reflexivity.
Qed.

End LoginFacts.

(** X22. Without a user in the session (no session, or a session without
    [user]) the connect button never calls [initiateOAuth]: it shows
    [You must be logged in to connect social accounts] and stops
    loading. *)
Theorem connect_without_user_stays_on_the_page (platform_id : string) (session : js)
    (b : SocialMediaLogin.Backend) (c : SocialMediaLogin.Component) :
  SocialMediaLogin.session_answer b = inr session ->
  truthy (SocialMediaLogin.optional_prop session "user") = false ->
  SocialMediaLogin.handleConnect platform_id b c =
  (inr tt,
   {| SocialMediaLogin.isLoading := false;
      SocialMediaLogin.error := Some "You must be logged in to connect social accounts";
      SocialMediaLogin.actions :=
        SocialMediaLogin.actions c ++
        [SocialMediaLogin.GetSession;
         SocialMediaLogin.Console "log" "Connect button clicked, session:";
         SocialMediaLogin.Console "error" "Connect error:"] |}).
Proof.
  intros Hsession Huser. rewrite LoginFacts.handleConnect_run, Hsession, Huser. reflexivity.
Qed.

Lemma connect_without_user_stays_on_the_page_witness :
  SocialMediaLogin.error
    (SocialMediaLogin.handleConnect "twitter" (Cases.backend null (inr tt))
       (SocialMediaLogin.idle None)).2 =
  Some "You must be logged in to connect social accounts".
Proof.
  rewrite (connect_without_user_stays_on_the_page "twitter" null
             (Cases.backend null (inr tt)) (SocialMediaLogin.idle None) eq_refl eq_refl).
  reflexivity.
Defined.

(** X23. With a user in the session, the connect button hands
    [JSON.stringify(session)] to [initiateOAuth] for the platform, once.
    When that call resolves, the button keeps loading and no error is
    shown; when it rejects, the message of the rejection (or
    [Failed to connect. Please try again.]) is shown and loading stops. *)
Theorem connect_hands_over_the_session (platform_id sessionData : string) (session : js)
    (b : SocialMediaLogin.Backend) (c : SocialMediaLogin.Component) :
  SocialMediaLogin.session_answer b = inr session ->
  truthy (SocialMediaLogin.optional_prop session "user") = true ->
  JSON_stringify session = Some sessionData ->
  SocialMediaLogin.handleConnect platform_id b c =
  (inr tt,
   match SocialMediaLogin.initiateOAuth_answer b platform_id sessionData with
   | inr _ =>
       {| SocialMediaLogin.isLoading := true;
          SocialMediaLogin.error := None;
          SocialMediaLogin.actions :=
            SocialMediaLogin.actions c ++
            [SocialMediaLogin.GetSession;
             SocialMediaLogin.Console "log" "Connect button clicked, session:";
             SocialMediaLogin.Console "log"
               "About to initiate OAuth with session data length:";
             SocialMediaLogin.InitiateOAuth platform_id sessionData] |}
   | inl e =>
       {| SocialMediaLogin.isLoading := false;
          SocialMediaLogin.error := Some (SocialMediaLogin.connect_message e);
          SocialMediaLogin.actions :=
            SocialMediaLogin.actions c ++
            [SocialMediaLogin.GetSession;
             SocialMediaLogin.Console "log" "Connect button clicked, session:";
             SocialMediaLogin.Console "log"
               "About to initiate OAuth with session data length:";
             SocialMediaLogin.InitiateOAuth platform_id sessionData;
             SocialMediaLogin.Console "error" "Connect error:"] |}
   end).
Proof.
  intros Hsession Huser Hdata.
  rewrite LoginFacts.handleConnect_run, Hsession, Huser, Hdata. simpl.
  by destruct (SocialMediaLogin.initiateOAuth_answer b platform_id sessionData).
Qed.

Lemma connect_hands_over_the_session_witness :
  SocialMediaLogin.actions
    (SocialMediaLogin.handleConnect "twitter"
       (Cases.backend (JObj [("user", JObj [("id", JStr "user-1")])]) (inr tt))
       (SocialMediaLogin.idle (Some "earlier error"))).2 =
  [SocialMediaLogin.GetSession;
   SocialMediaLogin.Console "log" "Connect button clicked, session:";
   SocialMediaLogin.Console "log" "About to initiate OAuth with session data length:";
   SocialMediaLogin.InitiateOAuth "twitter"
     (default "" (JSON_stringify (JObj [("user", JObj [("id", JStr "user-1")])])))].
Proof.
  rewrite (connect_hands_over_the_session "twitter"
             (default "" (JSON_stringify (JObj [("user", JObj [("id", JStr "user-1")])])))
             (JObj [("user", JObj [("id", JStr "user-1")])])
             (Cases.backend (JObj [("user", JObj [("id", JStr "user-1")])]) (inr tt))
             (SocialMediaLogin.idle (Some "earlier error")) eq_refl eq_refl eq_refl).
  reflexivity.
Defined.

(** * The receipt of the upserting handler *)

(** X25. The upserting handler writes to [localStorage] only when it
    succeeds, and then exactly one entry: under
    [oauth_success_<platform>], the JSON text of the platform, of the
    account that [fetchAccountInfo] returned for the exchanged token, and
    of a timestamp. A run that ends in the error state leaves
    [localStorage] as it was. *)
Theorem upsert_variant_receipt (w : World) (s : State) :
  (status (UpsertVariant.handleOAuthCallback w s).2 = error /\
   localStorage (UpsertVariant.handleOAuthCallback w s).2 = localStorage s) \/
  (status (UpsertVariant.handleOAuthCallback w s).2 = success /\
   exists p c st td ai ts,
     redirect_for w c st p /\
     token_endpoint w p c st = inr td /\
     (fetchAccountInfo p (access_token td) w s).1 = inr ai /\
     localStorage (UpsertVariant.handleOAuthCallback w s).2 =
       <["oauth_success_" +:+ p := receipt p ai ts]> (localStorage s)).
Proof.
  destruct (upsert_variant_result w s)
    as [_ [(Hstatus & _ & Hls & _)
          | (Hstatus & p & c & st & session & cu & td & ai & expires & stamp & ts
             & Hredirect & _ & _ & Htok & Hfetch & _ & _ & _ & _ & _ & _ & Hls)]].
  - by left.
  - right. split; [done |]. exists p, c, st, td, ai, ts. by split_and!.
Qed.

(** * Idempotence of the callback *)





